(** * Pi-hole v6 dashboard widgets: the data-acquisition cycle of each widget

    A shallow embedding of the [fetchData] methods of

    - [src/components/Widgets/PiHoleTopQueries.vue]
      (components [PiHoleTopQueries] and [PiHoleStats]) and
    - [src/components/Widgets/PiHoleTraffic.vue] (component [PiHoleTraffic]).

    JavaScript values are an inductive type, a refresh cycle is a computation
    in a state-and-exception monad whose state survives a [throw] (as the
    fields of [this] do), and the appliance, the wall clock, the time zone,
    the engine's reading of strings and objects as numbers and the chart
    library are variables of the enclosing sections. *)

From Stdlib Require Import ZArith QArith Qround List String Ascii Bool Lia DecimalString.
Import ListNotations.

Set Warnings "-register-all".

Local Open Scope string_scope.
Local Open Scope Z_scope.

(* ===================================================================== *)
(** ** JavaScript values *)
(* ===================================================================== *)

Module JS.

(** What [Response.json()] can produce, plus [undefined], which only a
  property read produces.  A number is the exact rational value of the
  double (JSON has no NaN; an overflowing numeral is outside the model).
  A string is the sequence of its code units, one character each.  An
  object is the ordered list of its own properties, keys distinct. *)
Inductive value : Type :=
| VUndefined
| VNull
| VBool (b : bool)
| VNum (q : Q)
| VStr (s : string)
| VArr (l : list value)
| VObj (o : list (string * value)).

(** What a [throw] carries.  [Error] is [new Error(message)]; [TypeError] is
  raised by the engine (a property read on [null], a call of something that
  is not a function) and by [fetch] on a network failure; [SyntaxError] by
  [json()] on a body that is not JSON; [RenderError] stands for whatever the
  chart collaborator throws. *)
Inductive error : Type :=
| Error (message : string)
| TypeError
| SyntaxError
| RenderError.

Definition ToBoolean (v : value) : bool :=
match v with
| VUndefined | VNull => false
| VBool b => b
| VNum q => negb (Qeq_bool q 0)
| VStr s => negb (String.eqb s "")
| VArr _ | VObj _ => true
end.

Definition typeof (v : value) : string :=
match v with
| VUndefined => "undefined"
| VNull => "object"
| VBool _ => "boolean"
| VNum _ => "number"
| VStr _ => "string"
| VArr _ | VObj _ => "object"
end.

Definition isArray (v : value) : bool :=
match v with VArr _ => true | _ => false end.

(** [v === undefined], [v === null], [v === "literal"]. *)
Definition is_undefined (v : value) : bool :=
match v with VUndefined => true | _ => false end.

Definition is_null (v : value) : bool :=
match v with VNull => true | _ => false end.

Definition strict_eq_str (v : value) (s : string) : bool :=
match v with VStr s' => String.eqb s' s | _ => false end.

Fixpoint lookup (k : string) (o : list (string * value)) : value :=
match o with
| [] => VUndefined
| (k', v) :: o' => if String.eqb k k' then v else lookup k o'
end.

(** The property read [v.k] for the data keys the widgets read ([session],
  [sid], [valid], [message], [top_sources], [blocking], the four summary
  fields and the two series names).  None of them names a member of
  [Object.prototype], [Array.prototype] or of a primitive's wrapper, so on
  an array or a primitive the read gives [undefined]; on [null] and
  [undefined] it throws. *)
Definition get (v : value) (k : string) : error + value :=
match v with
| VUndefined | VNull => inl TypeError
| VObj o => inr (lookup k o)
| VBool _ | VNum _ | VStr _ | VArr _ => inr VUndefined
end.

(** The assignment [o[k] = x] on an object: an existing key keeps its place,
  a new key goes last. *)
Fixpoint assign (k : string) (x : value) (o : list (string * value))
: list (string * value) :=
match o with
| [] => [(k, x)]
| (k', v) :: o' =>
    if String.eqb k k' then (k', x) :: o' else (k', v) :: assign k x o'
end.

(** [hostname.replace(/\/+$/, '')]: the trailing run of slashes is removed. *)
Fixpoint strip_trailing_slashes (s : string) : string :=
match s with
| EmptyString => EmptyString
| String c s' =>
    match strip_trailing_slashes s' with
    | EmptyString => if Ascii.eqb c "/" then EmptyString else String c EmptyString
    | r => String c r
    end
end.

(** Decimal rendering of an integral number, as a template literal or
  [''+n] renders it. *)
Definition Number_toString (n : Z) : string :=
NilZero.string_of_int (Z.to_int n).

(** The double nearest to a non-negative integer (ties to the even
  significand): an integer of at most 53 bits is a double. *)
Definition nearest_double (x : Z) : Z :=
let b := Z.log2 x in
if b <? 53 then x
else
  let ulp := 2 ^ (b - 52) in
  let q := x / ulp in
  let r := x mod ulp in
  let q := if 2 * r <? ulp then q
           else if 2 * r =? ulp then (if Z.even q then q else q + 1)
           else q + 1 in
  q * ulp.

(** The number of decimal digits of a positive integer. *)
Definition decimal_digits (x : Z) : Z :=
Z.of_nat (Decimal.nb_digits (Pos.to_uint (Z.to_pos x))).

(** The first digit of [Number::toString(x)] for a double [x] with [n]
  decimal digits: the digits printed are those of the least [k]-digit [s]
  with [s * 10^(n-k)] nearest to [x] among the doubles, for the least [k]
  that has one.  The search starts at [k] and goes on for [fuel] more
  digits; 17 digits tell any two doubles apart. *)
Fixpoint first_digit_from (fuel : nat) (x n k : Z) : Z :=
let e := n - k in
let s := x / 10 ^ e in
if nearest_double (s * 10 ^ e) =? x then s / 10 ^ (k - 1)
else if nearest_double ((s + 1) * 10 ^ e) =? x
     then (if s + 1 =? 10 ^ k then 1 else (s + 1) / 10 ^ (k - 1))
     else match fuel with
          | O => x / 10 ^ (n - 1)
          | S fuel' => first_digit_from fuel' x n (k + 1)
          end.

(** [parseInt(c)] for an integral number [c]: the argument goes through
  [ToString] first.  Below [10^21] in absolute value that is the decimal
  numeral of [c], which [parseInt] reads back; from [10^21] on it is the
  exponent form ([1e+21], [1.2e+24]), of which [parseInt] reads the digit
  before the point or the [e], with the sign. *)
Definition parseInt (c : Z) : Z :=
if Z.abs c <? 10 ^ 21 then c
else Z.sgn c * first_digit_from 16 (Z.abs c) (decimal_digits (Z.abs c)) 1.

(** A Number that is not an infinity. *)
Inductive number : Type :=
| NaN
| Finite (q : Q).

Section Conversion.

(** [ToNumber] of a string, an array or an object: the engine turns an
  array or an object into a string ([ToPrimitive]) and reads the string as
  a numeric literal.  The reading is left abstract; [None] is a conversion
  that throws (an object whose own [toString] is data), which is a
  [TypeError].  A conversion to an infinity is outside the model. *)
Variable asNumber : value -> option number.

Definition ToNumber (v : value) : error + number :=
match v with
| VUndefined => inr NaN
| VNull => inr (Finite 0%Q)
| VBool b => inr (Finite (if b then 1%Q else 0%Q))
| VNum q => inr (Finite q)
| VStr _ | VArr _ | VObj _ =>
    match asNumber v with
    | Some x => inr x
    | None => inl TypeError
    end
end.

End Conversion.

(** [Math.min(x, y)] on its converted arguments. *)
Definition Math_min (x y : number) : number :=
match x, y with
| Finite p, Finite q => Finite (if Qle_bool p q then p else q)
| _, _ => NaN
end.

(** [x === n] for a number [x] and an integer literal [n]. *)
Definition strict_eq_num (x : number) (n : Z) : bool :=
match x with
| NaN => false
| Finite q => Qeq_bool q (inject_Z n)
end.

(** [ToIntegerOrInfinity]: NaN gives 0, anything else loses its fraction. *)
Definition ToIntegerOrInfinity (x : number) : Z :=
match x with
| NaN => 0
| Finite q => if Qle_bool 0%Q q then Qfloor q else Qceiling q
end.

End JS.
Export JS.

(* ===================================================================== *)
(** ** The effects of a refresh cycle *)
(* ===================================================================== *)

(** A call of [fetch(url, {method, headers, body})].  The headers are the
    object literal handed to [fetch]; the body is the value handed to
    [JSON.stringify]. *)
Record request : Type := mkRequest {
  method : string;
  url : string;
  headers : list (string * value);
  body : option value
}.

(** What the appliance answers: the promise of [fetch] rejects, or it
    resolves to a response with its [ok] flag and the result of [json()]
    ([None] when the body does not parse). *)
Inductive outcome : Type :=
| NetworkError
| Response (ok : bool) (json : option value).

(** The world a cycle runs in: the widget's own reactive fields [data], the
    requests issued so far and the number of [new Date()] readings taken. *)
Record world (D : Type) : Type := mkWorld {
  data : D;
  requests : list request;
  clock_reads : nat
}.
Arguments mkWorld {D} _ _ _.
Arguments data {D} _.
Arguments requests {D} _.
Arguments clock_reads {D} _.

(** State and exceptions; the state is kept when an exception is raised. *)
Definition M (D A : Type) : Type := world D -> world D * (error + A).

Definition ret {D A} (a : A) : M D A := fun w => (w, inr a).

Definition throw {D A} (e : error) : M D A := fun w => (w, inl e).

Definition bind {D A B} (m : M D A) (k : A -> M D B) : M D B :=
  fun w =>
    match m w with
    | (w', inl e) => (w', inl e)
    | (w', inr a) => k a w'
    end.

(** [try { m } catch (err) { h err }]. *)
Definition try_catch {D A} (m : M D A) (h : error -> M D A) : M D A :=
  fun w =>
    match m w with
    | (w', inl e) => h e w'
    | (w', inr a) => (w', inr a)
    end.

Declare Scope js_scope.
Delimit Scope js_scope with js.
Notation "x <- m ;; k" := (bind m (fun x => k))
  (at level 61, m at next level, right associativity) : js_scope.
Notation "m ;; k" := (bind m (fun _ => k))
  (at level 61, right associativity) : js_scope.
Local Open Scope js_scope.

(** A fallible pure step (a property read) inside a cycle. *)
Definition lift {D A} (r : error + A) : M D A :=
  fun w => (w, r).

(** [if (c) throw e]. *)
Definition throw_if {D} (c : bool) (e : error) : M D unit :=
  if c then throw e else ret tt.

(** An assignment to the reactive fields. *)
Definition modify {D} (f : D -> D) : M D unit :=
  fun w => (mkWorld (f (data w)) (requests w) (clock_reads w), inr tt).

Definition final {D A} (r : world D * (error + A)) : D := data (fst r).
Definition result {D A} (r : world D * (error + A)) : error + A := snd r.
Definition issued {D A} (r : world D * (error + A)) : list request :=
  requests (fst r).

(** A world in which nothing has been fetched yet. *)
Definition fresh {D} (d : D) : world D := mkWorld d [] 0%nat.

(** The world once the request [r] has gone out. *)
Definition sent {D} (r : request) (w : world D) : world D :=
  mkWorld (data w) (requests w ++ [r]) (clock_reads w).

(** The widget options the cycles read ([props.options]): [hostname] is a
    string, [apiKey] is a string or absent, [count] is an integral number
    (the exact value of a double) or absent, [hideChart] is a flag. *)
Record options : Type := mkOptions {
  hostname : string;
  apiKey : option string;
  count : option Z;
  hideChart : bool
}.

(** A resolved [fetch] promise. *)
Record response : Type := mkResponse {
  ok : bool;
  parsed : option value
}.

Section Collaborators.

(** The appliance: what each request is answered with during the cycle. *)
Variable server : request -> outcome.
(** The wall clock: the instant (ms since the epoch) that the k-th
    [new Date()] of the cycle reads. *)
Variable clock : nat -> Z.

Context {D : Type}.

(** [await fetch(...)]: the request goes out, then the promise settles. *)
Definition fetch (r : request) : M D response :=
  fun w =>
    match server r with
    | NetworkError => (sent r w, inl TypeError)
    | Response o j => (sent r w, inr (mkResponse o j))
    end.

(** [await res.json()]. *)
Definition json (res : response) : M D value :=
  match parsed res with
  | Some v => ret v
  | None => throw SyntaxError
  end.

(** [new Date()] with no argument. *)
Definition newDate : M D Z :=
  fun w =>
    (mkWorld (data w) (requests w) (S (clock_reads w)),
     inr (clock (clock_reads w))).

Definition accept : string * value := ("Accept", VStr "application/json").

(** [this.options.hostname.replace(/\/+$/, empty string)]. *)
Definition baseUrl (o : options) : string :=
  strip_trailing_slashes (hostname o).

(** [this.options.apiKey || empty string]. *)
Definition password_of (o : options) : string :=
  match apiKey o with
  | Some s => s
  | None => ""
  end.

(** The request of the authentication block. *)
Definition authRequest (baseUrl password : string) : request :=
  mkRequest "POST" (baseUrl ++ "/api/auth")
    [("Content-Type", VStr "application/json")]
    (Some (VObj [("password", VStr password)])).

(** The authentication block that opens every [fetchData]
    (PiHoleTopQueries.vue 60-77 and 216-234, PiHoleTraffic.vue 41-58): the
    three copies differ in the message of the error only.  It yields the
    final value of [sid]. *)
Definition authenticate (message baseUrl password : string) : M D value :=
  if negb (String.eqb password "") then
    authRes <- fetch (authRequest baseUrl password);;
    authData <- json authRes;;
    session <- lift (get authData "session");;
    missing <- (if negb (ToBoolean session) then ret true
                else sid <- lift (get session "sid");;
                     ret (is_undefined sid));;
    throw_if missing (Error message);;
    sid <- lift (get session "sid");;
    if is_null sid then
      valid <- lift (get session "valid");;
      if ToBoolean valid then
        msg <- lift (get session "message");;
        if strict_eq_str msg "no password set" then ret VNull else ret sid
      else ret sid
    else ret sid
  else ret VNull.

(** The headers of every statistics request: [sid] is sent when truthy. *)
Definition stat_headers (sid : value) : list (string * value) :=
  if ToBoolean sid then [accept; ("sid", sid)] else [accept].

(** [fetch(url, { headers })] of a statistics endpoint. *)
Definition statRequest (url : string) (sid : value) : request :=
  mkRequest "GET" url (stat_headers sid) None.

End Collaborators.

(* ===================================================================== *)
(** ** PiHoleTopQueries *)
(* ===================================================================== *)

Module PiHoleTopQueries.

(** [this.data]: the two mappings the template iterates over. *)
Record state : Type := mkState {
  top_ads : value;
  top_queries : value
}.

Definition empty : state := mkState (VObj []) (VObj []).

Definition auth_failed_message : string := "Authentication failed: no session ID".
Definition auth_failed : error := Error auth_failed_message.
Definition unexpected : error := Error "Expected data was not returned from Pi-Hole".

(** [(typeof x === 'object' && !Array.isArray(x)) ? x: {}]. *)
Definition as_mapping (x : value) : value :=
  if String.eqb (typeof x) "object" && negb (isArray x) then x else VObj [].

Section Cycle.

Variable server : request -> outcome.
Variable opts : options.

(** The computed property [count] (lines 51-54).  [options.count] is an
    integral number or absent; of an absent one [parseInt] makes NaN, which
    is not an integer. *)
Definition count : Z :=
  match count opts with
  | Some c =>
      let c := parseInt c in
      if 0 <? c then c else 10
  | None => 10
  end.

Definition blockedUrl : string :=
  baseUrl opts ++ "/api/stats/top_domains?blocked=true&count=" ++ Number_toString count.

Definition allowedUrl : string :=
  baseUrl opts ++ "/api/stats/top_domains?blocked=false&count=" ++ Number_toString count.

(** The [try] block (lines 62-98). *)
Definition attempt : M state unit :=
  sid <- authenticate server auth_failed_message (baseUrl opts) (password_of opts);;
  blockedRes <- fetch server (statRequest blockedUrl sid);;
  throw_if (negb (ok blockedRes)) (Error "Failed to fetch top blocked domains");;
  blockedData <- json blockedRes;;
  allowedRes <- fetch server (statRequest allowedUrl sid);;
  throw_if (negb (ok allowedRes)) (Error "Failed to fetch top allowed domains");;
  allowedData <- json allowedRes;;
  bad <- (if is_null blockedData then ret true
          else top_sources <- lift (get blockedData "top_sources");;
               ret (ToBoolean top_sources || is_null allowedData));;
  throw_if bad unexpected;;
  modify (fun d => mkState (as_mapping blockedData) (top_queries d));;
  modify (fun d => mkState (top_ads d) (as_mapping allowedData)).

(** The [catch] block (lines 99-104). *)
Definition recover (err : error) : M state unit :=
  modify (fun d => mkState (VObj []) (top_queries d));;
  modify (fun d => mkState (top_ads d) (VObj []));;
  throw err.

Definition fetchData : M state unit := try_catch attempt recover.

End Cycle.

End PiHoleTopQueries.

(* ===================================================================== *)
(** ** PiHoleStats *)
(* ===================================================================== *)

Module PiHoleStats.

(** [this.data] is one object; its default is the empty object. *)
Definition state : Type := value.

Definition empty : state := VObj [].

Definition auth_failed_message : string :=
  "Authentication failed: no session ID returned".
Definition auth_failed : error := Error auth_failed_message.
Definition unexpected : error := Error "Expected data was not returned from Pi-Hole".

(** The assignment [v.k = x] in module (strict) code.  The cycle only ever
    assigns to a value that passed the summary validation, and that is an
    object (lemma [validated_is_object] below): the other cases are never
    reached. *)
Definition set (v : value) (k : string) (x : value) : error + value :=
  match v with
  | VObj o => inr (VObj (assign k x o))
  | _ => inl TypeError
  end.

Section Cycle.

Variable server : request -> outcome.
Variable opts : options.
(** [Number.prototype.toFixed(1)]; no property below depends on the
    digits it prints. *)
Variable toFixed1 : Q -> string.
(** The chart collaborator: what [updateChart()] throws, if anything,
    when it draws the data it is given. *)
Variable updateChart : state -> option error.

Definition callUpdateChart : M state unit :=
  fun w =>
    match updateChart (data w) with
    | Some e => (w, inl e)
    | None => (w, inr tt)
    end.

(** Step 4: the chain of [=== undefined] tests, left to right. *)
Fixpoint some_undefined (j : value) (fields : list string) : M state bool :=
  match fields with
  | [] => ret false
  | f :: rest =>
      x <- lift (get j f);;
      if is_undefined x then ret true else some_undefined j rest
  end.

Definition summary_fields : list string :=
  ["domains_being_blocked"; "dns_queries_today";
   "ads_blocked_today"; "ads_percentage_today"].

Definition summaryUrl : string := baseUrl opts ++ "/api/stats/summary".
Definition statusUrl : string := baseUrl opts ++ "/api/dns/blocking".

(** The [try] block (lines 218-269). *)
Definition attempt : M state unit :=
  sid <- authenticate server auth_failed_message (baseUrl opts) (password_of opts);;
  summaryRes <- fetch server (statRequest summaryUrl sid);;
  throw_if (negb (ok summaryRes)) (Error "Failed to fetch summary data");;
  summaryJson <- json summaryRes;;
  statusRes <- fetch server (statRequest statusUrl sid);;
  throw_if (negb (ok statusRes)) (Error "Failed to fetch status");;
  statusJson <- json statusRes;;
  invalid <- some_undefined summaryJson summary_fields;;
  throw_if invalid unexpected;;
  blocking <- lift (get statusJson "blocking");;
  let statusEnabled := if negb (is_undefined blocking) then blocking else VBool true in
  summaryJson <- lift (set summaryJson "status"
                         (VStr (if ToBoolean statusEnabled then "enabled" else "disabled")));;
  pct <- lift (get summaryJson "ads_percentage_today");;
  summaryJson <- match pct with
                 | VNum q => lift (set summaryJson "ads_percentage_today" (VStr (toFixed1 q)))
                 | _ => ret summaryJson
                 end;;
  modify (fun _ => summaryJson);;
  if negb (hideChart opts) then callUpdateChart else ret tt.

(** The [catch] block (lines 270-278). *)
Definition recover (err : error) : M state unit :=
  modify (fun _ => VObj []);;
  throw err.

Definition fetchData : M state unit := try_catch attempt recover.

End Cycle.

End PiHoleStats.

(* ===================================================================== *)
(** ** Local time *)
(* ===================================================================== *)

(** Instants and time values are integers of milliseconds; the range limit
    of [Date] (8.64e15 ms either side of the epoch) is outside the model. *)
Module DateTime.

Definition msPerMinute : Z := 60000.
Definition msPerHour : Z := 3600000.
Definition msPerDay : Z := 86400000.

Section Zone.

(** The host's time zone, as ECMAScript has it: the offset of local time
    at a UTC instant ([true]) or at a local time value ([false]). *)
Variable LocalTZA : Z -> bool -> Z.

Definition LocalTime (t : Z) : Z := t + LocalTZA t true.
Definition UTC (t : Z) : Z := t - LocalTZA t false.
Definition Day (t : Z) : Z := t / msPerDay.

(** [Date.prototype.getHours], [getMinutes]. *)
Definition getHours (t : Z) : Z := (LocalTime t / msPerHour) mod 24.
Definition getMinutes (t : Z) : Z := (LocalTime t / msPerMinute) mod 60.

(** [d.setHours(0, 0, 0, 0)]: the local time value of 00:00:00.000 of
    [d]'s local day, taken back to an instant with the offset the zone has
    at that local time. *)
Definition setHours0 (t : Z) : Z := UTC (Day (LocalTime t) * msPerDay).

End Zone.

(** A zone with a constant offset from UTC. *)
Definition fixed_zone (offset : Z) : Z -> bool -> Z := fun _ _ => offset.

End DateTime.

(* ===================================================================== *)
(** ** PiHoleTraffic *)
(* ===================================================================== *)

Module PiHoleTraffic.
Import DateTime.

(** The three reactive fields the chart is drawn from. *)
Record state : Type := mkState {
  labels : list string;
  queriesData : value;
  blockedData : value
}.

Definition empty : state := mkState [] (VArr []) (VArr []).

Definition auth_failed_message : string := "Authentication failed: no session ID".
Definition auth_failed : error := Error auth_failed_message.
Definition unexpected : error := Error "Expected data was not returned from Pi-Hole".

(** [x.length] where it is a count: arrays and strings. *)
Definition series_length (x : value) : option nat :=
  match x with
  | VArr l => Some (List.length l)
  | VStr s => Some (String.length s)
  | _ => None
  end.

(** [x.slice(0, n)]: arrays and strings have the method; on anything else
    [x.slice] is not a function. *)
Definition slice (x : value) (n : nat) : error + value :=
  match x with
  | VArr l => inr (VArr (firstn n l))
  | VStr s => inr (VStr (substring 0 n s))
  | _ => inl TypeError
  end.

(** [x.length] in general: the count of an array or a string, the own
    property of an object, [undefined] on a number or a boolean. *)
Definition length_of (x : value) : error + value :=
  match x with
  | VUndefined | VNull => inl TypeError
  | VArr l => inr (VNum (inject_Z (Z.of_nat (List.length l))))
  | VStr s => inr (VNum (inject_Z (Z.of_nat (String.length s))))
  | VObj o => inr (lookup "length" o)
  | VBool _ | VNum _ => inr VUndefined
  end.

(** How often [i < totalPoints] holds for [i = 0, 1, 2, ...]: never for
    NaN, otherwise up to the next integer. *)
Definition iterations (totalPoints : number) : nat :=
  match totalPoints with
  | NaN => 0%nat
  | Finite q => Z.to_nat (Qceiling q)
  end.

(** Where [x.slice(0, e)] ends on [len] elements: [e] as an integer,
    counted from the back when negative, and within [0 .. len]. *)
Definition slice_end (len : nat) (e : number) : nat :=
  let relativeEnd := ToIntegerOrInfinity e in
  if relativeEnd <? 0 then Z.to_nat (Z.max (Z.of_nat len + relativeEnd) 0)
  else Z.to_nat (Z.min relativeEnd (Z.of_nat len)).

(** [x.slice(0, e)] for a number [e]. *)
Definition slice_to (x : value) (e : number) : error + value :=
  match x with
  | VArr l => inr (VArr (firstn (slice_end (List.length l) e) l))
  | VStr s => inr (VStr (substring 0 (slice_end (String.length s) e) s))
  | _ => inl TypeError
  end.

Section Cycle.

Variable server : request -> outcome.
Variable clock : nat -> Z.
Variable LocalTZA : Z -> bool -> Z.
Variable opts : options.
(** The chart collaborator, as in [PiHoleStats]. *)
Variable updateChart : state -> option error.
(** The engine's reading of a string, an array or an object as a number
    (see [ToNumber]). *)
Variable asNumber : value -> option number.

Definition callUpdateChart : M state unit :=
  fun w =>
    match updateChart (data w) with
    | Some e => (w, inl e)
    | None => (w, inr tt)
    end.

(** The instant of point [i] of a series that starts at [startTime]:
    [startTime.getTime() + i * 600000]. *)
Definition pointTime (startTime i : Z) : Z := startTime + i * 600000.

(** Lines 94-98: the label of a local time of day. *)
Definition formatLabel (hours minutes : Z) : string :=
  let ampm := if hours >=? 12 then "PM" else "AM" in
  let hours := Z.rem hours 12 in
  let hours := if hours =? 0 then 12 else hours in
  let minuteStr := if minutes <? 10 then "0" ++ Number_toString minutes
                   else "" ++ Number_toString minutes in
  Number_toString hours ++ ":" ++ minuteStr ++ " " ++ ampm.

(** The label of the instant [t] (the body of the loop, lines 92-98). *)
Definition timeLabel (t : Z) : string :=
  formatLabel (getHours LocalTZA t) (getMinutes LocalTZA t).

(** [for (let i = ...; i < totalPoints; i++) { ...; this.labels.push(label) }]
    with [remaining] iterations to go. *)
Fixpoint pushLabels (startTime : Z) (remaining : nat) (i : Z) : M state unit :=
  match remaining with
  | O => ret tt
  | S k =>
      let t := pointTime startTime i in
      modify (fun d => mkState (labels d ++ [timeLabel t]) (queriesData d) (blockedData d));;
      pushLabels startTime k (i + 1)
  end.

(** Lines 77-87: the instant of the first point. *)
Definition startTimeOf (totalPoints : nat) : M state Z :=
  now <- newDate clock;;
  if Nat.eqb totalPoints 144 then ret (now - 24 * 60 * 60 * 1000)
  else today <- newDate clock;;
       ret (setHours0 LocalTZA today).

(** Lines 73-105 for any two values: the two lengths are read and go
    through the conversion of [Math.min]; the labels are reset, the clock
    is read, once more when the total is not 144, the loop runs, and the
    two [slice] calls follow in their order. *)
Definition reconstruct_any (domainsSeries adsSeries : value) : M state unit :=
  domainsLength <- lift (length_of domainsSeries);;
  adsLength <- lift (length_of adsSeries);;
  x <- lift (ToNumber asNumber domainsLength);;
  y <- lift (ToNumber asNumber adsLength);;
  let length := Math_min x y in
  let totalPoints := length in
  modify (fun d => mkState [] (queriesData d) (blockedData d));;
  now <- newDate clock;;
  startTime <- (if strict_eq_num totalPoints 144 then ret (now - 24 * 60 * 60 * 1000)
                else today <- newDate clock;;
                     ret (setHours0 LocalTZA today));;
  pushLabels startTime (iterations totalPoints) 0;;
  q <- lift (slice_to domainsSeries totalPoints);;
  modify (fun d => mkState (labels d) q (blockedData d));;
  bl <- lift (slice_to adsSeries totalPoints);;
  modify (fun d => mkState (labels d) (queriesData d) bl);;
  callUpdateChart.

(** Lines 72-105.  When both values are arrays or strings the two lengths
    are counts, and so is their minimum: the block is read on [nat].  When
    one of them is a number, a boolean or an object, the lengths are
    whatever the property read gives and the block is [reconstruct_any];
    it ends in a [TypeError], at the latest at the [slice] call on the
    value that has no such method.  On arrays and strings the two readings
    agree ([reconstruct_any_on_counts] below).  (A total that the loop
    cannot finish within the engine's memory is outside the model.) *)
Definition reconstruct (domainsSeries adsSeries : value) : M state unit :=
  match series_length domainsSeries, series_length adsSeries with
  | Some a, Some b =>
      let length := Nat.min a b in
      let totalPoints := length in
      modify (fun d => mkState [] (queriesData d) (blockedData d));;
      startTime <- startTimeOf totalPoints;;
      pushLabels startTime totalPoints 0;;
      q <- lift (slice domainsSeries totalPoints);;
      modify (fun d => mkState (labels d) q (blockedData d));;
      bl <- lift (slice adsSeries totalPoints);;
      modify (fun d => mkState (labels d) (queriesData d) bl);;
      callUpdateChart
  | _, _ => reconstruct_any domainsSeries adsSeries
  end.

Definition historyUrl : string := baseUrl opts ++ "/api/history".

(** The [try] block (lines 43-105). *)
Definition attempt : M state unit :=
  sid <- authenticate server auth_failed_message (baseUrl opts) (password_of opts);;
  historyRes <- fetch server (statRequest historyUrl sid);;
  throw_if (negb (ok historyRes)) (Error "Failed to fetch history data");;
  historyData <- json historyRes;;
  domains <- lift (get historyData "domains_over_time");;
  missing <- (if negb (ToBoolean domains) then ret true
              else ads <- lift (get historyData "ads_over_time");;
                   ret (negb (ToBoolean ads)));;
  throw_if missing unexpected;;
  domainsSeries <- lift (get historyData "domains_over_time");;
  adsSeries <- lift (get historyData "ads_over_time");;
  reconstruct domainsSeries adsSeries.

(** The [catch] block (lines 106-113). *)
Definition recover (err : error) : M state unit :=
  modify (fun d => mkState [] (queriesData d) (blockedData d));;
  modify (fun d => mkState (labels d) (VArr []) (blockedData d));;
  modify (fun d => mkState (labels d) (queriesData d) (VArr []));;
  throw err.

Definition fetchData : M state unit := try_catch attempt recover.

End Cycle.

End PiHoleTraffic.

(* ===================================================================== *)
(** ** Vocabulary of the statements *)
(* ===================================================================== *)


(** A non-null, non-array object. *)
Definition plain_object (v : value) : bool :=
  match v with
  | VObj _ => true
  | _ => false
  end.

(** A blocked payload that the guard of line 90 lets through: not [null],
    and without a truthy [top_sources]. *)
Definition passes_guard (b : value) : bool :=
  match b with
  | VUndefined | VNull => false
  | VObj o => negb (ToBoolean (lookup "top_sources" o))
  | VBool _ | VNum _ | VStr _ | VArr _ => true
  end.

(** The object the status/summary cycle emits for a validated summary [o]
    and the [blocking] field of the status payload (lines 257-265). *)
Definition emitted (toFixed1 : Q -> string) (o : list (string * value))
  (blocking : value) : value :=
  let statusEnabled := if negb (is_undefined blocking) then blocking else VBool true in
  let o1 := assign "status"
              (VStr (if ToBoolean statusEnabled then "enabled" else "disabled")) o in
  match lookup "ads_percentage_today" o1 with
  | VNum q => VObj (assign "ads_percentage_today" (VStr (toFixed1 q)) o1)
  | _ => VObj o1
  end.


(** The spec's words for a label: the hour on a 12-hour clock, never 0. *)
Definition hour12 (h : Z) : Z :=
  if h =? 0 then 12 else if h <=? 12 then h else h - 12.

(** ... the minutes as two decimal digits ... *)
Definition digit (d : Z) : ascii := ascii_of_nat (48 + Z.to_nat d).

Definition two_digits (m : Z) : string :=
  String (digit (m / 10)) (String (digit (m mod 10)) EmptyString).

(** ... and the suffix. *)
Definition meridiem (h : Z) : string := if h <? 12 then "AM" else "PM".

Definition twelve_hour_label (h m : Z) : string :=
  Number_toString (hour12 h) ++ ":" ++ two_digits m ++ " " ++ meridiem h.

(** The instants of the [n] points of a series that starts at [startTime]. *)
Definition pointTimes (startTime : Z) (n : nat) : list Z :=
  map (fun k => PiHoleTraffic.pointTime startTime (Z.of_nat k)) (seq 0 n).

(** The instant lines 77-87 compute for a series of [n] points, when the
    next two readings of the clock are [clock k] and [clock (S k)] with
    [k = clock_reads w]. *)
Definition startOf (clock : nat -> Z) (LocalTZA : Z -> bool -> Z) (n : nat)
  (w : world PiHoleTraffic.state) : Z :=
  if Nat.eqb n 144 then clock (clock_reads w) - 24 * 60 * 60 * 1000
  else DateTime.setHours0 LocalTZA (clock (S (clock_reads w))).

(** Local 00:00 of the local day of the instant [t] exists in the zone: the
    instant that [setHours(0, 0, 0, 0)] lands on shows that local time.  (A
    daylight-saving change can skip the first hour of a day.) *)
Definition midnight_exists (LocalTZA : Z -> bool -> Z) (t : Z) : Prop :=
  let m := DateTime.Day (DateTime.LocalTime LocalTZA t) * DateTime.msPerDay in
  DateTime.LocalTime LocalTZA (DateTime.UTC LocalTZA m) = m.

(** The check that the formatting of lines 94-98 agrees with the spec's
    words on every hour and minute of a day. *)
Definition labels_agree : bool :=
  forallb (fun h =>
    forallb (fun m =>
      String.eqb (PiHoleTraffic.formatLabel (Z.of_nat h) (Z.of_nat m))
                 (twelve_hour_label (Z.of_nat h) (Z.of_nat m)))
      (seq 0 60))
    (seq 0 24).


(** Every request a computation issues satisfies [P]: the log only grows,
    and by requests that satisfy [P]. *)
Definition emits {D A : Type} (P : request -> Prop) (m : M D A) : Prop :=
  forall w, exists new,
    requests (fst (m w)) = (requests w ++ new)%list /\ Forall P new.

(** A statistics request sent without a session: a GET that carries the
    [Accept] header and nothing else, and does not go to the auth endpoint. *)
Definition unauthenticated (o : options) (r : request) : Prop :=
  method r = "GET" /\
  headers r = [("Accept", VStr "application/json")] /\
  url r <> baseUrl o ++ "/api/auth".

(* ===================================================================== *)
(** ** Scenarios *)
(* ===================================================================== *)

Module Scenario.

(** An appliance given by a table from URL to answer; anything else is
    unreachable. *)
Definition answer (table : list (string * outcome)) (r : request) : outcome :=
  match find (fun e => String.eqb (fst e) (url r)) table with
  | Some e => snd e
  | None => NetworkError
  end.

Definition num (n : Z) : value := VNum (inject_Z n).

Definition json_ok (v : value) : outcome := Response true (Some v).

(** No secret configured. *)
Definition anonymous : options :=
  mkOptions "http://pihole.local" None None false.

(** The configuration of the spec's end-to-end scenario. *)
Definition keyed : options :=
  mkOptions "http://pihole.local" (Some "s3cr3t") None true.

Definition blocked10 : string :=
  "http://pihole.local/api/stats/top_domains?blocked=true&count=10".
Definition allowed10 : string :=
  "http://pihole.local/api/stats/top_domains?blocked=false&count=10".

Definition ranking : value :=
  VObj [("ads.example.com", num 42); ("tracker.example.net", num 7)].


(** The blocked ranking comes back as an array. *)
Definition array_blocked : request -> outcome :=
  answer [(blocked10, json_ok (VArr [num 1; num 2])); (allowed10, json_ok ranking)].

(** The blocked ranking is an object that has a truthy [top_sources]. *)
Definition sources : list (string * value) :=
  [("top_sources", VObj [("192.168.1.10", num 300)])].

Definition sources_blocked : request -> outcome :=
  answer [(blocked10, json_ok (VObj sources)); (allowed10, json_ok ranking)].





(** The appliance cannot be reached. *)
Definition unreachable : request -> outcome := fun _ => NetworkError.

(** The appliance accepts the password and hands out a token. *)
Definition granted : outcome :=
  json_ok (VObj [("session",
                  VObj [("valid", VBool true); ("sid", VStr "abc");
                        ("message", VStr "password correct")])]).

Definition summary : list (string * value) :=
  [("domains_being_blocked", num 120000); ("dns_queries_today", num 0);
   ("ads_blocked_today", num 0); ("ads_percentage_today", num 0)].

(** The spec's end-to-end scenario: all four fields, blocking off. *)
Definition blocking_off : request -> outcome :=
  answer [("http://pihole.local/api/auth", granted);
          ("http://pihole.local/api/stats/summary", json_ok (VObj summary));
          ("http://pihole.local/api/dns/blocking",
           json_ok (VObj [("blocking", VBool false)]))].

(** The summary lacks [ads_percentage_today]. *)
Definition partial_summary : value :=
  VObj [("domains_being_blocked", num 120000); ("dns_queries_today", num 5000);
        ("ads_blocked_today", num 900)].

Definition summary_incomplete : request -> outcome :=
  answer [("http://pihole.local/api/auth", granted);
          ("http://pihole.local/api/stats/summary", json_ok partial_summary);
          ("http://pihole.local/api/dns/blocking",
           json_ok (VObj [("blocking", VBool true)]))].

Definition one_decimal : Q -> string := fun _ => "0.0".

(** Series of 50 and of 80 samples, and a full day of 144. *)
Definition samples (n : nat) : list value := map (fun k => num (Z.of_nat k)) (seq 0 n).

(** A clock that reads 2024-01-15 17:55:00 UTC, then a millisecond more at
    each further reading. *)
Definition clock : nat -> Z := fun k => 1705341300000 + Z.of_nat k.

Definition no_chart_error {D : Type} : D -> option error := fun _ => None.

(** A reading of strings, arrays and objects as numbers.  No scenario has
    such a length, so any reading will do: this one makes NaN of them. *)
Definition not_a_number : value -> option number := fun _ => Some NaN.

End Scenario.

(* ===================================================================== *)
(** ** The rest of the components *)
(* ===================================================================== *)

(** [mounted()] of each component: [this.fetchData().catch(err => {})], a
    handler that does nothing with the error. *)
Definition swallowed {D : Type} (m : M D unit) : M D unit :=
  try_catch m (fun _ => ret tt).

Module PiHoleTopQueriesView.

Definition mounted (server : request -> outcome) (opts : options)
  : M PiHoleTopQueries.state unit :=
  swallowed (PiHoleTopQueries.fetchData server opts).

End PiHoleTopQueriesView.

Module PiHoleStatsView.

Definition mounted (server : request -> outcome) (opts : options)
  (toFixed1 : Q -> string) (updateChart : PiHoleStats.state -> option error)
  : M PiHoleStats.state unit :=
  swallowed (PiHoleStats.fetchData server opts toFixed1 updateChart).

(** The text of the status row (template, line 159):
    [data.status === 'enabled' ? 'Enabled' : 'Disabled']. *)
Definition statusText (data : value) : error + string :=
  match get data "status" with
  | inl e => inl e
  | inr s => inr (if strict_eq_str s "enabled" then "Enabled" else "Disabled")
  end.

(** The classes of the status value (template, line 158):
    [{'enabled': data.status === 'enabled', 'disabled': data.status === 'disabled'}]. *)
Definition statusClasses (data : value) : error + list string :=
  match get data "status" with
  | inl e => inl e
  | inr s =>
      inr ((if strict_eq_str s "enabled" then ["enabled"] else [])
           ++ (if strict_eq_str s "disabled" then ["disabled"] else []))%list
  end.

End PiHoleStatsView.

Module PiHoleTrafficView.

Definition mounted (server : request -> outcome) (clock : nat -> Z)
  (LocalTZA : Z -> bool -> Z) (opts : options)
  (updateChart : PiHoleTraffic.state -> option error)
  (asNumber : value -> option number)
  : M PiHoleTraffic.state unit :=
  swallowed
    (PiHoleTraffic.fetchData server clock LocalTZA opts updateChart asNumber).

End PiHoleTrafficView.

(* ===================================================================== *)
(** ** Further vocabulary *)
(* ===================================================================== *)

(** A run of [k] slashes. *)
Fixpoint slashes (k : nat) : string :=
  match k with
  | O => EmptyString
  | S k' => String "/" (slashes k')
  end.

(** The last character of the string is a slash. *)
Fixpoint ends_with_slash (s : string) : bool :=
  match s with
  | EmptyString => false
  | String c EmptyString => Ascii.eqb c "/"
  | String _ s' => ends_with_slash s'
  end.

(** [new] is an initial part of [plan]. *)
Definition prefix_of (new plan : list request) : Prop :=
  exists rest, plan = (new ++ rest)%list.

(** The computation issues the requests of [plan], in that order and each
    at most once: all of them when it returns, an initial part of them when
    it raises. *)
Definition traces {D A : Type} (plan : list request) (m : M D A) : Prop :=
  forall w, exists new,
    requests (fst (m w)) = (requests w ++ new)%list /\
    prefix_of new plan /\
    (forall a, snd (m w) = inr a -> new = plan).

(** The request of the authentication block, if there is a secret. *)
Definition auth_plan (o : options) : list request :=
  if String.eqb (password_of o) "" then []
  else [authRequest (baseUrl o) (password_of o)].

(** No request at all. *)
Definition nothing : request -> Prop := fun _ => False.

(** What a statistics fetch that does not deliver a payload ends in: the
    rejection of [fetch], the error thrown on a response that is not [ok]
    (tested before the body is read), or the failure of [json()]. *)
Definition fetch_error (message : string) (o : outcome) : option error :=
  match o with
  | NetworkError => Some TypeError
  | Response false _ => Some (Error message)
  | Response true None => Some SyntaxError
  | Response true (Some _) => None
  end.

(** Every time of day with its label, hour by hour and minute by minute. *)
Definition label_table : list (string * (Z * Z)) :=
  flat_map (fun h =>
    map (fun m => (PiHoleTraffic.formatLabel (Z.of_nat h) (Z.of_nat m),
                   (Z.of_nat h, Z.of_nat m)))
      (seq 0 60))
    (seq 0 24).

(** The first time of day in a table that carries the label [s]. *)
Definition time_of_label (table : list (string * (Z * Z))) (s : string)
  : option (Z * Z) :=
  option_map snd (find (fun e => String.eqb (fst e) s) table).

(** The check that every entry of a table is the first to carry its label. *)
Definition reads_back (table : list (string * (Z * Z))) : bool :=
  forallb (fun e =>
    match time_of_label table (fst e) with
    | Some (h, m) => Z.eqb h (fst (snd e)) && Z.eqb m (snd (snd e))
    | None => false
    end) table.

(** Lines 262-264: a numeric percentage is replaced by its rendering with
    one decimal, anything else is left as it is. *)
Definition formatted (toFixed1 : Q -> string) (v : value) : value :=
  match v with
  | VNum q => VStr (toFixed1 q)
  | _ => v
  end.

(* ===================================================================== *)
(** ** Further scenarios *)
(* ===================================================================== *)

Module Cases.
Import Scenario.

Definition summaryUrl : string := "http://pihole.local/api/stats/summary".
Definition statusUrl : string := "http://pihole.local/api/dns/blocking".
Definition historyUrl : string := "http://pihole.local/api/history".
Definition authUrl : string := "http://pihole.local/api/auth".

(** The blocked ranking answers with an HTTP error. *)
Definition blocked_down : request -> outcome :=
  answer [(blocked10, Response false None)].

(** The summary answers with an HTTP error, after a granted session. *)
Definition summary_down : request -> outcome :=
  answer [(authUrl, granted); (summaryUrl, Response false (Some VNull))].

(** The history answers with a body that is not JSON. *)
Definition history_garbled : request -> outcome :=
  answer [(historyUrl, Response true None)].

(** A history without [ads_over_time]. *)
Definition half_history : value :=
  VObj [("domains_over_time", VArr [num 1; num 2])].

Definition history_halved : request -> outcome :=
  answer [(historyUrl, json_ok half_history)].

(** A history whose [ads_over_time] is a number. *)
Definition odd_history : value :=
  VObj [("domains_over_time", VArr [num 1; num 2]); ("ads_over_time", num 5)].

Definition history_odd : request -> outcome :=
  answer [(historyUrl, json_ok odd_history)].

(** A history of three and two samples. *)
Definition short_history : value :=
  VObj [("domains_over_time", VArr [num 10; num 20; num 30]);
        ("ads_over_time", VArr [num 1; num 2])].

Definition history_short : request -> outcome :=
  answer [(historyUrl, json_ok short_history)].

(** The summary answers [null], after a granted session. *)
Definition summary_null : request -> outcome :=
  answer [(authUrl, granted); (summaryUrl, json_ok VNull);
          (statusUrl, json_ok (VObj [("blocking", VBool true)]))].

(** The summary lacks [ads_percentage_today] and the status answers with
    an HTTP error, after a granted session. *)
Definition status_down : request -> outcome :=
  answer [(authUrl, granted); (summaryUrl, json_ok partial_summary);
          (statusUrl, Response false None)].


(** Cairo around the start of summer time in 2024: at 2024-04-26 00:00
    local time (2024-04-25T22:00:00Z, 1714082400000) the offset goes from
    two hours to three, so that the local times from 00:00 to 01:00 of that
    day do not exist; a local time in the gap is read, as ECMAScript has
    it, with the offset from before the change. *)
Definition cairo : Z -> bool -> Z :=
  fun t isUTC =>
    if isUTC then (if t <? 1714082400000 then 7200000 else 10800000)
    else (if t <? 1714082400000 + 10800000 then 7200000 else 10800000).

(** A clock that reads noon of 2024-04-26 in Cairo (09:00:00 UTC), then a
    millisecond more at each further reading. *)
Definition cairo_clock : nat -> Z := fun k => 1714122000000 + Z.of_nat k.

End Cases.

(* ===================================================================== *)
(** ** Properties *)
(* ===================================================================== *)

(** *** The failure shape shared by the three widgets *)

Section FailureShape.

Context {D : Type}.
Variable empty : D.
Variable attempt : M D unit.
Variable recover : error -> M D unit.

(** The handler clears the data and raises what it was given. *)
Hypothesis recover_clears :
  forall e w, data (fst (recover e w)) = empty /\ snd (recover e w) = inl e.

Lemma try_catch_reraises w e :
  result (try_catch attempt recover w) = inl e <-> result (attempt w) = inl e.
Proof.
  unfold result, try_catch.
  destruct (attempt w) as [w' [e' | []]]; cbn.
  - destruct (recover_clears e' w') as [_ ->]. reflexivity.
  - split; discriminate.
Qed.

Lemma try_catch_clears w e :
  result (try_catch attempt recover w) = inl e ->
  final (try_catch attempt recover w) = empty.
Proof.
  unfold result, final, try_catch.
  destruct (attempt w) as [w' [e' | []]]; cbn.
  - intros _. apply recover_clears.
  - discriminate.
Qed.

End FailureShape.

Lemma top_queries_failure server opts w e :
  (result (PiHoleTopQueries.fetchData server opts w) = inl e <->
   result (PiHoleTopQueries.attempt server opts w) = inl e) /\
  (result (PiHoleTopQueries.fetchData server opts w) = inl e ->
   final (PiHoleTopQueries.fetchData server opts w) = PiHoleTopQueries.empty).
Proof.
  split.
  - apply try_catch_reraises with (empty := PiHoleTopQueries.empty).
    intros; split; reflexivity.
  - apply try_catch_clears. intros; split; reflexivity.
Qed.

Lemma stats_failure server opts toFixed1 updateChart w e :
  (result (PiHoleStats.fetchData server opts toFixed1 updateChart w) = inl e <->
   result (PiHoleStats.attempt server opts toFixed1 updateChart w) = inl e) /\
  (result (PiHoleStats.fetchData server opts toFixed1 updateChart w) = inl e ->
   final (PiHoleStats.fetchData server opts toFixed1 updateChart w)
   = PiHoleStats.empty).
Proof.
  split.
  - apply try_catch_reraises with (empty := PiHoleStats.empty).
    intros; split; reflexivity.
  - apply try_catch_clears. intros; split; reflexivity.
Qed.

Lemma traffic_failure server clock LocalTZA opts updateChart asNumber w e :
  (result (PiHoleTraffic.fetchData server clock LocalTZA opts updateChart asNumber w) = inl e <->
   result (PiHoleTraffic.attempt server clock LocalTZA opts updateChart asNumber w) = inl e) /\
  (result (PiHoleTraffic.fetchData server clock LocalTZA opts updateChart asNumber w) = inl e ->
   final (PiHoleTraffic.fetchData server clock LocalTZA opts updateChart asNumber w)
   = PiHoleTraffic.empty).
Proof.
  split.
  - apply try_catch_reraises with (empty := PiHoleTraffic.empty).
    intros; split; reflexivity.
  - apply try_catch_clears. intros; split; reflexivity.
Qed.

(** C3: Every widget variant, every failure at any stage of the [try] block
    (authentication, a fetch, a parse, a validation, the reconstruction, the
    chart update): the cycle raises exactly the error the block raised, and
    when it does the widget's data is its empty default: two empty mappings
    for the top-domains widget, the empty object for the status/summary
    widget, no labels and two empty series for the traffic widget. *)
Theorem failure_resets_data_before_rethrow :
  (forall server opts w e,
      (result (PiHoleTopQueries.fetchData server opts w) = inl e <->
       result (PiHoleTopQueries.attempt server opts w) = inl e) /\
      (result (PiHoleTopQueries.fetchData server opts w) = inl e ->
       final (PiHoleTopQueries.fetchData server opts w) = PiHoleTopQueries.empty)) /\
  (forall server opts toFixed1 updateChart w e,
      (result (PiHoleStats.fetchData server opts toFixed1 updateChart w) = inl e <->
       result (PiHoleStats.attempt server opts toFixed1 updateChart w) = inl e) /\
      (result (PiHoleStats.fetchData server opts toFixed1 updateChart w) = inl e ->
       final (PiHoleStats.fetchData server opts toFixed1 updateChart w) = PiHoleStats.empty)) /\
  (forall server clock LocalTZA opts updateChart asNumber w e,
      (result (PiHoleTraffic.fetchData server clock LocalTZA opts updateChart asNumber w) = inl e <->
       result (PiHoleTraffic.attempt server clock LocalTZA opts updateChart asNumber w) = inl e) /\
      (result (PiHoleTraffic.fetchData server clock LocalTZA opts updateChart asNumber w) = inl e ->
       final (PiHoleTraffic.fetchData server clock LocalTZA opts updateChart asNumber w)
       = PiHoleTraffic.empty)).
Proof.
  split; [| split]; intros.
  - apply top_queries_failure.
  - apply stats_failure.
  - apply traffic_failure.
Qed.

Lemma unreachable_appliance_leaves_no_data :
  let r := PiHoleTopQueries.fetchData Scenario.unreachable Scenario.keyed
             (fresh (PiHoleTopQueries.mkState Scenario.ranking Scenario.ranking)) in
  result r = inl TypeError /\ final r = PiHoleTopQueries.empty.
Proof.
  intros r.
  assert (Hr : result r = inl TypeError) by reflexivity.
  split; [exact Hr |].
  destruct failure_resets_data_before_rethrow as [Htop _].
  apply (Htop Scenario.unreachable Scenario.keyed
           (fresh (PiHoleTopQueries.mkState Scenario.ranking Scenario.ranking))
           TypeError).
  exact Hr.
Defined.

(** *** Stepping through a cycle *)

Lemma bind_ok {D A B} (m : M D A) (k : A -> M D B) w w' a :
  m w = (w', inr a) -> bind m k w = k a w'.
Proof. intros H. unfold bind. rewrite H. reflexivity. Qed.

Lemma fetch_ok {D} server (r : request) (w : world D) o j :
  server r = Response o j ->
  fetch server r w = (sent r w, inr (mkResponse o j)).
Proof. intros H. unfold fetch. rewrite H. reflexivity. Qed.

(** One successful [fetch] followed by its [ok] test and its [json()]. *)
Lemma fetch_json_ok {D B} server (r : request) (w : world D) v msg
      (k : value -> M D B) :
  server r = Response true (Some v) ->
  (res <- fetch server r;; throw_if (negb (ok res)) (Error msg);;
   x <- json res;; k x)%js w
  = k v (sent r w).
Proof.
  intros H. rewrite (bind_ok _ _ _ _ _ (fetch_ok _ _ _ _ _ H)). reflexivity.
Qed.

(** A statistics fetch that does not deliver a payload ends the block it
    opens, with the error of the failure. *)
Lemma failing_fetch {D B} server (r : request) (w : world D) message e
      (k : value -> M D B) :
  fetch_error message (server r) = Some e ->
  (res <- fetch server r;; throw_if (negb (ok res)) (Error message);;
   x <- json res;; k x)%js w
  = (sent r w, inl e).
Proof.
  unfold bind, fetch. destruct (server r) as [| [|] [j |]]; cbn;
    intros H; inversion H; reflexivity.
Qed.

(** *** The top-domains widget *)

Section TopQueriesFacts.
Import PiHoleTopQueries.

Variable server : request -> outcome.
Variable opts : options.
Variables (w w1 : world state) (sid b a : value).

Hypothesis Hauth :
  authenticate server auth_failed_message (baseUrl opts) (password_of opts) w
  = (w1, inr sid).
Hypothesis Hblocked :
  server (statRequest (blockedUrl opts) sid) = Response true (Some b).
Hypothesis Hallowed :
  server (statRequest (allowedUrl opts) sid) = Response true (Some a).

(** With both payloads in hand the cycle is down to the guard of line 90 and
    the two assignments. *)
Lemma top_after_fetches :
  exists w2,
    attempt server opts w
    = (bad <- (if is_null b then ret true
               else top_sources <- lift (get b "top_sources");;
                    ret (ToBoolean top_sources || is_null a));;
       throw_if bad unexpected;;
       modify (fun d => mkState (as_mapping b) (top_queries d));;
       modify (fun d => mkState (top_ads d) (as_mapping a)))%js w2.
Proof.
  unfold attempt.
  rewrite (bind_ok _ _ _ _ _ Hauth).
  rewrite (fetch_json_ok _ _ _ _ _ _ Hblocked).
  rewrite (fetch_json_ok _ _ _ _ _ _ Hallowed).
  eexists. reflexivity.
Qed.

Lemma guard_rejects :
  passes_guard b = false -> b <> VUndefined ->
  result (fetchData server opts w) = inl unexpected /\
  final (fetchData server opts w) = empty.
Proof.
  intros Hg Hu. destruct top_after_fetches as [w2 E].
  unfold fetchData, try_catch. rewrite E. clear E.
  destruct b; cbn in Hg; try discriminate; try congruence.
  - split; reflexivity.
  - apply negb_false_iff in Hg. unfold result, final, bind. cbn. rewrite Hg.
    cbn. split; reflexivity.
Qed.

Lemma null_allowed_rejects :
  a = VNull -> b <> VUndefined ->
  result (fetchData server opts w) = inl unexpected /\
  final (fetchData server opts w) = empty.
Proof.
  intros Ea Hu. destruct top_after_fetches as [w2 E].
  unfold fetchData, try_catch. rewrite E, Ea. clear E.
  destruct b; try congruence; unfold result, final, bind; cbn;
    try (split; reflexivity).
  rewrite orb_true_r. cbn. split; reflexivity.
Qed.

Lemma guard_accepts :
  passes_guard b = true -> a <> VNull ->
  result (fetchData server opts w) = inr tt /\
  final (fetchData server opts w) = mkState (as_mapping b) (as_mapping a).
Proof.
  intros Hg Ha. destruct top_after_fetches as [w2 E].
  unfold fetchData, try_catch. rewrite E. clear E.
  assert (Hn : is_null a = false) by (destruct a; try reflexivity; congruence).
  destruct b; cbn in Hg; try discriminate;
    unfold result, final, bind; cbn; rewrite ?Hn; cbn;
    try (split; reflexivity).
  apply negb_true_iff in Hg. rewrite Hg. cbn. split; reflexivity.
Qed.

End TopQueriesFacts.

(** A blocked payload with a truthy [top_sources] ends the cycle in an
    error whatever the second fetch brings. *)
Lemma top_sources_fails server opts (w w1 : world PiHoleTopQueries.state) sid o :
  authenticate server PiHoleTopQueries.auth_failed_message (baseUrl opts)
    (password_of opts) w = (w1, inr sid) ->
  server (statRequest (PiHoleTopQueries.blockedUrl opts) sid)
  = Response true (Some (VObj o)) ->
  ToBoolean (lookup "top_sources" o) = true ->
  exists e, result (PiHoleTopQueries.attempt server opts w) = inl e.
Proof.
  intros Hauth Hb Hts. unfold PiHoleTopQueries.attempt.
  rewrite (bind_ok _ _ _ _ _ Hauth).
  rewrite (fetch_json_ok _ _ _ _ _ _ Hb).
  unfold result, bind, fetch.
  destruct (server (statRequest (PiHoleTopQueries.allowedUrl opts) sid))
    as [| [|] [a |]]; cbn; rewrite ?Hts; cbn; eauto.
Qed.




(** C10: A blocked payload that is a non-null, non-array object with a
    truthy [top_sources] field does not become the blocked mapping: the
    cycle raises an error and emits two empty mappings.  When the second
    fetch brings a payload, the error is "Expected data was not returned
    from Pi-Hole". *)
Theorem truthy_top_sources_is_rejected
        server opts (w w1 : world PiHoleTopQueries.state) sid o :
  authenticate server PiHoleTopQueries.auth_failed_message (baseUrl opts)
    (password_of opts) w = (w1, inr sid) ->
  server (statRequest (PiHoleTopQueries.blockedUrl opts) sid)
  = Response true (Some (VObj o)) ->
  ToBoolean (lookup "top_sources" o) = true ->
  let r := PiHoleTopQueries.fetchData server opts w in
  plain_object (VObj o) = true /\
  PiHoleTopQueries.as_mapping (VObj o) = VObj o /\
  (exists e, result r = inl e) /\
  final r = PiHoleTopQueries.mkState (VObj []) (VObj []) /\
  (forall a,
      server (statRequest (PiHoleTopQueries.allowedUrl opts) sid)
      = Response true (Some a) ->
      result r = inl PiHoleTopQueries.unexpected).
Proof.
  intros Hauth Hb Hts r. subst r.
  split; [reflexivity |]. split; [reflexivity |].
  destruct (top_sources_fails _ _ _ _ _ _ Hauth Hb Hts) as [e He].
  apply (top_queries_failure server opts w e) in He as Hr.
  split; [exists e; exact Hr |].
  split; [apply (top_queries_failure server opts w e); exact Hr |].
  intros a Ha.
  apply (guard_rejects _ _ _ _ _ _ _ Hauth Hb Ha); [| discriminate].
  cbn. rewrite Hts. reflexivity.
Qed.

Lemma top_sources_payload_rejected :
  ToBoolean (lookup "top_sources" Scenario.sources) = true /\
  let r := PiHoleTopQueries.fetchData Scenario.sources_blocked Scenario.anonymous
             (fresh (PiHoleTopQueries.mkState Scenario.ranking Scenario.ranking)) in
  result r = inl PiHoleTopQueries.unexpected /\
  final r = PiHoleTopQueries.mkState (VObj []) (VObj []).
Proof.
  split; [reflexivity |].
  destruct (truthy_top_sources_is_rejected
              Scenario.sources_blocked Scenario.anonymous
              (fresh (PiHoleTopQueries.mkState Scenario.ranking Scenario.ranking))
              (fresh (PiHoleTopQueries.mkState Scenario.ranking Scenario.ranking))
              VNull Scenario.sources eq_refl eq_refl eq_refl)
    as [_ [_ [_ [Hfinal Hresult]]]].
  split; [apply (Hresult Scenario.ranking); reflexivity | exact Hfinal].
Defined.

(** *** Authentication *)

Section AuthFacts.

Context {D : Type}.
Variable server : request -> outcome.
Variables (message base password : string).
Variable w : world D.
Variable o : bool.
Variable authData : value.

Hypothesis Hpassword : password <> "".
Hypothesis Hanswer : server (authRequest base password) = Response o (Some authData).






End AuthFacts.




(** *** The status/summary widget *)

Lemma lookup_assign_same k x o : lookup k (assign k x o) = x.
Proof.
  induction o as [| [k' v] o IH]; cbn.
  - rewrite String.eqb_refl. reflexivity.
  - destruct (String.eqb k k') eqn:E; cbn; rewrite E; [reflexivity | exact IH].
Qed.

Lemma lookup_assign_other k k' x o :
  k <> k' -> lookup k (assign k' x o) = lookup k o.
Proof.
  intros Hne. induction o as [| [k0 v] o IH]; cbn.
  - apply String.eqb_neq in Hne. rewrite Hne. reflexivity.
  - destruct (String.eqb k' k0) eqn:E; cbn.
    + apply String.eqb_eq in E. subst k0.
      apply String.eqb_neq in Hne. rewrite Hne. reflexivity.
    + destruct (String.eqb k k0); [reflexivity | exact IH].
Qed.

Section StatsFacts.
Import PiHoleStats.

Variable server : request -> outcome.
Variable opts : options.
Variable toFixed1 : Q -> string.
Variable updateChart : state -> option error.

(** The chain of tests answers [true] exactly when one of the fields reads
    as [undefined]; on [null] every read throws instead. *)
Lemma some_undefined_true j fields (w : world state) :
  some_undefined j fields w = (w, inr true) <->
  exists f, In f fields /\ get j f = inr VUndefined.
Proof.
  induction fields as [| f fields IH]; cbn [some_undefined].
  - split; [discriminate | intros [f [[] _]]].
  - unfold bind, lift. destruct (get j f) as [e | x] eqn:Hf.
    + split; [discriminate |].
      intros [f' [_ Hf']]. destruct j; cbn in Hf, Hf'; congruence.
    + destruct (is_undefined x) eqn:Hu.
      * split; [| reflexivity]. intros _. exists f. split; [left; reflexivity |].
        destruct x; try discriminate. exact Hf.
      * rewrite IH. split; intros [f' [Hin Hf']].
        -- exists f'. split; [right; exact Hin | exact Hf'].
        -- destruct Hin as [<- | Hin]; [| eauto].
           rewrite Hf in Hf'. inversion Hf'; subst. discriminate.
Qed.

Lemma some_undefined_false o fields (w : world state) :
  (forall f, In f fields -> lookup f o <> VUndefined) ->
  some_undefined (VObj o) fields w = (w, inr false).
Proof.
  induction fields as [| f fields IH]; intros H; cbn [some_undefined].
  - reflexivity.
  - unfold bind, lift. cbn [get].
    assert (Hu : is_undefined (lookup f o) = false).
    { specialize (H f (or_introl eq_refl)).
      destruct (lookup f o); try reflexivity; congruence. }
    rewrite Hu. apply IH. intros f' Hin. apply H. right. exact Hin.
Qed.

(** What passes the validation is an object. *)
Lemma validated_is_object j (w : world state) :
  some_undefined j summary_fields w = (w, inr false) -> exists o, j = VObj o.
Proof. destruct j; cbn; try discriminate. eauto. Qed.

Variables (w w1 : world state) (sid summaryJson statusJson : value).

Hypothesis Hauth :
  authenticate server auth_failed_message (baseUrl opts) (password_of opts) w
  = (w1, inr sid).
Hypothesis Hsummary :
  server (statRequest (summaryUrl opts) sid) = Response true (Some summaryJson).
Hypothesis Hstatus :
  server (statRequest (statusUrl opts) sid) = Response true (Some statusJson).

Lemma stats_after_fetches :
  exists w2,
    attempt server opts toFixed1 updateChart w
    = (invalid <- some_undefined summaryJson summary_fields;;
       throw_if invalid unexpected;;
       blocking <- lift (get statusJson "blocking");;
       let statusEnabled := if negb (is_undefined blocking) then blocking else VBool true in
       summaryJson <- lift (set summaryJson "status"
                              (VStr (if ToBoolean statusEnabled then "enabled" else "disabled")));;
       pct <- lift (get summaryJson "ads_percentage_today");;
       summaryJson <- match pct with
                      | VNum q => lift (set summaryJson "ads_percentage_today" (VStr (toFixed1 q)))
                      | _ => ret summaryJson
                      end;;
       modify (fun _ => summaryJson);;
       if negb (hideChart opts) then callUpdateChart updateChart else ret tt)%js w2.
Proof.
  unfold attempt.
  rewrite (bind_ok _ _ _ _ _ Hauth).
  rewrite (fetch_json_ok _ _ _ _ _ _ Hsummary).
  rewrite (fetch_json_ok _ _ _ _ _ _ Hstatus).
  eexists. reflexivity.
Qed.

Lemma missing_field_rejected f :
  In f summary_fields -> get summaryJson f = inr VUndefined ->
  result (fetchData server opts toFixed1 updateChart w) = inl unexpected /\
  final (fetchData server opts toFixed1 updateChart w) = empty.
Proof.
  intros Hin Hf. destruct stats_after_fetches as [w2 E].
  unfold fetchData, try_catch. rewrite E. clear E.
  assert (Hv : some_undefined summaryJson summary_fields w2 = (w2, inr true))
    by (apply some_undefined_true; eauto).
  rewrite (bind_ok _ _ _ _ _ Hv). cbn. split; reflexivity.
Qed.

Lemma valid_summary_emitted o blocking :
  summaryJson = VObj o ->
  (forall f, In f summary_fields -> lookup f o <> VUndefined) ->
  get statusJson "blocking" = inr blocking ->
  (hideChart opts = false -> updateChart (emitted toFixed1 o blocking) = None) ->
  exists w3,
    fetchData server opts toFixed1 updateChart w = (w3, inr tt) /\
    data w3 = emitted toFixed1 o blocking.
Proof.
  intros Eo Hall Hb Hchart. destruct stats_after_fetches as [w2 E].
  unfold fetchData, try_catch. rewrite E, Eo. clear E.
  rewrite (bind_ok _ _ _ _ _ (some_undefined_false o _ w2 Hall)).
  cbn [throw_if]. unfold bind at 1. cbn [ret].
  unfold bind at 1. unfold lift at 1. rewrite Hb.
  assert (Htail :
    forall k : M state unit,
      (summaryJson <- lift (set (VObj o) "status"
           (VStr (if ToBoolean (if negb (is_undefined blocking) then blocking
                                else VBool true)
                  then "enabled" else "disabled")));;
       pct <- lift (get summaryJson "ads_percentage_today");;
       summaryJson <- match pct with
                      | VNum q => lift (set summaryJson "ads_percentage_today"
                                          (VStr (toFixed1 q)))
                      | _ => ret summaryJson
                      end;;
       modify (fun _ => summaryJson);; k)%js w2
      = k (mkWorld (emitted toFixed1 o blocking) (requests w2) (clock_reads w2))).
  { intros k. unfold emitted, bind, lift. cbn [set get].
    destruct (lookup "ads_percentage_today" _); reflexivity. }
  cbv zeta. rewrite Htail. clear Htail.
  destruct (hideChart opts); cbn [negb].
  - eexists. split; reflexivity.
  - unfold callUpdateChart. cbn [data]. rewrite Hchart by reflexivity.
    eexists. split; reflexivity.
Qed.

Lemma emitted_status o blocking :
  get (emitted toFixed1 o blocking) "status"
  = inr (VStr (if ToBoolean (if negb (is_undefined blocking) then blocking else VBool true)
               then "enabled" else "disabled")).
Proof.
  unfold emitted.
  destruct (lookup "ads_percentage_today" _); cbn [get];
    rewrite ?lookup_assign_other by discriminate;
    rewrite lookup_assign_same; reflexivity.
Qed.

End StatsFacts.

(** A summary with an undefined field ends the cycle in an error whatever
    the status fetch brings. *)
Lemma missing_field_fails server opts toFixed1 updateChart
      (w w1 : world PiHoleStats.state) sid summaryJson f :
  authenticate server PiHoleStats.auth_failed_message (baseUrl opts)
    (password_of opts) w = (w1, inr sid) ->
  server (statRequest (PiHoleStats.summaryUrl opts) sid)
  = Response true (Some summaryJson) ->
  In f PiHoleStats.summary_fields ->
  get summaryJson f = inr VUndefined ->
  exists e, result (PiHoleStats.attempt server opts toFixed1 updateChart w) = inl e.
Proof.
  intros Hauth Hsum Hin Hf. unfold PiHoleStats.attempt.
  rewrite (bind_ok _ _ _ _ _ Hauth).
  rewrite (fetch_json_ok _ _ _ _ _ _ Hsum).
  unfold result. unfold bind at 1. unfold fetch.
  destruct (server (statRequest (PiHoleStats.statusUrl opts) sid))
    as [| [|] [statusJson |]]; cbn [fst snd]; eauto.
  - unfold bind at 1. cbn [ok negb throw_if ret].
    unfold bind at 1. cbn [json parsed ret].
    match goal with
    | |- context [bind (PiHoleStats.some_undefined _ _) _ ?w2] =>
        assert (Hv : PiHoleStats.some_undefined summaryJson
                       PiHoleStats.summary_fields w2 = (w2, inr true))
          by (apply some_undefined_true; eauto);
        rewrite (bind_ok _ _ _ _ _ Hv)
    end.
    cbn. eauto.
  - cbn. eauto.
  - cbn. eauto.
  - cbn. eauto.
Qed.

(** C6 (amended): A summary payload in which one of
    [domains_being_blocked], [dns_queries_today], [ads_blocked_today],
    [ads_percentage_today] reads as [undefined]: the status/summary cycle
    fails and its data is the empty object.  The test runs after the status
    fetch: when that fetch fails, the error is the error of that fetch;
    when it delivers a payload, the error is the validation error "Expected
    data was not returned from Pi-Hole".  The test is [=== undefined]: an
    object whose four fields are defined passes it, whatever their values
    (zero included). *)
Theorem incomplete_summary_fails_validation
        server opts toFixed1 updateChart (w w1 : world PiHoleStats.state)
        sid summaryJson f :
  authenticate server PiHoleStats.auth_failed_message (baseUrl opts)
    (password_of opts) w = (w1, inr sid) ->
  server (statRequest (PiHoleStats.summaryUrl opts) sid)
  = Response true (Some summaryJson) ->
  In f PiHoleStats.summary_fields ->
  get summaryJson f = inr VUndefined ->
  let status := statRequest (PiHoleStats.statusUrl opts) sid in
  let r := PiHoleStats.fetchData server opts toFixed1 updateChart w in
  (exists e, result r = inl e) /\
  final r = VObj [] /\
  (forall e,
      fetch_error "Failed to fetch status" (server status) = Some e ->
      result r = inl e) /\
  (forall statusJson,
      server status = Response true (Some statusJson) ->
      result r = inl PiHoleStats.unexpected) /\
  (forall o (w' : world PiHoleStats.state),
      (forall g, In g PiHoleStats.summary_fields -> lookup g o <> VUndefined) ->
      PiHoleStats.some_undefined (VObj o) PiHoleStats.summary_fields w'
      = (w', inr false)).
Proof.
  intros Hauth Hsum Hin Hf status r. subst r.
  destruct (missing_field_fails _ _ toFixed1 updateChart _ _ _ _ _
              Hauth Hsum Hin Hf) as [e He].
  apply (stats_failure server opts toFixed1 updateChart w e) in He as Hr.
  split; [exists e; exact Hr |].
  split; [apply (stats_failure server opts toFixed1 updateChart w e); exact Hr |].
  split; [| split].
  - intros e' He'.
    apply (stats_failure server opts toFixed1 updateChart w e').
    unfold PiHoleStats.attempt.
    rewrite (bind_ok _ _ _ _ _ Hauth).
    rewrite (fetch_json_ok _ _ _ _ _ _ Hsum).
    fold status. rewrite (failing_fetch _ _ _ _ _ _ He'). reflexivity.
  - intros statusJson Hst.
    apply (missing_field_rejected _ _ toFixed1 updateChart _ _ _ _ _
             Hauth Hsum Hst f Hin Hf).
  - intros o w' Hall. apply some_undefined_false. exact Hall.
Qed.

(** The error of an incomplete summary is not always the validation error:
    with a summary that lacks [ads_percentage_today] and a status fetch
    answered by an HTTP error, the cycle raises "Failed to fetch status". *)
Lemma incomplete_summary_with_status_down :
  let r := PiHoleStats.fetchData Cases.status_down Scenario.keyed
             Scenario.one_decimal Scenario.no_chart_error
             (fresh (VObj Scenario.summary)) in
  Cases.status_down (statRequest Cases.summaryUrl (VStr "abc"))
  = Response true (Some Scenario.partial_summary) /\
  get Scenario.partial_summary "ads_percentage_today" = inr VUndefined /\
  result r = inl (Error "Failed to fetch status") /\
  result r <> inl PiHoleStats.unexpected /\
  final r = VObj [].
Proof.
  cbv zeta.
  split; [vm_compute; reflexivity |].
  split; [reflexivity |].
  split; [vm_compute; reflexivity |].
  split; [vm_compute; discriminate |].
  vm_compute; reflexivity.
Qed.

Lemma summary_without_percentage_fails :
  let r := PiHoleStats.fetchData Scenario.summary_incomplete Scenario.keyed
             Scenario.one_decimal Scenario.no_chart_error
             (fresh (VObj Scenario.summary)) in
  get Scenario.partial_summary "ads_percentage_today" = inr VUndefined /\
  result r = inl (Error "Expected data was not returned from Pi-Hole") /\
  final r = VObj [].
Proof.
  split; [reflexivity |].
  destruct (incomplete_summary_fails_validation
              Scenario.summary_incomplete Scenario.keyed
              Scenario.one_decimal Scenario.no_chart_error
              (fresh (VObj Scenario.summary))
              (mkWorld (VObj Scenario.summary)
                 [authRequest "http://pihole.local" "s3cr3t"] 0%nat)
              (VStr "abc") Scenario.partial_summary "ads_percentage_today"
              eq_refl eq_refl
              (or_intror (or_intror (or_intror (or_introl eq_refl))))
              eq_refl) as [_ [H2 [_ [H3 _]]]].
  split; [| exact H2].
  apply (H3 (VObj [("blocking", VBool true)])). reflexivity.
Defined.




(** *** The traffic widget *)

Section TimeFacts.
Import DateTime.

Variable LocalTZA : Z -> bool -> Z.

Lemma getHours_range t : 0 <= getHours LocalTZA t < 24.
Proof. unfold getHours. apply Z.mod_pos_bound. lia. Qed.

Lemma getMinutes_range t : 0 <= getMinutes LocalTZA t < 60.
Proof. unfold getMinutes. apply Z.mod_pos_bound. lia. Qed.

End TimeFacts.

(** In a zone with a constant offset, [setHours(0, 0, 0, 0)] lands on local
    00:00 of the day that contains the instant. *)
Lemma setHours0_fixed_zone off t :
  let m := DateTime.setHours0 (DateTime.fixed_zone off) t in
  DateTime.getHours (DateTime.fixed_zone off) m = 0 /\
  DateTime.getMinutes (DateTime.fixed_zone off) m = 0 /\
  DateTime.LocalTime (DateTime.fixed_zone off) m mod DateTime.msPerDay = 0 /\
  m <= t < m + DateTime.msPerDay.
Proof.
  unfold DateTime.setHours0, DateTime.getHours, DateTime.getMinutes, DateTime.LocalTime,
    DateTime.UTC, DateTime.Day, DateTime.fixed_zone, DateTime.msPerDay, DateTime.msPerHour,
    DateTime.msPerMinute.
  cbv zeta.
  set (k := (t + off) / 86400000).
  replace (k * 86400000 - off + off) with (k * 86400000) by ring.
  assert (Hd : 86400000 * k <= t + off < 86400000 * k + 86400000).
  { pose proof (Z.mul_div_le (t + off) 86400000 ltac:(lia)).
    pose proof (Z.mul_succ_div_gt (t + off) 86400000 ltac:(lia)).
    fold k in H, H0. lia. }
  repeat split.
  - replace (k * 86400000) with (k * 24 * 3600000) by ring.
    rewrite Z.div_mul by lia. apply Z.mod_mul. lia.
  - replace (k * 86400000) with (k * 1440 * 60000) by ring.
    rewrite Z.div_mul by lia.
    replace (k * 1440) with (k * 24 * 60) by ring. apply Z.mod_mul. lia.
  - apply Z.mod_mul. lia.
  - lia.
  - lia.
Qed.

Lemma formatLabel_twelve_hour h m :
  0 <= h < 24 -> 0 <= m < 60 ->
  PiHoleTraffic.formatLabel h m = twelve_hour_label h m.
Proof.
  intros Hh Hm.
  assert (E : labels_agree = true) by (vm_compute; reflexivity).
  unfold labels_agree in E. rewrite forallb_forall in E.
  specialize (E (Z.to_nat h) ltac:(apply in_seq; lia)).
  rewrite forallb_forall in E.
  specialize (E (Z.to_nat m) ltac:(apply in_seq; lia)).
  rewrite !Z2Nat.id in E by lia.
  apply String.eqb_eq. exact E.
Qed.

Lemma hour12_range h : 0 <= h < 24 -> 1 <= hour12 h <= 12.
Proof.
  intros Hh. unfold hour12.
  destruct (Z.eqb_spec h 0); [lia |].
  destruct (Z.leb_spec h 12); lia.
Qed.

Section TrafficFacts.
Import DateTime PiHoleTraffic.

Variable clock : nat -> Z.
Variable LocalTZA : Z -> bool -> Z.
Variable updateChart : state -> option error.
Variable asNumber : value -> option number.

(** The loop appends the labels of the instants [startTime + i * 600000],
    in order, and touches nothing else. *)
Lemma pushLabels_run startTime n : forall i (w : world state),
  pushLabels LocalTZA startTime n i w
  = (mkWorld
       (mkState
          (labels (data w)
           ++ map (fun k => timeLabel LocalTZA (pointTime startTime (i + Z.of_nat k)))
                  (seq 0 n))
          (queriesData (data w)) (blockedData (data w)))
       (requests w) (clock_reads w),
     inr tt).
Proof.
  induction n as [| n IH]; intros i w.
  - cbn. rewrite app_nil_r. destruct w as [[] ? ?]. reflexivity.
  - cbn [pushLabels]. unfold bind at 1. cbn [modify].
    rewrite IH. cbn [data requests clock_reads labels queriesData blockedData].
    rewrite <- app_assoc. cbn [app seq map].
    rewrite <- seq_shift, map_map. rewrite Z.add_0_r.
    assert (Hshift :
      map (fun k => timeLabel LocalTZA (pointTime startTime (i + 1 + Z.of_nat k)))
          (seq 0 n)
      = map (fun k => timeLabel LocalTZA (pointTime startTime (i + Z.of_nat (S k))))
          (seq 0 n)).
    { apply map_ext. intros k. do 2 f_equal. lia. }
    rewrite Hshift. reflexivity.
Qed.

Lemma startTimeOf_run n (w : world state) :
  exists reads,
    startTimeOf clock LocalTZA n w
    = (mkWorld (data w) (requests w) reads, inr (startOf clock LocalTZA n w)).
Proof.
  unfold startTimeOf, startOf, bind, newDate.
  destruct (Nat.eqb n 144); eexists; reflexivity.
Qed.

Lemma reconstruct_arrays l1 l2 (w : world state) :
  let n := Nat.min (List.length l1) (List.length l2) in
  let d := mkState (map (timeLabel LocalTZA) (pointTimes (startOf clock LocalTZA n w) n))
             (VArr (firstn n l1)) (VArr (firstn n l2)) in
  exists reads,
    reconstruct clock LocalTZA updateChart asNumber (VArr l1) (VArr l2) w
    = (mkWorld d (requests w) reads,
       match updateChart d with Some e => inl e | None => inr tt end).
Proof.
  intros n d. unfold reconstruct. cbn [series_length]. fold n. cbv zeta.
  unfold bind at 1. cbn [modify].
  destruct (startTimeOf_run n
              (mkWorld (mkState [] (queriesData (data w)) (blockedData (data w)))
                 (requests w) (clock_reads w))) as [reads E].
  rewrite (bind_ok _ _ _ _ _ E). clear E.
  unfold bind at 1. rewrite pushLabels_run.
  cbn [data requests clock_reads labels queriesData blockedData app].
  unfold bind, lift, modify, callUpdateChart.
  cbn [slice data requests clock_reads labels queriesData blockedData].
  subst d. unfold pointTimes. rewrite map_map. cbn [Z.add].
  exists reads. destruct (updateChart _); reflexivity.
Qed.

End TrafficFacts.

(** The traffic cycle, from the payload on: with both series arrays the
    [try] block comes down to the reconstruction. *)
Lemma traffic_attempt_reconstructs server clock LocalTZA opts updateChart asNumber
      (w w1 : world PiHoleTraffic.state) sid historyData l1 l2 :
  authenticate server PiHoleTraffic.auth_failed_message (baseUrl opts)
    (password_of opts) w = (w1, inr sid) ->
  server (statRequest (PiHoleTraffic.historyUrl opts) sid)
  = Response true (Some historyData) ->
  get historyData "domains_over_time" = inr (VArr l1) ->
  get historyData "ads_over_time" = inr (VArr l2) ->
  exists w2,
    clock_reads w2 = clock_reads w1 /\
    PiHoleTraffic.attempt server clock LocalTZA opts updateChart asNumber w
    = PiHoleTraffic.reconstruct clock LocalTZA updateChart asNumber (VArr l1) (VArr l2) w2.
Proof.
  intros Hauth Hhist Hd Ha. unfold PiHoleTraffic.attempt.
  rewrite (bind_ok _ _ _ _ _ Hauth).
  rewrite (fetch_json_ok _ _ _ _ _ _ Hhist).
  unfold bind, lift. rewrite Hd, Ha. cbn [ToBoolean negb ret throw_if].
  eexists. split; [| reflexivity]. reflexivity.
Qed.

Lemma pointTimes_length startTime n : List.length (pointTimes startTime n) = n.
Proof. unfold pointTimes. rewrite length_map, length_seq. reflexivity. Qed.

Lemma pointTimes_nth startTime n k :
  (k < n)%nat ->
  nth k (pointTimes startTime n) 0 = startTime + Z.of_nat k * 600000.
Proof.
  intros Hk. unfold pointTimes.
  rewrite nth_indep with (d' := PiHoleTraffic.pointTime startTime (Z.of_nat 0))
    by (rewrite length_map, length_seq; exact Hk).
  rewrite (map_nth (fun k => PiHoleTraffic.pointTime startTime (Z.of_nat k))).
  rewrite seq_nth by exact Hk. reflexivity.
Qed.

Lemma setHours0_at_midnight LocalTZA t :
  midnight_exists LocalTZA t ->
  let m := DateTime.setHours0 LocalTZA t in
  DateTime.getHours LocalTZA m = 0 /\
  DateTime.getMinutes LocalTZA m = 0 /\
  DateTime.LocalTime LocalTZA m
  = DateTime.Day (DateTime.LocalTime LocalTZA t) * DateTime.msPerDay.
Proof.
  unfold midnight_exists, DateTime.setHours0, DateTime.getHours,
    DateTime.getMinutes. cbv zeta. intros ->.
  set (k := DateTime.Day (DateTime.LocalTime LocalTZA t)).
  unfold DateTime.msPerDay, DateTime.msPerHour, DateTime.msPerMinute.
  split; [| split; [| reflexivity]].
  - replace (k * 86400000) with (k * 24 * 3600000) by ring.
    rewrite Z.div_mul by lia. apply Z.mod_mul. lia.
  - replace (k * 86400000) with (k * 24 * 60 * 60000) by ring.
    rewrite Z.div_mul by lia. apply Z.mod_mul. lia.
Qed.

Lemma fixed_zone_midnight off t : midnight_exists (DateTime.fixed_zone off) t.
Proof.
  unfold midnight_exists, DateTime.LocalTime, DateTime.UTC, DateTime.fixed_zone.
  cbv zeta. ring.
Qed.

(** C4 (amended): For two series whose common length is 144 the
    reconstruction yields 144 labels and the first instant is the first
    clock reading minus 24 hours.  For any other common length the first
    instant is what [setHours(0, 0, 0, 0)] makes of the clock reading taken
    then: it is 00:00:00.000 of the current local day whenever that local
    time exists in the host's zone, as it does in every zone with a constant
    offset, where it is also the start of the 24 hours that contain the
    reading.  In both cases the labels are those of instants that advance
    by 600000 ms from point to point. *)
Theorem series_start_and_cadence
        clock LocalTZA updateChart asNumber (l1 l2 : list value)
        (w : world PiHoleTraffic.state) :
  let n := Nat.min (List.length l1) (List.length l2) in
  let now := clock (clock_reads w) in
  let today := clock (S (clock_reads w)) in
  let r := PiHoleTraffic.reconstruct clock LocalTZA updateChart asNumber
             (VArr l1) (VArr l2) w in
  exists startTime,
    result (PiHoleTraffic.startTimeOf clock LocalTZA n w) = inr startTime /\
    (n = 144%nat ->
     startTime = now - 86400000 /\
     List.length (PiHoleTraffic.labels (final r)) = 144%nat) /\
    (n <> 144%nat -> startTime = DateTime.setHours0 LocalTZA today) /\
    (n <> 144%nat -> midnight_exists LocalTZA today ->
     DateTime.getHours LocalTZA startTime = 0 /\
     DateTime.getMinutes LocalTZA startTime = 0 /\
     DateTime.LocalTime LocalTZA startTime
     = DateTime.Day (DateTime.LocalTime LocalTZA today) * DateTime.msPerDay) /\
    (forall off, LocalTZA = DateTime.fixed_zone off -> n <> 144%nat ->
                 midnight_exists LocalTZA today /\
                 DateTime.getHours LocalTZA startTime = 0 /\
                 DateTime.getMinutes LocalTZA startTime = 0 /\
                 startTime <= today < startTime + DateTime.msPerDay) /\
    PiHoleTraffic.labels (final r)
    = map (PiHoleTraffic.timeLabel LocalTZA) (pointTimes startTime n) /\
    List.length (pointTimes startTime n) = n /\
    (forall k, (k < n)%nat ->
               nth k (pointTimes startTime n) 0 = startTime + Z.of_nat k * 600000) /\
    (forall k, (S k < n)%nat ->
               nth (S k) (pointTimes startTime n) 0
               - nth k (pointTimes startTime n) 0 = 600000).
Proof.
  intros n now today r. exists (startOf clock LocalTZA n w).
  destruct (reconstruct_arrays clock LocalTZA updateChart asNumber l1 l2 w)
    as [reads E].
  fold n in E. subst r. unfold final. rewrite E. cbn [fst data PiHoleTraffic.labels].
  destruct (startTimeOf_run clock LocalTZA n w) as [reads' E'].
  unfold result. rewrite E'. cbn [snd].
  split; [reflexivity |].
  split; [| split; [| split; [| split; [| split; [| split; [| split]]]]]].
  - intros Hn. unfold startOf. rewrite Hn. cbn [Nat.eqb].
    split; [subst now; lia |].
    rewrite length_map, pointTimes_length. reflexivity.
  - intros Hn. unfold startOf. apply Nat.eqb_neq in Hn. rewrite Hn. reflexivity.
  - intros Hn Hm. unfold startOf. apply Nat.eqb_neq in Hn. rewrite Hn.
    exact (setHours0_at_midnight LocalTZA today Hm).
  - intros off -> Hn. unfold startOf. apply Nat.eqb_neq in Hn. rewrite Hn.
    destruct (setHours0_fixed_zone off today) as [H1 [H2 [_ H3]]].
    split; [apply fixed_zone_midnight |].
    split; [exact H1 |]. split; [exact H2 |]. exact H3.
  - reflexivity.
  - apply pointTimes_length.
  - intros k Hk. apply pointTimes_nth. exact Hk.
  - intros k Hk. rewrite !pointTimes_nth by lia. lia.
Qed.

(** The first instant is not 00:00:00 of the local day in every zone: in
    Cairo on 2024-04-26, the day summer time begins at midnight, a series
    of 50 points starts at 2024-04-25T22:00:00Z, which local clocks show as
    01:00, and its first label reads "1:00 AM". *)
Lemma cairo_series_starts_at_one :
  let r := PiHoleTraffic.reconstruct Cases.cairo_clock Cases.cairo
             Scenario.no_chart_error Scenario.not_a_number
             (VArr (Scenario.samples 50)) (VArr (Scenario.samples 80))
             (fresh PiHoleTraffic.empty) in
  Nat.min (List.length (Scenario.samples 50)) (List.length (Scenario.samples 80))
  <> 144%nat /\
  result (PiHoleTraffic.startTimeOf Cases.cairo_clock Cases.cairo 50
            (fresh PiHoleTraffic.empty)) = inr 1714082400000 /\
  DateTime.getHours Cases.cairo 1714082400000 = 1 /\
  DateTime.getMinutes Cases.cairo 1714082400000 = 0 /\
  hd_error (PiHoleTraffic.labels (final r)) = Some "1:00 AM" /\
  ~ midnight_exists Cases.cairo (Cases.cairo_clock 1).
Proof.
  cbv zeta.
  split; [vm_compute; discriminate |].
  split; [vm_compute; reflexivity |].
  split; [vm_compute; reflexivity |].
  split; [vm_compute; reflexivity |].
  split; [vm_compute; reflexivity |].
  vm_compute. discriminate.
Qed.

Lemma full_day_starts_a_day_ago :
  let l := Scenario.samples 144 in
  let r := PiHoleTraffic.reconstruct Scenario.clock (DateTime.fixed_zone 0)
             Scenario.no_chart_error Scenario.not_a_number (VArr l) (VArr l)
             (fresh PiHoleTraffic.empty) in
  Nat.min (List.length l) (List.length l) = 144%nat /\
  result (PiHoleTraffic.startTimeOf Scenario.clock (DateTime.fixed_zone 0) 144
            (fresh PiHoleTraffic.empty))
  = inr (1705341300000 - 86400000) /\
  List.length (PiHoleTraffic.labels (final r)) = 144%nat.
Proof.
  intros l r.
  assert (Hn : Nat.min (List.length l) (List.length l) = 144%nat) by reflexivity.
  split; [exact Hn |].
  destruct (series_start_and_cadence Scenario.clock (DateTime.fixed_zone 0)
              Scenario.no_chart_error Scenario.not_a_number l l (fresh PiHoleTraffic.empty))
    as [startTime [Hs [H144 _]]].
  destruct (H144 Hn) as [Hstart Hlen].
  split; [| exact Hlen].
  transitivity (@inr error Z startTime); [exact Hs | f_equal; exact Hstart].
Defined.

(** C5: For two series of any lengths, the two output series are the
    first [min] samples of the inputs, in the input order; the samples
    beyond that are dropped, and the truncation raises nothing: the only
    error the reconstruction can end in is the chart collaborator's. *)
Theorem series_truncated_to_shorter
        clock LocalTZA updateChart asNumber (l1 l2 : list value)
        (w : world PiHoleTraffic.state) :
  let n := Nat.min (List.length l1) (List.length l2) in
  let r := PiHoleTraffic.reconstruct clock LocalTZA updateChart asNumber (VArr l1) (VArr l2) w in
  PiHoleTraffic.queriesData (final r) = VArr (firstn n l1) /\
  PiHoleTraffic.blockedData (final r) = VArr (firstn n l2) /\
  List.length (firstn n l1) = n /\
  List.length (firstn n l2) = n /\
  List.length (PiHoleTraffic.labels (final r)) = n /\
  (forall i, (i < n)%nat ->
             nth_error (firstn n l1) i = nth_error l1 i /\
             nth_error (firstn n l2) i = nth_error l2 i) /\
  l1 = (firstn n l1 ++ skipn n l1)%list /\
  l2 = (firstn n l2 ++ skipn n l2)%list /\
  result r = match updateChart (final r) with
             | Some e => inl e
             | None => inr tt
             end.
Proof.
  intros n r.
  destruct (reconstruct_arrays clock LocalTZA updateChart asNumber l1 l2 w) as [reads E].
  fold n in E. subst r. unfold final, result. rewrite E.
  cbn [fst snd data PiHoleTraffic.labels PiHoleTraffic.queriesData
         PiHoleTraffic.blockedData].
  repeat split.
  - apply firstn_length_le. subst n. lia.
  - apply firstn_length_le. subst n. lia.
  - rewrite length_map. apply pointTimes_length.
  - rewrite nth_error_firstn. apply Nat.ltb_lt in H. rewrite H. reflexivity.
  - rewrite nth_error_firstn. apply Nat.ltb_lt in H. rewrite H. reflexivity.
  - symmetry. apply firstn_skipn.
  - symmetry. apply firstn_skipn.
Qed.

Lemma fifty_and_eighty_give_fifty :
  let r := PiHoleTraffic.reconstruct Scenario.clock (DateTime.fixed_zone 0)
             Scenario.no_chart_error Scenario.not_a_number
             (VArr (Scenario.samples 50)) (VArr (Scenario.samples 80))
             (fresh PiHoleTraffic.empty) in
  PiHoleTraffic.queriesData (final r) = VArr (Scenario.samples 50) /\
  PiHoleTraffic.blockedData (final r) = VArr (firstn 50 (Scenario.samples 80)) /\
  List.length (PiHoleTraffic.labels (final r)) = 50%nat /\
  result r = inr tt.
Proof.
  intros r.
  destruct (series_truncated_to_shorter Scenario.clock (DateTime.fixed_zone 0)
              Scenario.no_chart_error Scenario.not_a_number (Scenario.samples 50) (Scenario.samples 80)
              (fresh PiHoleTraffic.empty))
    as [H1 [H2 [_ [_ [H3 [_ [_ [_ H4]]]]]]]].
  split; [exact H1 |]. split; [exact H2 |]. split; [exact H3 | exact H4].
Defined.

(** C8: The label of an instant is its local time of day on a 12-hour
    clock: the hour as a number from 1 to 12 (0 and 12 both give 12), a
    colon, the minutes as two digits, a space and AM before noon, PM from
    noon on. *)
Theorem label_is_twelve_hour_clock :
  (forall LocalTZA t,
      let h := DateTime.getHours LocalTZA t in
      let m := DateTime.getMinutes LocalTZA t in
      PiHoleTraffic.timeLabel LocalTZA t = twelve_hour_label h m /\
      1 <= hour12 h <= 12 /\
      hour12 h mod 12 = h mod 12 /\
      String.length (two_digits m) = 2%nat) /\
  hour12 0 = 12 /\ hour12 12 = 12 /\
  PiHoleTraffic.formatLabel 0 0 = "12:00 AM" /\
  PiHoleTraffic.formatLabel 12 0 = "12:00 PM" /\
  PiHoleTraffic.formatLabel 13 5 = "1:05 PM" /\
  PiHoleTraffic.formatLabel 17 55 = "5:55 PM" /\
  PiHoleTraffic.timeLabel (DateTime.fixed_zone 0) (17 * 3600000 + 55 * 60000)
  = "5:55 PM" /\
  PiHoleTraffic.timeLabel (DateTime.fixed_zone (-3600000)) 0 = "11:00 PM".
Proof.
  split; [| repeat split].
  intros LocalTZA t h m.
  pose proof (getHours_range LocalTZA t) as Hh.
  pose proof (getMinutes_range LocalTZA t) as Hm.
  fold h in Hh. fold m in Hm.
  split; [| split; [| split]].
  - unfold PiHoleTraffic.timeLabel. fold h m.
    apply formatLabel_twelve_hour; assumption.
  - apply hour12_range. exact Hh.
  - unfold hour12. destruct (Z.eqb_spec h 0) as [-> | Hz]; [reflexivity |].
    destruct (Z.leb_spec h 12); [reflexivity |].
    rewrite <- (Z.mod_add (h - 12) 1 12) by lia. f_equal. lia.
  - reflexivity.
Qed.

(** *** What goes on the wire *)

Section Emits.

Context {D : Type}.
Variable P : request -> Prop.

Lemma emits_silent {A} (m : M D A) :
  (forall w, requests (fst (m w)) = requests w) -> emits P m.
Proof.
  intros H w. exists []. rewrite app_nil_r. split; [apply H | constructor].
Qed.

Lemma emits_ret {A} (a : A) : emits P (ret (D:=D) a).
Proof. apply emits_silent. reflexivity. Qed.

Lemma emits_throw {A} e : emits P (throw (D:=D) (A:=A) e).
Proof. apply emits_silent. reflexivity. Qed.

Lemma emits_lift {A} (r : error + A) : emits P (lift (D:=D) r).
Proof. apply emits_silent. reflexivity. Qed.

Lemma emits_modify f : emits P (modify (D:=D) f).
Proof. apply emits_silent. reflexivity. Qed.

Lemma emits_throw_if c e : emits P (throw_if (D:=D) c e).
Proof. destruct c; [apply emits_throw | apply emits_ret]. Qed.

Lemma emits_json res : emits P (json (D:=D) res).
Proof. unfold json. destruct (parsed res); [apply emits_ret | apply emits_throw]. Qed.

Lemma emits_newDate clock : emits P (newDate (D:=D) clock).
Proof. apply emits_silent. reflexivity. Qed.

Lemma emits_fetch server r : P r -> emits P (fetch (D:=D) server r).
Proof.
  intros Hr w. exists [r]. unfold fetch.
  destruct (server r); cbn; (split; [reflexivity | repeat constructor; exact Hr]).
Qed.

Lemma emits_bind {A B} (m : M D A) (k : A -> M D B) :
  emits P m -> (forall a, emits P (k a)) -> emits P (bind m k).
Proof.
  intros Hm Hk w. unfold bind.
  destruct (Hm w) as [new1 [E1 F1]].
  destruct (m w) as [w' [e | a]]; cbn in E1 |- *.
  - exists new1. split; assumption.
  - destruct (Hk a w') as [new2 [E2 F2]].
    exists (new1 ++ new2)%list. rewrite E2, E1, app_assoc.
    split; [reflexivity | apply Forall_app; split; assumption].
Qed.

Lemma emits_try_catch {A} (m : M D A) (h : error -> M D A) :
  emits P m -> (forall e, emits P (h e)) -> emits P (try_catch m h).
Proof.
  intros Hm Hh w. unfold try_catch.
  destruct (Hm w) as [new1 [E1 F1]].
  destruct (m w) as [w' [e | a]]; cbn in E1 |- *.
  - destruct (Hh e w') as [new2 [E2 F2]].
    exists (new1 ++ new2)%list. rewrite E2, E1, app_assoc.
    split; [reflexivity | apply Forall_app; split; assumption].
  - exists new1. split; assumption.
Qed.

End Emits.

Lemma emits_some_undefined P j fields :
  emits P (PiHoleStats.some_undefined j fields).
Proof.
  induction fields as [| f fields IH]; cbn [PiHoleStats.some_undefined].
  - apply emits_ret.
  - apply emits_bind; [apply emits_lift |].
    intros x. destruct (is_undefined x); [apply emits_ret | exact IH].
Qed.

Lemma emits_pushLabels P LocalTZA startTime n :
  forall i, emits P (PiHoleTraffic.pushLabels LocalTZA startTime n i).
Proof.
  induction n as [| n IH]; intros i; cbn [PiHoleTraffic.pushLabels].
  - apply emits_ret.
  - apply emits_bind; [apply emits_modify | intros _; apply IH].
Qed.

Lemma append_cancel_l (s a b : string) : s ++ a = s ++ b -> a = b.
Proof.
  induction s as [| c s IH]; cbn; intros H; [exact H |].
  inversion H. auto.
Qed.

Lemma authenticate_without_secret {D} server message base (w : world D) :
  authenticate server message base "" w = (w, inr VNull).
Proof. reflexivity. Qed.

(** One step of a proof that a cycle [emits] only what it should. *)
Ltac emits_step :=
  first
    [ apply emits_ret | apply emits_throw | apply emits_lift
    | apply emits_modify | apply emits_throw_if | apply emits_json
    | apply emits_newDate | apply emits_some_undefined
    | apply emits_pushLabels
    | apply emits_bind; [| intros ?]
    | match goal with
      | |- emits _ (if ?c then _ else _) => destruct c
      | |- emits _ (match ?x with _ => _ end) => destruct x
      end ].

Section Unauthenticated.

Variable opts : options.
Hypothesis Hsecret : apiKey opts = None \/ apiKey opts = Some "".

Lemma no_password : password_of opts = "".
Proof. unfold password_of. destruct Hsecret as [-> | ->]; reflexivity. Qed.

Lemma emits_authenticate {D} server message :
  emits (unauthenticated opts)
    (authenticate (D:=D) server message (baseUrl opts) (password_of opts)).
Proof. rewrite no_password. apply emits_silent. reflexivity. Qed.

Lemma authenticate_gives_no_token {D A} server message (k : value -> M D A) :
  (sid <- authenticate server message (baseUrl opts) (password_of opts);; k sid)%js
  = k VNull.
Proof. rewrite no_password. reflexivity. Qed.

Lemma stat_request_unauthenticated path :
  path <> "/api/auth" ->
  unauthenticated opts (statRequest (baseUrl opts ++ path) VNull).
Proof.
  intros Hp. repeat split. cbn [url statRequest].
  intros E. apply append_cancel_l in E. exact (Hp E).
Qed.

Lemma top_queries_unauthenticated server :
  emits (unauthenticated opts) (PiHoleTopQueries.fetchData server opts).
Proof.
  unfold PiHoleTopQueries.fetchData, PiHoleTopQueries.attempt,
    PiHoleTopQueries.recover.
  rewrite authenticate_gives_no_token.
  apply emits_try_catch; [| intros e]; repeat emits_step;
    apply emits_fetch, stat_request_unauthenticated; discriminate.
Qed.

Lemma stats_unauthenticated server toFixed1 updateChart :
  emits (unauthenticated opts)
    (PiHoleStats.fetchData server opts toFixed1 updateChart).
Proof.
  unfold PiHoleStats.fetchData, PiHoleStats.attempt, PiHoleStats.recover.
  rewrite authenticate_gives_no_token.
  apply emits_try_catch; [| intros e]; repeat emits_step;
    try (apply emits_fetch, stat_request_unauthenticated; discriminate);
    apply emits_silent; intros w0; unfold PiHoleStats.callUpdateChart;
    destruct (updateChart _); reflexivity.
Qed.

Lemma traffic_unauthenticated server clock LocalTZA updateChart asNumber :
  emits (unauthenticated opts)
    (PiHoleTraffic.fetchData server clock LocalTZA opts updateChart asNumber).
Proof.
  unfold PiHoleTraffic.fetchData, PiHoleTraffic.attempt, PiHoleTraffic.recover,
    PiHoleTraffic.reconstruct, PiHoleTraffic.startTimeOf.
  rewrite authenticate_gives_no_token.
  apply emits_try_catch; [| intros e]; repeat emits_step;
    try (apply emits_fetch, stat_request_unauthenticated; discriminate);
    apply emits_silent; intros w0; unfold PiHoleTraffic.callUpdateChart;
    destruct (updateChart _); reflexivity.
Qed.

End Unauthenticated.

(** C9: With no secret (absent or the empty string) the authentication
    block yields the token none at once and leaves the world as it was: no
    request goes out.  Every request of the three cycles is then a GET that
    is not addressed to the auth endpoint and whose headers are the [Accept]
    header alone: no session-token header. *)
Theorem empty_secret_skips_authentication opts :
  apiKey opts = None \/ apiKey opts = Some "" ->
  (forall (D : Type) server message (w : world D),
      authenticate server message (baseUrl opts) (password_of opts) w
      = (w, inr VNull)) /\
  (forall server,
      emits (unauthenticated opts) (PiHoleTopQueries.fetchData server opts)) /\
  (forall server toFixed1 updateChart,
      emits (unauthenticated opts)
        (PiHoleStats.fetchData server opts toFixed1 updateChart)) /\
  (forall server clock LocalTZA updateChart asNumber,
      emits (unauthenticated opts)
        (PiHoleTraffic.fetchData server clock LocalTZA opts updateChart asNumber)).
Proof.
  intros Hsecret. split; [| split; [| split]].
  - intros D server message w. rewrite (no_password opts Hsecret).
    apply authenticate_without_secret.
  - intros server. apply top_queries_unauthenticated. exact Hsecret.
  - intros server toFixed1 updateChart. apply stats_unauthenticated. exact Hsecret.
  - intros server clock LocalTZA updateChart asNumber.
    apply traffic_unauthenticated. exact Hsecret.
Qed.

Lemma anonymous_cycle_sends_no_token :
  (apiKey Scenario.anonymous = None \/ apiKey Scenario.anonymous = Some "") /\
  authenticate (D:=unit) Scenario.unreachable "no session"
    (baseUrl Scenario.anonymous) (password_of Scenario.anonymous) (fresh tt)
  = (fresh tt, inr VNull) /\
  emits (unauthenticated Scenario.anonymous)
    (PiHoleTopQueries.fetchData Scenario.array_blocked Scenario.anonymous).
Proof.
  assert (H : apiKey Scenario.anonymous = None \/ apiKey Scenario.anonymous = Some "")
    by (left; reflexivity).
  split; [exact H |].
  destruct (empty_secret_skips_authentication Scenario.anonymous H)
    as [Hauth [Htop _]].
  split; [apply Hauth | apply Htop].
Defined.

(* ===================================================================== *)
(** ** Further properties *)
(* ===================================================================== *)

(** *** The base address *)

Lemma strip_decomposes s :
  exists k, s = strip_trailing_slashes s ++ slashes k.
Proof.
  induction s as [| c s [k IH]].
  - exists 0%nat. reflexivity.
  - cbn [strip_trailing_slashes].
    destruct (strip_trailing_slashes s) as [| a r] eqn:E.
    + cbn in IH. destruct (Ascii.eqb_spec c "/") as [-> | Hc].
      * exists (S k). cbn. rewrite <- IH. reflexivity.
      * exists k. cbn. rewrite <- IH. reflexivity.
    + exists k. cbn [append]. rewrite IH at 1. reflexivity.
Qed.

Lemma strip_has_no_trailing_slash s :
  ends_with_slash (strip_trailing_slashes s) = false.
Proof.
  induction s as [| c s IH].
  - reflexivity.
  - cbn [strip_trailing_slashes].
    destruct (strip_trailing_slashes s) as [| a r] eqn:E.
    + destruct (Ascii.eqb_spec c "/") as [-> | Hc]; [reflexivity |].
      cbn. apply Ascii.eqb_neq. exact Hc.
    + exact IH.
Qed.

Lemma strip_keeps_clean s :
  ends_with_slash s = false -> strip_trailing_slashes s = s.
Proof.
  induction s as [| c s IH]; [reflexivity |].
  intros H. cbn [strip_trailing_slashes].
  destruct s as [| a r].
  - cbn in H |- *. rewrite H. reflexivity.
  - rewrite IH by exact H. reflexivity.
Qed.

(** X1: The base address is the host name without its trailing slashes:
    the host name is the base address followed by slashes only, the base
    address does not end in a slash, and stripping again changes nothing. *)
Theorem base_address_has_no_trailing_slash (o : options) :
  (exists k, hostname o = baseUrl o ++ slashes k) /\
  ends_with_slash (baseUrl o) = false /\
  strip_trailing_slashes (baseUrl o) = baseUrl o /\
  (ends_with_slash (hostname o) = false -> baseUrl o = hostname o).
Proof.
  unfold baseUrl. split; [apply strip_decomposes |].
  split; [apply strip_has_no_trailing_slash |].
  split.
  - apply strip_keeps_clean, strip_has_no_trailing_slash.
  - apply strip_keeps_clean.
Qed.

Lemma clean_host_is_its_own_base :
  ends_with_slash "http://pihole.local" = false /\
  baseUrl Scenario.anonymous = "http://pihole.local".
Proof.
  assert (H : ends_with_slash (hostname Scenario.anonymous) = false) by reflexivity.
  split; [exact H |].
  destruct (base_address_has_no_trailing_slash Scenario.anonymous)
    as [_ [_ [_ Hclean]]].
  exact (Hclean H).
Defined.

(** *** The count of the top-domains requests *)

(** Below [10^21] the count is read back as it is ... *)
Lemma parseInt_reads_back c : Z.abs c < 10 ^ 21 -> parseInt c = c.
Proof.
  intros H. unfold parseInt.
  destruct (Z.ltb_spec (Z.abs c) (10 ^ 21)); [reflexivity | lia].
Qed.

(** ... and from there on [parseInt] sees the exponent form: of [1e+21] it
    reads 1, and so it does of the double next to [10^23], which prints as
    [1e+23]. *)
Lemma parseInt_exponent_form :
  parseInt (10 ^ 21) = 1 /\
  parseInt 99999999999999991611392 = 1 /\
  parseInt (5 * 10 ^ 21) = 5 /\
  parseInt (2 ^ 70) = 1 /\
  parseInt (- 10 ^ 21) = -1.
Proof. repeat split; vm_compute; reflexivity. Qed.

Lemma count_defaults opts :
  (count opts = None -> PiHoleTopQueries.count opts = 10) /\
  (forall c, count opts = Some c -> 0 < c < 10 ^ 21 ->
             PiHoleTopQueries.count opts = c) /\
  (forall c, count opts = Some c -> - 10 ^ 21 < c <= 0 ->
             PiHoleTopQueries.count opts = 10).
Proof.
  unfold PiHoleTopQueries.count. split; [| split].
  - intros ->. reflexivity.
  - intros c -> Hc. cbv zeta. rewrite parseInt_reads_back by lia.
    destruct (Z.ltb_spec 0 c); [reflexivity | lia].
  - intros c -> Hc. cbv zeta. rewrite parseInt_reads_back by lia.
    destruct (Z.ltb_spec 0 c); [lia | reflexivity].
Qed.

(** *** The order of the requests *)

Lemma nothing_is_silent {D A} (m : M D A) :
  emits nothing m -> forall w, requests (fst (m w)) = requests w.
Proof.
  intros H w. destruct (H w) as [new [E F]].
  destruct new as [| r new]; [rewrite E; apply app_nil_r |].
  inversion F as [| ? ? Hr _]. destruct Hr.
Qed.

Section Traces.

Context {D : Type}.

Lemma traces_silent {A} (m : M D A) : emits nothing m -> traces [] m.
Proof.
  intros H w. exists []. rewrite app_nil_r.
  split; [apply nothing_is_silent; exact H |].
  split; [exists []; reflexivity | reflexivity].
Qed.

Lemma traces_after_silent {A B} plan (m : M D A) (k : A -> M D B) :
  emits nothing m -> (forall a, traces plan (k a)) -> traces plan (bind m k).
Proof.
  intros Hm Hk w. unfold bind.
  pose proof (nothing_is_silent m Hm w) as E.
  destruct (m w) as [w' [e | a]]; cbn [fst] in E.
  - exists []. cbn [fst snd]. rewrite app_nil_r.
    split; [exact E |]. split; [exists plan; reflexivity | discriminate].
  - destruct (Hk a w') as [new [E' [Hp Hs]]]. exists new.
    rewrite E', E. split; [reflexivity |]. split; assumption.
Qed.

Lemma traces_fetch {B} server r plan (k : response -> M D B) :
  (forall res, traces plan (k res)) ->
  traces (r :: plan) (bind (fetch server r) k).
Proof.
  intros Hk w. unfold bind, fetch.
  destruct (server r) as [| o j].
  - exists [r]. cbn [fst snd sent requests].
    split; [reflexivity |]. split; [exists plan; reflexivity | discriminate].
  - destruct (Hk (mkResponse o j) (sent r w)) as [new [E [[rest Hp] Hs]]].
    exists (r :: new). rewrite E. cbn [sent requests].
    rewrite <- app_assoc. split; [reflexivity |].
    split.
    + exists rest. rewrite Hp. reflexivity.
    + intros a Ha. rewrite (Hs a Ha). reflexivity.
Qed.

Lemma traces_try_catch plan (m : M D unit) (h : error -> M D unit) :
  traces plan m ->
  (forall e, emits nothing (h e)) ->
  (forall e w, exists e', snd (h e w) = inl e') ->
  traces plan (try_catch m h).
Proof.
  intros Hm Hh Hraise w. unfold try_catch.
  destruct (Hm w) as [new [E [Hp Hs]]].
  destruct (m w) as [w' [e | a]]; cbn [fst snd] in *.
  - exists new. rewrite (nothing_is_silent (h e) (Hh e) w').
    split; [exact E |]. split; [exact Hp |].
    intros a Ha. destruct (Hraise e w') as [e' He']. congruence.
  - exists new. split; [exact E |]. split; assumption.
Qed.

(** The authentication block sends its one request, or none without a
    secret, whatever comes of it. *)
Lemma authenticate_requests server message opts (w : world D) :
  requests (fst (authenticate server message (baseUrl opts) (password_of opts) w))
  = (requests w ++ auth_plan opts)%list.
Proof.
  unfold authenticate, auth_plan.
  destruct (String.eqb (password_of opts) ""); cbn [negb].
  - cbn. rewrite app_nil_r. reflexivity.
  - unfold bind at 1. unfold fetch.
    destruct (server (authRequest (baseUrl opts) (password_of opts))) as [| o j].
    + reflexivity.
    + match goal with
      | |- requests (fst (?k ?w')) = _ =>
          rewrite (nothing_is_silent k); [reflexivity |]
      end.
      repeat emits_step.
Qed.

(** A cycle that authenticates and then follows a plan that may depend on
    the token. *)
Lemma traces_after_auth server message opts
      (rest : value -> M D unit) (plan : value -> list request) :
  (forall sid, traces (plan sid) (rest sid)) ->
  forall w, exists sid new,
    let r := (sid <- authenticate server message (baseUrl opts) (password_of opts);;
              rest sid)%js w in
    requests (fst r) = (requests w ++ new)%list /\
    prefix_of new (auth_plan opts ++ plan sid) /\
    (forall a, snd r = inr a -> new = (auth_plan opts ++ plan sid)%list).
Proof.
  intros Hrest w. cbv zeta. unfold bind.
  pose proof (authenticate_requests server message opts w) as Ea.
  destruct (authenticate server message (baseUrl opts) (password_of opts) w)
    as [w1 [e | sid]]; cbn [fst snd] in *.
  - exists VNull, (auth_plan opts). split; [exact Ea |].
    split; [exists (plan VNull); reflexivity | discriminate].
  - destruct (Hrest sid w1) as [new [E [[tail Hp] Hs]]].
    exists sid, (auth_plan opts ++ new)%list.
    rewrite E, Ea, <- app_assoc. split; [reflexivity |].
    split.
    + exists tail. rewrite Hp, <- app_assoc. reflexivity.
    + intros a Ha. rewrite (Hs a Ha). reflexivity.
Qed.

End Traces.

Lemma try_catch_requests {D} (m : M D unit) (h : error -> M D unit) w :
  (forall e, emits nothing (h e)) ->
  requests (fst (try_catch m h w)) = requests (fst (m w)).
Proof.
  intros Hh. unfold try_catch. destruct (m w) as [w' [e | a]]; cbn [fst].
  - apply (nothing_is_silent (h e) (Hh e)).
  - reflexivity.
Qed.

Lemma try_catch_returns {D} (m : M D unit) (h : error -> M D unit) w a :
  (forall e w', exists e', snd (h e w') = inl e') ->
  snd (try_catch m h w) = inr a -> snd (m w) = inr a.
Proof.
  intros Hh. unfold try_catch. destruct (m w) as [w' [e | a']]; cbn [snd].
  - destruct (Hh e w') as [e' ->]. discriminate.
  - trivial.
Qed.

(** One step of a proof that the tail of a cycle follows its plan. *)
Ltac traces_step :=
  first
    [ apply traces_fetch; intros ?
    | apply traces_after_silent; [solve [repeat emits_step] | intros ?]
    | apply traces_silent; solve [repeat emits_step] ].

(** X2: Each cycle sends at most one request per endpoint, in a fixed
    order, and never repeats one: the authentication request first (only
    with a secret), then the statistics requests, all with the headers of
    one and the same token.  A cycle that returns has sent them all; a cycle
    that raises has sent an initial part of them. *)
Theorem requests_follow_the_plan :
  (forall server opts w, exists sid new,
      let r := PiHoleTopQueries.fetchData server opts w in
      let plan := (auth_plan opts
                   ++ [statRequest (PiHoleTopQueries.blockedUrl opts) sid;
                       statRequest (PiHoleTopQueries.allowedUrl opts) sid])%list in
      issued r = (requests w ++ new)%list /\
      prefix_of new plan /\
      (result r = inr tt -> new = plan)) /\
  (forall server opts toFixed1 updateChart w, exists sid new,
      let r := PiHoleStats.fetchData server opts toFixed1 updateChart w in
      let plan := (auth_plan opts
                   ++ [statRequest (PiHoleStats.summaryUrl opts) sid;
                       statRequest (PiHoleStats.statusUrl opts) sid])%list in
      issued r = (requests w ++ new)%list /\
      prefix_of new plan /\
      (result r = inr tt -> new = plan)) /\
  (forall server clock LocalTZA opts updateChart asNumber w, exists sid new,
      let r := PiHoleTraffic.fetchData server clock LocalTZA opts updateChart asNumber w in
      let plan := (auth_plan opts
                   ++ [statRequest (PiHoleTraffic.historyUrl opts) sid])%list in
      issued r = (requests w ++ new)%list /\
      prefix_of new plan /\
      (result r = inr tt -> new = plan)).
Proof.
  split; [| split].
  - intros server opts w.
    destruct (traces_after_auth server PiHoleTopQueries.auth_failed_message opts
                (fun sid =>
                   blockedRes <- fetch server (statRequest (PiHoleTopQueries.blockedUrl opts) sid);;
                   throw_if (negb (ok blockedRes)) (Error "Failed to fetch top blocked domains");;
                   blockedData <- json blockedRes;;
                   allowedRes <- fetch server (statRequest (PiHoleTopQueries.allowedUrl opts) sid);;
                   throw_if (negb (ok allowedRes)) (Error "Failed to fetch top allowed domains");;
                   allowedData <- json allowedRes;;
                   bad <- (if is_null blockedData then ret true
                           else top_sources <- lift (get blockedData "top_sources");;
                                ret (ToBoolean top_sources || is_null allowedData));;
                   throw_if bad PiHoleTopQueries.unexpected;;
                   modify (fun d => PiHoleTopQueries.mkState
                                      (PiHoleTopQueries.as_mapping blockedData)
                                      (PiHoleTopQueries.top_queries d));;
                   modify (fun d => PiHoleTopQueries.mkState
                                      (PiHoleTopQueries.top_ads d)
                                      (PiHoleTopQueries.as_mapping allowedData)))%js
                (fun sid => [statRequest (PiHoleTopQueries.blockedUrl opts) sid;
                             statRequest (PiHoleTopQueries.allowedUrl opts) sid])
                ltac:(intros sid; repeat traces_step) w)
      as [sid [new [E [Hp Hs]]]].
    exists sid, new. cbv zeta. unfold issued, result, PiHoleTopQueries.fetchData.
    rewrite try_catch_requests
      by (intros e; unfold PiHoleTopQueries.recover; repeat emits_step).
    split; [exact E |]. split; [exact Hp |].
    intros Hr. apply (Hs tt).
    apply (try_catch_returns _ PiHoleTopQueries.recover); [| exact Hr].
    intros e w'. exists e. reflexivity.
  - intros server opts toFixed1 updateChart w.
    assert (Hchart : emits nothing (PiHoleStats.callUpdateChart updateChart)).
    { apply emits_silent. intros w0. unfold PiHoleStats.callUpdateChart.
      destruct (updateChart _); reflexivity. }
    assert (Hplan : forall sid,
               traces [statRequest (PiHoleStats.summaryUrl opts) sid;
                       statRequest (PiHoleStats.statusUrl opts) sid]
                 ((fun sid =>
                   summaryRes <- fetch server (statRequest (PiHoleStats.summaryUrl opts) sid);;
                   throw_if (negb (ok summaryRes)) (Error "Failed to fetch summary data");;
                   summaryJson <- json summaryRes;;
                   statusRes <- fetch server (statRequest (PiHoleStats.statusUrl opts) sid);;
                   throw_if (negb (ok statusRes)) (Error "Failed to fetch status");;
                   statusJson <- json statusRes;;
                   invalid <- PiHoleStats.some_undefined summaryJson PiHoleStats.summary_fields;;
                   throw_if invalid PiHoleStats.unexpected;;
                   blocking <- lift (get statusJson "blocking");;
                   let statusEnabled :=
                     if negb (is_undefined blocking) then blocking else VBool true in
                   summaryJson <- lift (PiHoleStats.set summaryJson "status"
                                          (VStr (if ToBoolean statusEnabled
                                                 then "enabled" else "disabled")));;
                   pct <- lift (get summaryJson "ads_percentage_today");;
                   summaryJson <- match pct with
                                  | VNum q => lift (PiHoleStats.set summaryJson
                                                      "ads_percentage_today"
                                                      (VStr (toFixed1 q)))
                                  | _ => ret summaryJson
                                  end;;
                   modify (fun _ => summaryJson);;
                   if negb (hideChart opts)
                   then PiHoleStats.callUpdateChart updateChart else ret tt)%js sid)).
    { intros sid. do 6 traces_step.
      apply traces_silent. repeat (first [exact Hchart | emits_step]). }
    destruct (traces_after_auth server PiHoleStats.auth_failed_message opts
                _ _ Hplan w) as [sid [new [E [Hp Hs]]]].
    exists sid, new. cbv zeta. unfold issued, result, PiHoleStats.fetchData.
    rewrite try_catch_requests
      by (intros e; unfold PiHoleStats.recover; repeat emits_step).
    split; [exact E |]. split; [exact Hp |].
    intros Hr. apply (Hs tt).
    apply (try_catch_returns _ PiHoleStats.recover); [| exact Hr].
    intros e w'. exists e. reflexivity.
  - intros server clock LocalTZA opts updateChart asNumber w.
    assert (Hchart : emits nothing (PiHoleTraffic.callUpdateChart updateChart)).
    { apply emits_silent. intros w0. unfold PiHoleTraffic.callUpdateChart.
      destruct (updateChart _); reflexivity. }
    assert (Hplan : forall sid,
               traces [statRequest (PiHoleTraffic.historyUrl opts) sid]
                 ((fun sid =>
                   historyRes <- fetch server (statRequest (PiHoleTraffic.historyUrl opts) sid);;
                   throw_if (negb (ok historyRes)) (Error "Failed to fetch history data");;
                   historyData <- json historyRes;;
                   domains <- lift (get historyData "domains_over_time");;
                   missing <- (if negb (ToBoolean domains) then ret true
                               else ads <- lift (get historyData "ads_over_time");;
                                    ret (negb (ToBoolean ads)));;
                   throw_if missing PiHoleTraffic.unexpected;;
                   domainsSeries <- lift (get historyData "domains_over_time");;
                   adsSeries <- lift (get historyData "ads_over_time");;
                   PiHoleTraffic.reconstruct clock LocalTZA updateChart asNumber
                     domainsSeries adsSeries)%js sid)).
    { intros sid. do 3 traces_step.
      apply traces_silent. unfold PiHoleTraffic.reconstruct, PiHoleTraffic.startTimeOf.
      repeat (first [exact Hchart | emits_step]). }
    destruct (traces_after_auth server PiHoleTraffic.auth_failed_message opts
                _ _ Hplan w) as [sid [new [E [Hp Hs]]]].
    exists sid, new. cbv zeta. unfold issued, result, PiHoleTraffic.fetchData.
    rewrite try_catch_requests
      by (intros e; unfold PiHoleTraffic.recover; repeat emits_step).
    split; [exact E |]. split; [exact Hp |].
    intros Hr. apply (Hs tt).
    apply (try_catch_returns _ PiHoleTraffic.recover); [| exact Hr].
    intros e w'. exists e. reflexivity.
Qed.

(** *** Fetches that fail *)

Lemma auth_world {D} server message opts (w w1 : world D) sid :
  authenticate server message (baseUrl opts) (password_of opts) w = (w1, inr sid) ->
  requests w1 = (requests w ++ auth_plan opts)%list.
Proof.
  intros H. pose proof (authenticate_requests server message opts w) as E.
  rewrite H in E. exact E.
Qed.

(** X3: In the top-domains cycle a fetch that fails ends the cycle at
    once: the error is that of the failure (the endpoint's own message for a
    response that is not ok), both mappings are emitted empty, and nothing
    is requested after it - a failed blocked fetch is not followed by the
    allowed fetch. *)
Theorem top_domains_fetch_failure
        server opts (w w1 : world PiHoleTopQueries.state) sid :
  authenticate server PiHoleTopQueries.auth_failed_message (baseUrl opts)
    (password_of opts) w = (w1, inr sid) ->
  let blocked := statRequest (PiHoleTopQueries.blockedUrl opts) sid in
  let allowed := statRequest (PiHoleTopQueries.allowedUrl opts) sid in
  let r := PiHoleTopQueries.fetchData server opts w in
  (forall e,
      fetch_error "Failed to fetch top blocked domains" (server blocked) = Some e ->
      result r = inl e /\ final r = PiHoleTopQueries.empty /\
      issued r = (requests w ++ auth_plan opts ++ [blocked])%list) /\
  (forall b e,
      server blocked = Response true (Some b) ->
      fetch_error "Failed to fetch top allowed domains" (server allowed) = Some e ->
      result r = inl e /\ final r = PiHoleTopQueries.empty /\
      issued r = (requests w ++ auth_plan opts ++ [blocked; allowed])%list).
Proof.
  intros Hauth blocked allowed r. subst r.
  pose proof (auth_world _ _ _ _ _ _ Hauth) as Hw1.
  split.
  - intros e He.
    unfold PiHoleTopQueries.fetchData, try_catch, PiHoleTopQueries.attempt.
    rewrite (bind_ok _ _ _ _ _ Hauth).
    fold blocked. rewrite (failing_fetch _ _ _ _ _ _ He).
    unfold result, final, issued. cbn. rewrite Hw1, <- app_assoc.
    repeat split.
  - intros b e Hb He.
    unfold PiHoleTopQueries.fetchData, try_catch, PiHoleTopQueries.attempt.
    rewrite (bind_ok _ _ _ _ _ Hauth).
    fold blocked. rewrite (fetch_json_ok _ _ _ _ _ _ Hb).
    fold allowed. rewrite (failing_fetch _ _ _ _ _ _ He).
    unfold result, final, issued. cbn. rewrite Hw1, <- !app_assoc.
    repeat split.
Qed.

(** X4: In the status/summary cycle a fetch that fails ends the cycle at
    once, with the error of the failure and the empty object as data; a
    failed summary fetch is not followed by the status fetch. *)
Theorem summary_fetch_failure
        server opts toFixed1 updateChart (w w1 : world PiHoleStats.state) sid :
  authenticate server PiHoleStats.auth_failed_message (baseUrl opts)
    (password_of opts) w = (w1, inr sid) ->
  let summary := statRequest (PiHoleStats.summaryUrl opts) sid in
  let status := statRequest (PiHoleStats.statusUrl opts) sid in
  let r := PiHoleStats.fetchData server opts toFixed1 updateChart w in
  (forall e,
      fetch_error "Failed to fetch summary data" (server summary) = Some e ->
      result r = inl e /\ final r = PiHoleStats.empty /\
      issued r = (requests w ++ auth_plan opts ++ [summary])%list) /\
  (forall j e,
      server summary = Response true (Some j) ->
      fetch_error "Failed to fetch status" (server status) = Some e ->
      result r = inl e /\ final r = PiHoleStats.empty /\
      issued r = (requests w ++ auth_plan opts ++ [summary; status])%list).
Proof.
  intros Hauth summary status r. subst r.
  pose proof (auth_world _ _ _ _ _ _ Hauth) as Hw1.
  split.
  - intros e He.
    unfold PiHoleStats.fetchData, try_catch, PiHoleStats.attempt.
    rewrite (bind_ok _ _ _ _ _ Hauth).
    fold summary. rewrite (failing_fetch _ _ _ _ _ _ He).
    unfold result, final, issued. cbn. rewrite Hw1, <- app_assoc.
    repeat split.
  - intros j e Hj He.
    unfold PiHoleStats.fetchData, try_catch, PiHoleStats.attempt.
    rewrite (bind_ok _ _ _ _ _ Hauth).
    fold summary. rewrite (fetch_json_ok _ _ _ _ _ _ Hj).
    fold status. rewrite (failing_fetch _ _ _ _ _ _ He).
    unfold result, final, issued. cbn. rewrite Hw1, <- !app_assoc.
    repeat split.
Qed.

(** X5: In the traffic cycle a history fetch that fails ends the cycle
    with the error of the failure; the labels and both series are emitted
    empty, and the clock is not read. *)
Theorem history_fetch_failure
        server clock LocalTZA opts updateChart asNumber
        (w w1 : world PiHoleTraffic.state) sid e :
  authenticate server PiHoleTraffic.auth_failed_message (baseUrl opts)
    (password_of opts) w = (w1, inr sid) ->
  let history := statRequest (PiHoleTraffic.historyUrl opts) sid in
  let r := PiHoleTraffic.fetchData server clock LocalTZA opts updateChart asNumber w in
  fetch_error "Failed to fetch history data" (server history) = Some e ->
  result r = inl e /\ final r = PiHoleTraffic.empty /\
  issued r = (requests w ++ auth_plan opts ++ [history])%list /\
  clock_reads (fst r) = clock_reads w1.
Proof.
  intros Hauth history r He. subst r.
  pose proof (auth_world _ _ _ _ _ _ Hauth) as Hw1.
  unfold PiHoleTraffic.fetchData, try_catch, PiHoleTraffic.attempt.
  rewrite (bind_ok _ _ _ _ _ Hauth).
  fold history. rewrite (failing_fetch _ _ _ _ _ _ He).
  unfold result, final, issued. cbn. rewrite Hw1, <- app_assoc.
  repeat split.
Qed.

Section TrafficPayload.
Import PiHoleTraffic.

Variable server : request -> outcome.
Variable clock : nat -> Z.
Variable LocalTZA : Z -> bool -> Z.
Variable opts : options.
Variable updateChart : state -> option error.
Variable asNumber : value -> option number.
Variables (w w1 : world state) (sid historyData : value).

Hypothesis Hauth :
  authenticate server auth_failed_message (baseUrl opts) (password_of opts) w
  = (w1, inr sid).
Hypothesis Hhistory :
  server (statRequest (historyUrl opts) sid) = Response true (Some historyData).

(** With the payload in hand the cycle is down to its reads of it. *)
Lemma traffic_after_fetch :
  attempt server clock LocalTZA opts updateChart asNumber w
  = (domains <- lift (get historyData "domains_over_time");;
     missing <- (if negb (ToBoolean domains) then ret true
                 else ads <- lift (get historyData "ads_over_time");;
                      ret (negb (ToBoolean ads)));;
     throw_if missing unexpected;;
     domainsSeries <- lift (get historyData "domains_over_time");;
     adsSeries <- lift (get historyData "ads_over_time");;
     reconstruct clock LocalTZA updateChart asNumber domainsSeries adsSeries)%js
      (sent (statRequest (historyUrl opts) sid) w1).
Proof.
  unfold attempt.
  rewrite (bind_ok _ _ _ _ _ Hauth).
  rewrite (fetch_json_ok _ _ _ _ _ _ Hhistory).
  reflexivity.
Qed.

Lemma traffic_fails_with e :
  result (attempt server clock LocalTZA opts updateChart asNumber w) = inl e ->
  result (fetchData server clock LocalTZA opts updateChart asNumber w) = inl e /\
  final (fetchData server clock LocalTZA opts updateChart asNumber w) = empty.
Proof.
  intros H.
  apply (traffic_failure server clock LocalTZA opts updateChart asNumber w e) in H as Hr.
  split; [exact Hr |].
  apply (traffic_failure server clock LocalTZA opts updateChart asNumber w e). exact Hr.
Qed.

Lemma history_null_fails :
  historyData = VNull ->
  result (attempt server clock LocalTZA opts updateChart asNumber w) = inl TypeError.
Proof. intros E. rewrite traffic_after_fetch, E. reflexivity. Qed.

Lemma history_falsy_series_fails d :
  get historyData "domains_over_time" = inr d ->
  (ToBoolean d = false \/
   exists a, get historyData "ads_over_time" = inr a /\ ToBoolean a = false) ->
  result (attempt server clock LocalTZA opts updateChart asNumber w) = inl unexpected.
Proof.
  intros Hd H. rewrite traffic_after_fetch.
  unfold result, bind, lift. rewrite Hd.
  destruct (ToBoolean d) eqn:Ht; cbn [negb]; [| reflexivity].
  destruct H as [H | [a [Ha Hf]]]; [discriminate |].
  rewrite Ha, Hf. reflexivity.
Qed.

Lemma history_series_reach_reconstruct d a :
  get historyData "domains_over_time" = inr d ->
  get historyData "ads_over_time" = inr a ->
  ToBoolean d = true -> ToBoolean a = true ->
  attempt server clock LocalTZA opts updateChart asNumber w
  = reconstruct clock LocalTZA updateChart asNumber d a
      (sent (statRequest (historyUrl opts) sid) w1).
Proof.
  intros Hd Ha Htd Hta. rewrite traffic_after_fetch.
  unfold bind, lift. rewrite Hd, Ha, Htd, Hta. reflexivity.
Qed.

End TrafficPayload.

(** X6: A history payload that is [null], or in which [domains_over_time]
    or [ads_over_time] is missing or falsy ([null], 0, [false], the empty
    string), fails the traffic cycle and leaves no labels and no samples:
    with a [TypeError] on [null], with "Expected data was not returned from
    Pi-Hole" otherwise. *)
Theorem history_payload_without_series_fails
        server clock LocalTZA opts updateChart asNumber
        (w w1 : world PiHoleTraffic.state) sid historyData :
  authenticate server PiHoleTraffic.auth_failed_message (baseUrl opts)
    (password_of opts) w = (w1, inr sid) ->
  server (statRequest (PiHoleTraffic.historyUrl opts) sid)
  = Response true (Some historyData) ->
  let r := PiHoleTraffic.fetchData server clock LocalTZA opts updateChart asNumber w in
  (historyData = VNull ->
   result r = inl TypeError /\ final r = PiHoleTraffic.empty) /\
  (forall d,
      get historyData "domains_over_time" = inr d ->
      ToBoolean d = false \/
      (exists a, get historyData "ads_over_time" = inr a /\ ToBoolean a = false) ->
      result r = inl PiHoleTraffic.unexpected /\ final r = PiHoleTraffic.empty).
Proof.
  intros Hauth Hh r. subst r. split.
  - intros E. apply traffic_fails_with.
    apply (history_null_fails _ _ _ _ _ _ _ _ _ _ Hauth Hh E).
  - intros d Hd H. apply traffic_fails_with.
    apply (history_falsy_series_fails _ _ _ _ _ _ _ _ _ _ Hauth Hh d Hd H).
Qed.

Section ReconstructAny.
Import DateTime PiHoleTraffic.

Variable clock : nat -> Z.
Variable LocalTZA : Z -> bool -> Z.
Variable updateChart : state -> option error.
Variable asNumber : value -> option number.

Lemma lift_ok {D A B} (a : A) (k : A -> M D B) (w : world D) :
  (x <- lift (inr a);; k x)%js w = k a w.
Proof. reflexivity. Qed.

Lemma lift_raises {D A B} (e : error) (k : A -> M D B) (w : world D) :
  (x <- lift (inl e);; k x)%js w = (w, inl e).
Proof. reflexivity. Qed.

(** The general block, step by step: the labels are reset and pushed, the
    clock is read once or twice, and the block stops at the first [slice]
    that fails. *)
Lemma reconstruct_any_run d a dl al x y (w : world state) :
  length_of d = inr dl -> length_of a = inr al ->
  ToNumber asNumber dl = inr x -> ToNumber asNumber al = inr y ->
  let totalPoints := Math_min x y in
  let full := strict_eq_num totalPoints 144 in
  let startTime := if full then clock (clock_reads w) - 24 * 60 * 60 * 1000
                   else setHours0 LocalTZA (clock (S (clock_reads w))) in
  let reads := if full then S (clock_reads w) else S (S (clock_reads w)) in
  let pushed := map (timeLabel LocalTZA)
                  (pointTimes startTime (iterations totalPoints)) in
  reconstruct_any clock LocalTZA updateChart asNumber d a w
  = match slice_to d totalPoints with
    | inl e =>
        (mkWorld (mkState pushed (queriesData (data w)) (blockedData (data w)))
           (requests w) reads, inl e)
    | inr q =>
        match slice_to a totalPoints with
        | inl e =>
            (mkWorld (mkState pushed q (blockedData (data w))) (requests w) reads,
             inl e)
        | inr bl =>
            (mkWorld (mkState pushed q bl) (requests w) reads,
             match updateChart (mkState pushed q bl) with
             | Some e => inl e
             | None => inr tt
             end)
        end
    end.
Proof.
  intros Hdl Hal Hx Hy totalPoints full startTime reads pushed.
  unfold reconstruct_any.
  rewrite Hdl, lift_ok, Hal, lift_ok, Hx, lift_ok, Hy, lift_ok.
  cbv zeta. fold totalPoints. fold full.
  unfold bind at 1. cbn [modify]. unfold bind at 1. unfold newDate at 1.
  cbn [data requests clock_reads].
  assert (Hstart :
    (if full then ret (clock (clock_reads w) - 24 * 60 * 60 * 1000)
     else today <- newDate clock;; ret (setHours0 LocalTZA today))%js
      (mkWorld (mkState [] (queriesData (data w)) (blockedData (data w)))
         (requests w) (S (clock_reads w)))
    = (mkWorld (mkState [] (queriesData (data w)) (blockedData (data w)))
         (requests w) reads, inr startTime)).
  { subst reads startTime. destruct full; reflexivity. }
  rewrite (bind_ok _ _ _ _ _ Hstart). clear Hstart.
  unfold bind at 1. rewrite pushLabels_run.
  cbn [data requests clock_reads labels queriesData blockedData app].
  assert (Hpushed :
    map (fun k => timeLabel LocalTZA (pointTime startTime (0 + Z.of_nat k)))
        (seq 0 (iterations totalPoints)) = pushed).
  { subst pushed. unfold pointTimes. rewrite map_map. reflexivity. }
  rewrite Hpushed.
  unfold bind, lift, modify, callUpdateChart.
  destruct (slice_to d totalPoints) as [e | q]; [reflexivity |].
  cbn [data requests clock_reads labels queriesData blockedData].
  destruct (slice_to a totalPoints) as [e | bl]; [reflexivity |].
  cbn [data requests clock_reads labels queriesData blockedData].
  destruct (updateChart _); reflexivity.
Qed.

Lemma length_of_raises x e : length_of x = inl e -> e = TypeError.
Proof. destruct x; cbn; intros H; inversion H; reflexivity. Qed.

Lemma ToNumber_raises v e : ToNumber asNumber v = inl e -> e = TypeError.
Proof.
  destruct v; cbn; intros H; try discriminate;
    destruct (asNumber _); inversion H; reflexivity.
Qed.

Lemma slice_to_raises x tp e : slice_to x tp = inl e -> e = TypeError.
Proof. destruct x; cbn; intros H; inversion H; reflexivity. Qed.

Lemma slice_to_needs_a_series x tp :
  series_length x = None -> slice_to x tp = inl TypeError.
Proof. destruct x; cbn; intros H; try discriminate; reflexivity. Qed.

(** With a value that is neither an array nor a string among the two, the
    block ends in a [TypeError], and issues no request on the way. *)
Lemma reconstruct_any_fails d a (w : world state) :
  series_length d = None \/ series_length a = None ->
  exists w',
    reconstruct_any clock LocalTZA updateChart asNumber d a w
    = (w', inl TypeError) /\ requests w' = requests w.
Proof.
  intros Hnone.
  destruct (length_of d) as [e | dl] eqn:Hdl.
  { apply length_of_raises in Hdl as He. subst e.
    exists w. unfold reconstruct_any. rewrite Hdl, lift_raises.
    split; reflexivity. }
  destruct (length_of a) as [e | al] eqn:Hal.
  { apply length_of_raises in Hal as He. subst e.
    exists w. unfold reconstruct_any. rewrite Hdl, lift_ok, Hal, lift_raises.
    split; reflexivity. }
  destruct (ToNumber asNumber dl) as [e | x] eqn:Hx.
  { apply ToNumber_raises in Hx as He. subst e.
    exists w. unfold reconstruct_any.
    rewrite Hdl, lift_ok, Hal, lift_ok, Hx, lift_raises.
    split; reflexivity. }
  destruct (ToNumber asNumber al) as [e | y] eqn:Hy.
  { apply ToNumber_raises in Hy as He. subst e.
    exists w. unfold reconstruct_any.
    rewrite Hdl, lift_ok, Hal, lift_ok, Hx, lift_ok, Hy, lift_raises.
    split; reflexivity. }
  rewrite (reconstruct_any_run d a dl al x y w Hdl Hal Hx Hy). cbv zeta.
  destruct (slice_to d (Math_min x y)) as [e | q] eqn:Hq.
  { apply slice_to_raises in Hq as He. subst e. eexists. split; reflexivity. }
  destruct Hnone as [Hn | Hn].
  { rewrite (slice_to_needs_a_series d _ Hn) in Hq. discriminate. }
  rewrite (slice_to_needs_a_series a _ Hn). eexists. split; reflexivity.
Qed.

(** A number or a boolean has no [length]: the total is NaN, the clock is
    read twice, no label is pushed, and the first [slice] of a value
    without the method raises. *)
Lemma reconstruct_any_without_length d a (w : world state) :
  plain_object d = false -> plain_object a = false ->
  ToBoolean d = true -> ToBoolean a = true ->
  series_length d = None \/ series_length a = None ->
  exists q,
    reconstruct_any clock LocalTZA updateChart asNumber d a w
    = (mkWorld (mkState [] q (blockedData (data w))) (requests w)
         (S (S (clock_reads w))), inl TypeError).
Proof.
  intros Hd Ha Htd Hta Hnone.
  destruct d as [| | bd | qd | sd | ld | od]; try discriminate;
    destruct a as [| | ba | qa | sa | la | oa]; try discriminate;
    cbn [series_length] in Hnone;
    try (destruct Hnone; discriminate);
    eexists;
    (erewrite reconstruct_any_run by (cbn; reflexivity));
    cbn; reflexivity.
Qed.

Lemma count_total n m :
  Math_min (Finite (inject_Z (Z.of_nat n))) (Finite (inject_Z (Z.of_nat m)))
  = Finite (inject_Z (Z.of_nat (Nat.min n m))).
Proof.
  unfold Math_min, Qle_bool. cbn [Qnum Qden inject_Z]. rewrite !Z.mul_1_r.
  destruct (Z.leb_spec (Z.of_nat n) (Z.of_nat m)).
  - rewrite Nat.min_l by lia. reflexivity.
  - rewrite Nat.min_r by lia. reflexivity.
Qed.

Lemma strict_eq_count k :
  strict_eq_num (Finite (inject_Z (Z.of_nat k))) 144 = Nat.eqb k 144.
Proof.
  unfold strict_eq_num.
  destruct (Nat.eqb_spec k 144) as [-> | Hk].
  - reflexivity.
  - destruct (Qeq_bool (inject_Z (Z.of_nat k)) (inject_Z 144)) eqn:E; [| reflexivity].
    apply Qeq_bool_iff in E. unfold Qeq in E. cbn [Qnum Qden inject_Z] in E. lia.
Qed.

Lemma iterations_count k : iterations (Finite (inject_Z (Z.of_nat k))) = k.
Proof. unfold iterations. rewrite Qceiling_Z. apply Nat2Z.id. Qed.

Lemma slice_end_count len k :
  (k <= len)%nat -> slice_end len (Finite (inject_Z (Z.of_nat k))) = k.
Proof.
  intros Hk. unfold slice_end, ToIntegerOrInfinity, Qle_bool.
  cbn [Qnum Qden inject_Z]. rewrite !Z.mul_1_r.
  destruct (Z.leb_spec 0 (Z.of_nat k)); [| lia].
  rewrite Qfloor_Z.
  destruct (Z.ltb_spec (Z.of_nat k) 0); [lia |].
  rewrite Z.min_l by lia. apply Nat2Z.id.
Qed.

Lemma slice_to_count x len k :
  series_length x = Some len -> (k <= len)%nat ->
  slice_to x (Finite (inject_Z (Z.of_nat k))) = slice x k.
Proof.
  intros Hx Hk. destruct x; cbn in Hx; try discriminate; inversion Hx; subst len;
    cbn [slice_to slice]; rewrite slice_end_count by exact Hk; reflexivity.
Qed.

Lemma length_of_count x len :
  series_length x = Some len ->
  length_of x = inr (VNum (inject_Z (Z.of_nat len))).
Proof.
  intros Hx. destruct x; cbn in Hx; try discriminate; inversion Hx; reflexivity.
Qed.

(** On arrays and strings the general block does what the block read on
    counts does: the split of [reconstruct] loses nothing. *)
Lemma reconstruct_any_on_counts d a n m (w : world state) :
  series_length d = Some n -> series_length a = Some m ->
  reconstruct_any clock LocalTZA updateChart asNumber d a w
  = reconstruct clock LocalTZA updateChart asNumber d a w.
Proof.
  intros Hd Ha.
  rewrite (reconstruct_any_run d a _ _ _ _ w
             (length_of_count d n Hd) (length_of_count a m Ha)
             eq_refl eq_refl).
  cbv zeta. rewrite count_total, strict_eq_count, iterations_count.
  rewrite (slice_to_count d n _ Hd) by lia.
  rewrite (slice_to_count a m _ Ha) by lia.
  unfold reconstruct. rewrite Hd, Ha. cbv zeta.
  set (k := Nat.min n m).
  unfold bind at 1. cbn [modify].
  assert (Hstart :
    startTimeOf clock LocalTZA k
      (mkWorld (mkState [] (queriesData (data w)) (blockedData (data w)))
         (requests w) (clock_reads w))
    = (mkWorld (mkState [] (queriesData (data w)) (blockedData (data w)))
         (requests w)
         (if Nat.eqb k 144 then S (clock_reads w) else S (S (clock_reads w))),
       inr (if Nat.eqb k 144 then clock (clock_reads w) - 24 * 60 * 60 * 1000
            else setHours0 LocalTZA (clock (S (clock_reads w)))))).
  { unfold startTimeOf, bind, newDate. destruct (Nat.eqb k 144); reflexivity. }
  rewrite (bind_ok _ _ _ _ _ Hstart). clear Hstart.
  unfold bind at 1. rewrite pushLabels_run.
  cbn [data requests clock_reads labels queriesData blockedData app].
  unfold pointTimes. rewrite map_map. cbn [Z.add].
  unfold bind, lift, modify, callUpdateChart.
  destruct (slice d k) as [e | q]; [reflexivity |].
  cbn [data requests clock_reads labels queriesData blockedData].
  destruct (slice a k) as [e | bl]; [reflexivity |].
  cbn [data requests clock_reads labels queriesData blockedData].
  destruct (updateChart _); reflexivity.
Qed.

(** Off arrays and strings [reconstruct] is the general block. *)
Lemma reconstruct_is_any d a :
  series_length d = None \/ series_length a = None ->
  reconstruct clock LocalTZA updateChart asNumber d a
  = reconstruct_any clock LocalTZA updateChart asNumber d a.
Proof.
  intros H. unfold reconstruct.
  destruct (series_length d); [| reflexivity].
  destruct (series_length a); [| reflexivity].
  destruct H; discriminate.
Qed.

End ReconstructAny.

(** X7: A history payload in which one of the two series is truthy but
    neither an array nor a string (a number, [true], an object) fails the
    traffic cycle with a [TypeError] and leaves no labels and no samples.
    When neither series is an object, the failure comes at a [slice] call
    of lines 102-103: by then the clock has been read twice. *)
Theorem history_series_not_sliceable_fails
        server clock LocalTZA opts updateChart asNumber
        (w w1 : world PiHoleTraffic.state) sid historyData d a :
  authenticate server PiHoleTraffic.auth_failed_message (baseUrl opts)
    (password_of opts) w = (w1, inr sid) ->
  server (statRequest (PiHoleTraffic.historyUrl opts) sid)
  = Response true (Some historyData) ->
  get historyData "domains_over_time" = inr d ->
  get historyData "ads_over_time" = inr a ->
  ToBoolean d = true -> ToBoolean a = true ->
  PiHoleTraffic.series_length d = None \/ PiHoleTraffic.series_length a = None ->
  let r := PiHoleTraffic.fetchData server clock LocalTZA opts updateChart
             asNumber w in
  result r = inl TypeError /\ final r = PiHoleTraffic.empty /\
  (plain_object d = false -> plain_object a = false ->
   clock_reads (fst r) = S (S (clock_reads w1))).
Proof.
  intros Hauth Hh Hd Ha Htd Hta Hshape r. subst r.
  pose proof (history_series_reach_reconstruct _ clock LocalTZA _ updateChart
                asNumber _ _ _ _ Hauth Hh d a Hd Ha Htd Hta) as Hrun.
  rewrite (reconstruct_is_any clock LocalTZA updateChart asNumber d a Hshape)
    in Hrun.
  assert (Hfail :
    result (PiHoleTraffic.attempt server clock LocalTZA opts updateChart
              asNumber w) = inl TypeError).
  { rewrite Hrun.
    destruct (reconstruct_any_fails clock LocalTZA updateChart asNumber d a
                (sent (statRequest (PiHoleTraffic.historyUrl opts) sid) w1) Hshape)
      as [w' [E _]].
    rewrite E. reflexivity. }
  destruct (traffic_fails_with server clock LocalTZA opts updateChart asNumber w
              TypeError Hfail) as [Hr Hf].
  split; [exact Hr |]. split; [exact Hf |].
  intros Hod Hoa.
  destruct (reconstruct_any_without_length clock LocalTZA updateChart asNumber
              d a (sent (statRequest (PiHoleTraffic.historyUrl opts) sid) w1)
              Hod Hoa Htd Hta Hshape) as [q E].
  unfold PiHoleTraffic.fetchData, try_catch. rewrite Hrun, E. reflexivity.
Qed.

(** *** Cycles that reconstruct *)

Lemma substring_length n : forall s,
  (n <= String.length s)%nat -> String.length (substring 0 n s) = n.
Proof.
  induction n as [| n IH]; intros s Hn.
  - destruct s; reflexivity.
  - destruct s as [| c s]; cbn in Hn |- *; [lia |].
    rewrite IH by lia. reflexivity.
Qed.

Lemma slice_within x a n :
  PiHoleTraffic.series_length x = Some a -> (n <= a)%nat ->
  exists v, PiHoleTraffic.slice x n = inr v /\
            PiHoleTraffic.series_length v = Some n.
Proof.
  intros Hx Hn. destruct x; cbn in Hx; try discriminate; inversion Hx; subst a.
  - eexists. split; [reflexivity |]. cbn. rewrite substring_length by exact Hn.
    reflexivity.
  - eexists. split; [reflexivity |]. cbn.
    rewrite firstn_length_le by exact Hn. reflexivity.
Qed.

Section ReconstructFacts.
Import PiHoleTraffic.

Variable clock : nat -> Z.
Variable LocalTZA : Z -> bool -> Z.
Variable updateChart : state -> option error.
Variable asNumber : value -> option number.

(** The reconstruction of any two values that have a length. *)
Lemma reconstruct_run d1 d2 a b (w : world state) :
  series_length d1 = Some a -> series_length d2 = Some b ->
  let n := Nat.min a b in
  exists q bl reads,
    slice d1 n = inr q /\ slice d2 n = inr bl /\
    series_length q = Some n /\ series_length bl = Some n /\
    let st := mkState (map (timeLabel LocalTZA)
                         (pointTimes (startOf clock LocalTZA n w) n)) q bl in
    reconstruct clock LocalTZA updateChart asNumber d1 d2 w
    = (mkWorld st (requests w) reads,
       match updateChart st with Some e => inl e | None => inr tt end).
Proof.
  intros H1 H2 n.
  destruct (slice_within d1 a n H1 ltac:(subst n; lia)) as [q [Hq Lq]].
  destruct (slice_within d2 b n H2 ltac:(subst n; lia)) as [bl [Hbl Lbl]].
  unfold reconstruct. rewrite H1, H2. fold n. cbv zeta.
  unfold bind at 1. cbn [modify].
  destruct (startTimeOf_run clock LocalTZA n
              (mkWorld (mkState [] (queriesData (data w)) (blockedData (data w)))
                 (requests w) (clock_reads w))) as [reads E].
  rewrite (bind_ok _ _ _ _ _ E). clear E.
  unfold bind at 1. rewrite pushLabels_run.
  cbn [data requests clock_reads labels queriesData blockedData app].
  unfold bind, lift, modify, callUpdateChart. rewrite Hq, Hbl.
  cbn [data requests clock_reads labels queriesData blockedData].
  exists q, bl, reads. repeat (split; [first [assumption | reflexivity] |]).
  unfold pointTimes. rewrite map_map. cbn [Z.add].
  destruct (updateChart _); reflexivity.
Qed.

(** Whenever the reconstruction returns, the labels and the two series it
    leaves have one and the same length. *)
Lemma reconstruct_keeps_lengths d1 d2 (w : world state) :
  result (reconstruct clock LocalTZA updateChart asNumber d1 d2 w) = inr tt ->
  let st := final (reconstruct clock LocalTZA updateChart asNumber d1 d2 w) in
  series_length (queriesData st) = Some (List.length (labels st)) /\
  series_length (blockedData st) = Some (List.length (labels st)).
Proof.
  destruct (series_length d1) as [a |] eqn:H1;
    [destruct (series_length d2) as [b |] eqn:H2 |].
  - destruct (reconstruct_run d1 d2 a b w H1 H2) as [q [bl [reads [_ [_ [Lq [Lbl E]]]]]]].
    cbv zeta in E. rewrite E. intros _. cbn.
    rewrite length_map, pointTimes_length. split; assumption.
  - rewrite (reconstruct_is_any clock LocalTZA updateChart asNumber d1 d2
               (or_intror H2)).
    destruct (reconstruct_any_fails clock LocalTZA updateChart asNumber d1 d2 w
                (or_intror H2)) as [w' [E _]].
    rewrite E. discriminate.
  - rewrite (reconstruct_is_any clock LocalTZA updateChart asNumber d1 d2
               (or_introl H1)).
    destruct (reconstruct_any_fails clock LocalTZA updateChart asNumber d1 d2 w
                (or_introl H1)) as [w' [E _]].
    rewrite E. discriminate.
Qed.

End ReconstructFacts.

(** The traffic [try] block either raises or comes down to a
    reconstruction. *)
Lemma traffic_attempt_shape server clock LocalTZA opts updateChart asNumber
      (w : world PiHoleTraffic.state) :
  (exists e, result (PiHoleTraffic.attempt server clock LocalTZA opts updateChart asNumber w)
             = inl e) \/
  (exists d1 d2 w2,
      PiHoleTraffic.attempt server clock LocalTZA opts updateChart asNumber w
      = PiHoleTraffic.reconstruct clock LocalTZA updateChart asNumber d1 d2 w2).
Proof.
  remember (PiHoleTraffic.attempt server clock LocalTZA opts updateChart asNumber w)
    as run eqn:Hrun.
  unfold PiHoleTraffic.attempt in Hrun. unfold bind at 1 in Hrun.
  destruct (authenticate server PiHoleTraffic.auth_failed_message (baseUrl opts)
              (password_of opts) w) as [w1 [e | sid]];
    [left; exists e; rewrite Hrun; reflexivity |].
  unfold bind at 1 in Hrun. unfold fetch in Hrun.
  destruct (server (statRequest (PiHoleTraffic.historyUrl opts) sid))
    as [| [|] [h |]];
    try (left; eexists; rewrite Hrun; reflexivity).
  unfold bind, lift in Hrun. cbn [ok negb throw_if ret json parsed] in Hrun.
  destruct (get h "domains_over_time") as [e | d];
    [left; exists e; rewrite Hrun; reflexivity |].
  destruct (ToBoolean d); cbn [negb] in Hrun;
    [| left; eexists; rewrite Hrun; reflexivity].
  destruct (get h "ads_over_time") as [e | a];
    [left; exists e; rewrite Hrun; reflexivity |].
  destruct (ToBoolean a); cbn [negb throw_if ret] in Hrun;
    [| left; eexists; rewrite Hrun; reflexivity].
  right. eauto.
Qed.

(** X8: After a traffic cycle, however it ended, the chart data are
    consistent: the two series have a length, and it is the number of
    labels (all three are empty after a failure). *)
Theorem traffic_labels_match_series
        server clock LocalTZA opts updateChart asNumber (w : world PiHoleTraffic.state) :
  let st := final (PiHoleTraffic.fetchData server clock LocalTZA opts updateChart asNumber w) in
  PiHoleTraffic.series_length (PiHoleTraffic.queriesData st)
  = Some (List.length (PiHoleTraffic.labels st)) /\
  PiHoleTraffic.series_length (PiHoleTraffic.blockedData st)
  = Some (List.length (PiHoleTraffic.labels st)).
Proof.
  cbv zeta.
  destruct (result (PiHoleTraffic.fetchData server clock LocalTZA opts updateChart asNumber w))
    as [e | []] eqn:Hr.
  - apply (traffic_failure server clock LocalTZA opts updateChart asNumber w e) in Hr.
    rewrite Hr. split; reflexivity.
  - assert (Ha : result (PiHoleTraffic.attempt server clock LocalTZA opts updateChart asNumber w)
                 = inr tt).
    { apply (try_catch_returns _ (PiHoleTraffic.recover)); [| exact Hr].
      intros e w'. exists e. reflexivity. }
    assert (Hf : PiHoleTraffic.fetchData server clock LocalTZA opts updateChart asNumber w
                 = PiHoleTraffic.attempt server clock LocalTZA opts updateChart asNumber w).
    { unfold PiHoleTraffic.fetchData, try_catch. unfold result in Ha.
      destruct (PiHoleTraffic.attempt server clock LocalTZA opts updateChart asNumber w)
        as [w' [e | []]]; cbn in Ha; [discriminate | reflexivity]. }
    rewrite Hf.
    destruct (traffic_attempt_shape server clock LocalTZA opts updateChart asNumber w)
      as [[e He] | [d1 [d2 [w2 E]]]]; [congruence |].
    rewrite E in Ha |- *.
    apply (reconstruct_keeps_lengths clock LocalTZA updateChart asNumber d1 d2 w2 Ha).
Qed.

(** X9: A traffic cycle whose payload carries two arrays: the cycle returns
    exactly when the chart update does, and then the data are the labels of
    the common length and the first samples of each array; when the chart
    update throws, its error is the cycle's and the data are cleared.  Two
    arrays of which one is empty give a cycle that returns with no labels
    and no samples. *)
Theorem traffic_cycle_of_arrays
        server clock LocalTZA opts updateChart asNumber
        (w w1 : world PiHoleTraffic.state) sid historyData l1 l2 :
  authenticate server PiHoleTraffic.auth_failed_message (baseUrl opts)
    (password_of opts) w = (w1, inr sid) ->
  server (statRequest (PiHoleTraffic.historyUrl opts) sid)
  = Response true (Some historyData) ->
  get historyData "domains_over_time" = inr (VArr l1) ->
  get historyData "ads_over_time" = inr (VArr l2) ->
  let n := Nat.min (List.length l1) (List.length l2) in
  let st := PiHoleTraffic.mkState
              (map (PiHoleTraffic.timeLabel LocalTZA)
                 (pointTimes (startOf clock LocalTZA n w1) n))
              (VArr (firstn n l1)) (VArr (firstn n l2)) in
  let r := PiHoleTraffic.fetchData server clock LocalTZA opts updateChart asNumber w in
  (updateChart st = None -> result r = inr tt /\ final r = st) /\
  (forall e, updateChart st = Some e ->
             result r = inl e /\ final r = PiHoleTraffic.empty) /\
  (l1 = [] \/ l2 = [] -> st = PiHoleTraffic.empty).
Proof.
  intros Hauth Hh Hd Ha n st r.
  pose proof (history_series_reach_reconstruct _ clock LocalTZA _ updateChart asNumber
                _ _ _ _ Hauth Hh (VArr l1) (VArr l2) Hd Ha eq_refl eq_refl) as E.
  destruct (reconstruct_arrays clock LocalTZA updateChart asNumber l1 l2
              (sent (statRequest (PiHoleTraffic.historyUrl opts) sid) w1))
    as [reads E'].
  cbv zeta in E'. fold n in E'.
  change (startOf clock LocalTZA n
            (sent (statRequest (PiHoleTraffic.historyUrl opts) sid) w1))
    with (startOf clock LocalTZA n w1) in E'.
  fold st in E'. rewrite E' in E. clear E'.
  split; [| split].
  - intros Hc. subst r. unfold PiHoleTraffic.fetchData, try_catch, result, final.
    rewrite E, Hc. split; reflexivity.
  - intros e Hc. subst r. unfold PiHoleTraffic.fetchData, try_catch, result, final.
    rewrite E, Hc. split; reflexivity.
  - intros [-> | ->]; subst st n; cbn [List.length Nat.min].
    + reflexivity.
    + rewrite Nat.min_0_r. reflexivity.
Qed.

(** *** Labels *)

Lemma label_table_complete h m :
  0 <= h < 24 -> 0 <= m < 60 ->
  In (PiHoleTraffic.formatLabel h m, (h, m)) label_table.
Proof.
  intros Hh Hm. unfold label_table. apply in_flat_map.
  exists (Z.to_nat h). split; [apply in_seq; lia |].
  apply in_map_iff. exists (Z.to_nat m).
  rewrite !Z2Nat.id by lia. split; [reflexivity | apply in_seq; lia].
Qed.

Lemma label_reads_back h m :
  0 <= h < 24 -> 0 <= m < 60 ->
  time_of_label label_table (PiHoleTraffic.formatLabel h m) = Some (h, m).
Proof.
  intros Hh Hm.
  assert (E : reads_back label_table = true) by (vm_compute; reflexivity).
  unfold reads_back in E. rewrite forallb_forall in E.
  specialize (E _ (label_table_complete h m Hh Hm)). cbn [fst snd] in E.
  destruct (time_of_label label_table (PiHoleTraffic.formatLabel h m))
    as [[h' m'] |]; [| discriminate].
  apply andb_prop in E. destruct E as [E1 E2].
  apply Z.eqb_eq in E1, E2. subst. reflexivity.
Qed.

(** X10: Two times of day with the same label are the same time of day:
    the label determines the hour and the minute. *)
Theorem label_determines_time_of_day h m h' m' :
  0 <= h < 24 -> 0 <= m < 60 -> 0 <= h' < 24 -> 0 <= m' < 60 ->
  PiHoleTraffic.formatLabel h m = PiHoleTraffic.formatLabel h' m' ->
  h = h' /\ m = m'.
Proof.
  intros Hh Hm Hh' Hm' E.
  pose proof (label_reads_back h m Hh Hm) as R.
  rewrite E, (label_reads_back h' m' Hh' Hm') in R.
  inversion R. split; reflexivity.
Qed.

Lemma same_label_same_time :
  (0 <= 17 < 24 /\ 0 <= 55 < 60) /\
  PiHoleTraffic.formatLabel 17 55 = PiHoleTraffic.formatLabel 17 55 /\
  (17 = 17 /\ 55 = 55).
Proof.
  assert (Hh : 0 <= 17 < 24) by lia.
  assert (Hm : 0 <= 55 < 60) by lia.
  assert (E : PiHoleTraffic.formatLabel 17 55 = PiHoleTraffic.formatLabel 17 55)
    by reflexivity.
  split; [split; assumption |]. split; [exact E |].
  exact (label_determines_time_of_day 17 55 17 55 Hh Hm Hh Hm E).
Defined.

Section FixedZone.
Import DateTime PiHoleTraffic.

Variable off : Z.

Lemma fixed_hours t :
  getHours (fixed_zone off) t = ((t + off) / 3600000) mod 24.
Proof. reflexivity. Qed.

Lemma fixed_minutes t :
  getMinutes (fixed_zone off) t = ((t + off) / 60000) mod 60.
Proof. reflexivity. Qed.

(** Instants less than a day apart, a whole number of ten-minute steps from
    each other, have different labels. *)
Lemma labels_of_a_day_differ startTime i j :
  0 <= i < j -> j - i < 144 ->
  timeLabel (fixed_zone off) (pointTime startTime i)
  <> timeLabel (fixed_zone off) (pointTime startTime j).
Proof.
  intros Hij Hd E. unfold timeLabel in E.
  apply label_determines_time_of_day in E;
    try apply getHours_range; try apply getMinutes_range.
  destruct E as [EH EM]. rewrite !fixed_hours in EH. rewrite !fixed_minutes in EM.
  unfold pointTime in EH, EM.
  Z.div_mod_to_equations. lia.
Qed.

Lemma labels_distinct startTime n :
  (n <= 144)%nat ->
  NoDup (map (timeLabel (fixed_zone off)) (pointTimes startTime n)).
Proof.
  intros Hn. unfold pointTimes. rewrite map_map.
  apply NoDup_nth with (d := EmptyString).
  rewrite length_map, length_seq. intros i j Hi Hj E.
  assert (Hnth : forall k, (k < n)%nat ->
            nth k (map (fun x => timeLabel (fixed_zone off)
                                   (pointTime startTime (Z.of_nat x))) (seq 0 n))
                EmptyString
            = timeLabel (fixed_zone off) (pointTime startTime (Z.of_nat k))).
  { intros k Hk.
    rewrite nth_indep with (d' := timeLabel (fixed_zone off)
                                    (pointTime startTime (Z.of_nat 0)))
      by (rewrite length_map, length_seq; exact Hk).
    rewrite (map_nth (fun x => timeLabel (fixed_zone off)
                                 (pointTime startTime (Z.of_nat x)))).
    rewrite seq_nth by exact Hk. reflexivity. }
  rewrite !Hnth in E by assumption.
  destruct (Nat.lt_trichotomy i j) as [Hlt | [Heq | Hgt]]; [| exact Heq |].
  - exfalso. apply (labels_of_a_day_differ startTime (Z.of_nat i) (Z.of_nat j));
      [lia | lia | exact E].
  - exfalso. apply (labels_of_a_day_differ startTime (Z.of_nat j) (Z.of_nat i));
      [lia | lia | symmetry; exact E].
Qed.

(** The label of an instant is that of the instant a day later. *)
Lemma label_of_next_day t :
  timeLabel (fixed_zone off) (t + 86400000) = timeLabel (fixed_zone off) t.
Proof.
  unfold timeLabel. rewrite !fixed_hours, !fixed_minutes.
  f_equal; Z.div_mod_to_equations; lia.
Qed.

(** From local midnight on, point [k] is labelled with the time of day
    [k] times ten minutes. *)
Lemma label_from_midnight today k :
  0 <= k ->
  timeLabel (fixed_zone off) (pointTime (setHours0 (fixed_zone off) today) k)
  = formatLabel ((k / 6) mod 24) (k mod 6 * 10).
Proof.
  intros Hk. unfold timeLabel. rewrite fixed_hours, fixed_minutes.
  unfold pointTime, setHours0, UTC, LocalTime, Day, fixed_zone, msPerDay.
  f_equal; Z.div_mod_to_equations; lia.
Qed.

End FixedZone.

(** X11: In a zone with a constant offset, the labels of a reconstructed
    series of at most 144 points are pairwise distinct, whichever instant
    the series starts at; an instant a day later has the same label again,
    so a longer series repeats its labels. *)
Theorem labels_within_a_day_are_distinct
        off clock updateChart asNumber (l1 l2 : list value) (w : world PiHoleTraffic.state) :
  let n := Nat.min (List.length l1) (List.length l2) in
  let r := PiHoleTraffic.reconstruct clock (DateTime.fixed_zone off) updateChart asNumber
             (VArr l1) (VArr l2) w in
  ((n <= 144)%nat -> NoDup (PiHoleTraffic.labels (final r))) /\
  (forall t, PiHoleTraffic.timeLabel (DateTime.fixed_zone off) (t + 86400000)
             = PiHoleTraffic.timeLabel (DateTime.fixed_zone off) t).
Proof.
  intros n r. split; [| apply label_of_next_day].
  intros Hn. subst r.
  destruct (reconstruct_arrays clock (DateTime.fixed_zone off) updateChart asNumber l1 l2 w)
    as [reads E].
  fold n in E. unfold final. rewrite E. cbn [fst data PiHoleTraffic.labels].
  apply labels_distinct. exact Hn.
Qed.

Lemma fifty_labels_are_distinct :
  (Nat.min (List.length (Scenario.samples 50)) (List.length (Scenario.samples 80))
   <= 144)%nat /\
  NoDup (PiHoleTraffic.labels
           (final (PiHoleTraffic.reconstruct Scenario.clock (DateTime.fixed_zone 0)
                     Scenario.no_chart_error Scenario.not_a_number
                     (VArr (Scenario.samples 50)) (VArr (Scenario.samples 80))
                     (fresh PiHoleTraffic.empty)))).
Proof.
  assert (Hn : (Nat.min (List.length (Scenario.samples 50))
                        (List.length (Scenario.samples 80)) <= 144)%nat)
    by (vm_compute; lia).
  split; [exact Hn |].
  destruct (labels_within_a_day_are_distinct 0 Scenario.clock
              Scenario.no_chart_error Scenario.not_a_number (Scenario.samples 50) (Scenario.samples 80)
              (fresh PiHoleTraffic.empty)) as [H _].
  exact (H Hn).
Defined.

(** X12: In a zone with a constant offset, a series whose common length is
    not 144 is labelled from local midnight: point [k] carries the time of
    day [k] times ten minutes (hour [k / 6] modulo 24, minute
    [10 * (k mod 6)]), so a series that is not empty starts at "12:00 AM". *)
Theorem labels_count_from_midnight
        off clock updateChart asNumber (l1 l2 : list value) (w : world PiHoleTraffic.state) :
  let n := Nat.min (List.length l1) (List.length l2) in
  let r := PiHoleTraffic.reconstruct clock (DateTime.fixed_zone off) updateChart asNumber
             (VArr l1) (VArr l2) w in
  n <> 144%nat ->
  PiHoleTraffic.labels (final r)
  = map (fun k => PiHoleTraffic.formatLabel ((Z.of_nat k / 6) mod 24)
                    (Z.of_nat k mod 6 * 10))
      (seq 0 n) /\
  (n <> 0%nat -> hd_error (PiHoleTraffic.labels (final r)) = Some "12:00 AM").
Proof.
  intros n r Hn. subst r.
  destruct (reconstruct_arrays clock (DateTime.fixed_zone off) updateChart asNumber l1 l2 w)
    as [reads E].
  fold n in E. unfold final. rewrite E. cbn [fst data PiHoleTraffic.labels].
  assert (Hl : map (PiHoleTraffic.timeLabel (DateTime.fixed_zone off))
                 (pointTimes (startOf clock (DateTime.fixed_zone off) n w) n)
               = map (fun k => PiHoleTraffic.formatLabel ((Z.of_nat k / 6) mod 24)
                                 (Z.of_nat k mod 6 * 10))
                   (seq 0 n)).
  { unfold pointTimes, startOf. rewrite map_map.
    apply Nat.eqb_neq in Hn. rewrite Hn.
    apply map_ext. intros k. apply label_from_midnight. lia. }
  rewrite Hl. split; [reflexivity |].
  intros Hz. destruct n as [| n']; [congruence |]. reflexivity.
Qed.

Lemma fifty_labels_start_at_midnight :
  Nat.min (List.length (Scenario.samples 50)) (List.length (Scenario.samples 80))
  <> 144%nat /\
  hd_error (PiHoleTraffic.labels
              (final (PiHoleTraffic.reconstruct Scenario.clock
                        (DateTime.fixed_zone 3600000) Scenario.no_chart_error Scenario.not_a_number
                        (VArr (Scenario.samples 50)) (VArr (Scenario.samples 80))
                        (fresh PiHoleTraffic.empty))))
  = Some "12:00 AM".
Proof.
  assert (Hn : Nat.min (List.length (Scenario.samples 50))
                       (List.length (Scenario.samples 80)) <> 144%nat)
    by (vm_compute; discriminate).
  split; [exact Hn |].
  destruct (labels_count_from_midnight 3600000 Scenario.clock
              Scenario.no_chart_error Scenario.not_a_number (Scenario.samples 50) (Scenario.samples 80)
              (fresh PiHoleTraffic.empty) Hn) as [_ H].
  apply H. vm_compute. discriminate.
Defined.

(** *** What the status/summary cycle leaves *)

Lemma some_undefined_object o fields (w : world PiHoleStats.state) :
  PiHoleStats.some_undefined (VObj o) fields w
  = (w, inr (existsb (fun f => is_undefined (lookup f o)) fields)).
Proof.
  induction fields as [| f fields IH]; cbn [PiHoleStats.some_undefined existsb].
  - reflexivity.
  - unfold bind, lift. cbn [get].
    destruct (is_undefined (lookup f o)); [reflexivity | exact IH].
Qed.

Lemma all_defined o fields :
  existsb (fun f => is_undefined (lookup f o)) fields = false ->
  forall f, In f fields -> lookup f o <> VUndefined.
Proof.
  intros H f Hin E.
  assert (Ht : existsb (fun f => is_undefined (lookup f o)) fields = true).
  { apply existsb_exists. exists f. split; [exact Hin |]. rewrite E. reflexivity. }
  congruence.
Qed.

Lemma emitted_is_object toFixed1 o blocking :
  exists o', emitted toFixed1 o blocking = VObj o'.
Proof. unfold emitted. destruct (lookup "ads_percentage_today" _); eauto. Qed.

Lemma emitted_other_field toFixed1 o blocking k :
  k <> "status" -> k <> "ads_percentage_today" ->
  get (emitted toFixed1 o blocking) k = inr (lookup k o).
Proof.
  intros H1 H2. unfold emitted.
  destruct (lookup "ads_percentage_today" _); cbn [get];
    rewrite ?(lookup_assign_other k "ads_percentage_today") by exact H2;
    rewrite (lookup_assign_other k "status") by exact H1; reflexivity.
Qed.

Lemma emitted_percentage toFixed1 o blocking :
  get (emitted toFixed1 o blocking) "ads_percentage_today"
  = inr (formatted toFixed1 (lookup "ads_percentage_today" o)).
Proof.
  unfold emitted, formatted.
  rewrite (lookup_assign_other "ads_percentage_today" "status") by discriminate.
  destruct (lookup "ads_percentage_today" o) eqn:E; cbn [get];
    rewrite ?lookup_assign_same;
    rewrite ?(lookup_assign_other "ads_percentage_today" "status") by discriminate;
    rewrite ?E; reflexivity.
Qed.

(** The status/summary [try] block either raises or comes down to the chart
    update of an emitted object. *)
Lemma stats_attempt_shape server opts toFixed1 updateChart
      (w : world PiHoleStats.state) :
  (exists e, result (PiHoleStats.attempt server opts toFixed1 updateChart w) = inl e) \/
  (exists o blocking (w3 : world PiHoleStats.state),
      (forall f, In f PiHoleStats.summary_fields -> lookup f o <> VUndefined) /\
      PiHoleStats.attempt server opts toFixed1 updateChart w
      = (if negb (hideChart opts)
         then PiHoleStats.callUpdateChart updateChart else ret tt)
          (mkWorld (emitted toFixed1 o blocking) (requests w3) (clock_reads w3))).
Proof.
  remember (PiHoleStats.attempt server opts toFixed1 updateChart w) as run eqn:Hrun.
  unfold PiHoleStats.attempt in Hrun. unfold bind at 1 in Hrun.
  destruct (authenticate server PiHoleStats.auth_failed_message (baseUrl opts)
              (password_of opts) w) as [w1 [e | sid]];
    [left; exists e; rewrite Hrun; reflexivity |].
  unfold bind at 1 in Hrun. unfold fetch in Hrun.
  destruct (server (statRequest (PiHoleStats.summaryUrl opts) sid))
    as [| [|] [j |]];
    try (left; eexists; rewrite Hrun; reflexivity).
  unfold bind at 1 in Hrun. cbn [ok negb throw_if ret] in Hrun.
  unfold bind at 1 in Hrun. cbn [json parsed ret] in Hrun.
  unfold bind at 1 in Hrun. unfold fetch in Hrun.
  destruct (server (statRequest (PiHoleStats.statusUrl opts) sid))
    as [| [|] [s |]];
    try (left; eexists; rewrite Hrun; reflexivity).
  unfold bind at 1 in Hrun. cbn [ok negb throw_if ret] in Hrun.
  unfold bind at 1 in Hrun. cbn [json parsed ret] in Hrun.
  destruct j as [| | b | q | str | l | o];
    try (left; eexists; rewrite Hrun; reflexivity).
  rewrite (bind_ok _ _ _ _ _ (some_undefined_object o _ _)) in Hrun.
  destruct (existsb (fun f => is_undefined (lookup f o)) PiHoleStats.summary_fields)
    eqn:Hall; [left; eexists; rewrite Hrun; reflexivity |].
  cbn [throw_if] in Hrun. unfold bind at 1 in Hrun. cbn [ret] in Hrun.
  unfold bind at 1 in Hrun. unfold lift at 1 in Hrun.
  destruct (get s "blocking") as [e | blocking];
    [left; exists e; rewrite Hrun; reflexivity |].
  right. exists o, blocking. eexists.
  split; [apply all_defined; exact Hall |].
  rewrite Hrun. cbv zeta. unfold emitted, bind, lift. cbn [PiHoleStats.set get].
  destruct (lookup "ads_percentage_today" _); reflexivity.
Qed.

(** The same, for the whole cycle. *)
Lemma stats_cycle_shape server opts toFixed1 updateChart
      (w : world PiHoleStats.state) :
  let r := PiHoleStats.fetchData server opts toFixed1 updateChart w in
  (exists e, result r = inl e /\ final r = PiHoleStats.empty) \/
  (exists o blocking,
      (forall f, In f PiHoleStats.summary_fields -> lookup f o <> VUndefined) /\
      result r = inr tt /\ final r = emitted toFixed1 o blocking).
Proof.
  cbv zeta.
  destruct (stats_attempt_shape server opts toFixed1 updateChart w)
    as [[e He] | [o [blocking [w3 [Hall E]]]]].
  - left. exists e.
    apply (stats_failure server opts toFixed1 updateChart w e) in He as Hr.
    split; [exact Hr |].
    apply (stats_failure server opts toFixed1 updateChart w e). exact Hr.
  - unfold PiHoleStats.fetchData, try_catch, result, final. rewrite E.
    destruct (hideChart opts); cbn [negb].
    + right. exists o, blocking. split; [exact Hall |]. split; reflexivity.
    + unfold PiHoleStats.callUpdateChart. cbn [data].
      destruct (updateChart (emitted toFixed1 o blocking)) as [e |].
      * left. exists e. split; reflexivity.
      * right. exists o, blocking. split; [exact Hall |]. split; reflexivity.
Qed.

(** X13: After a status/summary cycle, however it ended, the data is a
    non-null, non-array object.  After a cycle that returned, its [status]
    is "enabled" or "disabled", its four summary fields are defined, and its
    [ads_percentage_today] is not a number any more. *)
Theorem summary_data_is_well_formed
        server opts toFixed1 updateChart (w : world PiHoleStats.state) :
  let r := PiHoleStats.fetchData server opts toFixed1 updateChart w in
  plain_object (final r) = true /\
  (result r = inr tt ->
   (get (final r) "status" = inr (VStr "enabled") \/
    get (final r) "status" = inr (VStr "disabled")) /\
   (forall f, In f PiHoleStats.summary_fields ->
              exists x, get (final r) f = inr x /\ x <> VUndefined) /\
   (forall q, get (final r) "ads_percentage_today" <> inr (VNum q))).
Proof.
  cbv zeta.
  destruct (stats_cycle_shape server opts toFixed1 updateChart w)
    as [[e [Hr Hf]] | [o [blocking [Hall [Hr Hf]]]]]; cbv zeta in Hr, Hf.
  - rewrite Hf. split; [reflexivity |]. rewrite Hr. discriminate.
  - rewrite Hf. split.
    + destruct (emitted_is_object toFixed1 o blocking) as [o' ->]. reflexivity.
    + intros _. split; [| split].
      * rewrite emitted_status.
        destruct (ToBoolean _); [left | right]; reflexivity.
      * intros f Hin.
        assert (Hpct : forall v, v <> VUndefined -> formatted toFixed1 v <> VUndefined)
          by (intros v Hv; destruct v; cbn; congruence || discriminate).
        destruct Hin as [<- | [<- | [<- | [<- | []]]]];
          try (eexists; split;
               [apply emitted_other_field; discriminate
               | apply Hall; cbn; tauto]).
        eexists. split; [apply emitted_percentage |].
        apply Hpct, Hall. cbn. tauto.
      * intros q. rewrite emitted_percentage.
        destruct (lookup "ads_percentage_today" o); discriminate.
Qed.

Lemma spec_scenario_data_is_well_formed :
  let r := PiHoleStats.fetchData Scenario.blocking_off Scenario.keyed
             Scenario.one_decimal Scenario.no_chart_error
             (fresh PiHoleStats.empty) in
  result r = inr tt /\
  get (final r) "ads_percentage_today" <> inr (VNum 0).
Proof.
  intros r.
  assert (Hr : result r = inr tt) by reflexivity.
  split; [exact Hr |].
  destruct (summary_data_is_well_formed Scenario.blocking_off Scenario.keyed
              Scenario.one_decimal Scenario.no_chart_error
              (fresh PiHoleStats.empty)) as [_ H].
  destruct (H Hr) as [_ [_ Hpct]]. apply Hpct.
Defined.

(** X14: The object the status/summary cycle emits carries every field of
    the summary payload other than [status] and [ads_percentage_today]
    unchanged; the percentage is rendered with one decimal when it is a
    number and left as it is otherwise. *)
Theorem summary_fields_pass_through
        server opts toFixed1 updateChart (w w1 : world PiHoleStats.state)
        sid o statusJson blocking :
  authenticate server PiHoleStats.auth_failed_message (baseUrl opts)
    (password_of opts) w = (w1, inr sid) ->
  server (statRequest (PiHoleStats.summaryUrl opts) sid)
  = Response true (Some (VObj o)) ->
  server (statRequest (PiHoleStats.statusUrl opts) sid)
  = Response true (Some statusJson) ->
  (forall f, In f PiHoleStats.summary_fields -> lookup f o <> VUndefined) ->
  get statusJson "blocking" = inr blocking ->
  (hideChart opts = false -> updateChart (emitted toFixed1 o blocking) = None) ->
  let r := PiHoleStats.fetchData server opts toFixed1 updateChart w in
  (forall k, k <> "status" -> k <> "ads_percentage_today" ->
             get (final r) k = inr (lookup k o)) /\
  get (final r) "ads_percentage_today"
  = inr (formatted toFixed1 (lookup "ads_percentage_today" o)).
Proof.
  intros Hauth Hsum Hst Hall Hb Hchart r. subst r.
  destruct (valid_summary_emitted _ _ toFixed1 updateChart _ _ _ _ _
              Hauth Hsum Hst o blocking eq_refl Hall Hb Hchart)
    as [w3 [E Hd]].
  unfold final. rewrite E. cbn [fst]. rewrite Hd. split.
  - intros k H1 H2. apply emitted_other_field; assumption.
  - apply emitted_percentage.
Qed.

Lemma spec_scenario_counts_pass_through :
  let r := PiHoleStats.fetchData Scenario.blocking_off Scenario.keyed
             Scenario.one_decimal Scenario.no_chart_error
             (fresh PiHoleStats.empty) in
  get (final r) "domains_being_blocked" = inr (Scenario.num 120000) /\
  get (final r) "ads_percentage_today" = inr (VStr "0.0").
Proof.
  destruct (summary_fields_pass_through
              Scenario.blocking_off Scenario.keyed
              Scenario.one_decimal Scenario.no_chart_error
              (fresh PiHoleStats.empty)
              (mkWorld PiHoleStats.empty
                 [authRequest "http://pihole.local" "s3cr3t"] 0%nat)
              (VStr "abc") Scenario.summary
              (VObj [("blocking", VBool false)]) (VBool false)
              eq_refl eq_refl eq_refl) as [H1 H2].
  - intros f [<- | [<- | [<- | [<- | []]]]]; discriminate.
  - reflexivity.
  - reflexivity.
  - split; [apply H1; discriminate | exact H2].
Defined.

(** X15: A [null] body is not tolerated by the status/summary cycle.  A
    [null] summary payload always ends the cycle in an error and leaves the
    empty object; the summary is read only after the status fetch, so the
    error is a [TypeError] (not the validation error) once the status
    payload is in, and the error of the status fetch when that fetch fails.
    A [null] status payload after a valid summary ends the cycle in a
    [TypeError] and leaves the empty object. *)
Theorem null_summary_or_status_is_a_type_error
        server opts toFixed1 updateChart (w w1 : world PiHoleStats.state)
        sid summaryJson :
  authenticate server PiHoleStats.auth_failed_message (baseUrl opts)
    (password_of opts) w = (w1, inr sid) ->
  server (statRequest (PiHoleStats.summaryUrl opts) sid)
  = Response true (Some summaryJson) ->
  let status := statRequest (PiHoleStats.statusUrl opts) sid in
  let r := PiHoleStats.fetchData server opts toFixed1 updateChart w in
  (summaryJson = VNull ->
   (exists e, result r = inl e) /\
   final r = PiHoleStats.empty /\
   (forall statusJson,
       server status = Response true (Some statusJson) ->
       result r = inl TypeError) /\
   (forall e,
       fetch_error "Failed to fetch status" (server status) = Some e ->
       result r = inl e)) /\
  (forall o,
      summaryJson = VObj o ->
      (forall f, In f PiHoleStats.summary_fields -> lookup f o <> VUndefined) ->
      server status = Response true (Some VNull) ->
      result r = inl TypeError /\ final r = PiHoleStats.empty).
Proof.
  intros Hauth Hsum status r. subst r.
  assert (Hfail : forall e,
            result (PiHoleStats.attempt server opts toFixed1 updateChart w) = inl e ->
            result (PiHoleStats.fetchData server opts toFixed1 updateChart w) = inl e /\
            final (PiHoleStats.fetchData server opts toFixed1 updateChart w)
            = PiHoleStats.empty).
  { intros e H.
    apply (stats_failure server opts toFixed1 updateChart w e) in H as Hr.
    split; [exact Hr |].
    apply (stats_failure server opts toFixed1 updateChart w e). exact Hr. }
  assert (Hdelivered : forall statusJson,
            server status = Response true (Some statusJson) ->
            summaryJson = VNull ->
            result (PiHoleStats.attempt server opts toFixed1 updateChart w)
            = inl TypeError).
  { intros statusJson Hst En.
    destruct (stats_after_fetches _ _ toFixed1 updateChart _ _ _ _ _
                Hauth Hsum Hst) as [w2 E].
    rewrite E, En. reflexivity. }
  assert (Hdown : forall e,
            fetch_error "Failed to fetch status" (server status) = Some e ->
            result (PiHoleStats.attempt server opts toFixed1 updateChart w) = inl e).
  { intros e He. unfold PiHoleStats.attempt.
    rewrite (bind_ok _ _ _ _ _ Hauth).
    rewrite (fetch_json_ok _ _ _ _ _ _ Hsum).
    fold status. rewrite (failing_fetch _ _ _ _ _ _ He). reflexivity. }
  split.
  - intros En.
    assert (Hsome : exists e,
              result (PiHoleStats.attempt server opts toFixed1 updateChart w) = inl e).
    { destruct (server status) as [| [|] [statusJson |]] eqn:Hst.
      - exists TypeError. apply Hdown. reflexivity.
      - exists TypeError. apply (Hdelivered statusJson); [reflexivity | exact En].
      - exists SyntaxError. apply Hdown. reflexivity.
      - eexists. apply Hdown. reflexivity.
      - eexists. apply Hdown. reflexivity. }
    destruct Hsome as [e He]. destruct (Hfail e He) as [Hr Hf].
    split; [exists e; exact Hr |]. split; [exact Hf |]. split.
    + intros statusJson Hst. apply Hfail. apply (Hdelivered statusJson Hst En).
    + intros e' He'. apply Hfail. apply Hdown. exact He'.
  - intros o Eo Hall Hst. apply Hfail.
    destruct (stats_after_fetches _ _ toFixed1 updateChart _ _ _ _ _
                Hauth Hsum Hst) as [w2 E].
    rewrite E, Eo.
    rewrite (bind_ok _ _ _ _ _ (some_undefined_false o _ w2 Hall)).
    reflexivity.
Qed.

(** X16: What the status row shows.  After a cycle that raised, the text is
    "Disabled" and the value carries neither the [enabled] nor the
    [disabled] class; after a cycle that returned, the text is "Enabled"
    with the class [enabled], or "Disabled" with the class [disabled].  The
    read of [data.status] never throws. *)
Theorem status_row_after_a_cycle
        server opts toFixed1 updateChart (w : world PiHoleStats.state) :
  let r := PiHoleStats.fetchData server opts toFixed1 updateChart w in
  (forall e, result r = inl e ->
             PiHoleStatsView.statusText (final r) = inr "Disabled" /\
             PiHoleStatsView.statusClasses (final r) = inr []) /\
  (result r = inr tt ->
   (PiHoleStatsView.statusText (final r) = inr "Enabled" /\
    PiHoleStatsView.statusClasses (final r) = inr ["enabled"]) \/
   (PiHoleStatsView.statusText (final r) = inr "Disabled" /\
    PiHoleStatsView.statusClasses (final r) = inr ["disabled"])).
Proof.
  cbv zeta.
  destruct (stats_cycle_shape server opts toFixed1 updateChart w)
    as [[e [Hr Hf]] | [o [blocking [Hall [Hr Hf]]]]]; cbv zeta in Hr, Hf.
  - rewrite Hf, Hr. split; [| discriminate].
    intros e' _. split; reflexivity.
  - rewrite Hf, Hr. split; [discriminate |]. intros _.
    unfold PiHoleStatsView.statusText, PiHoleStatsView.statusClasses.
    rewrite emitted_status.
    destruct (ToBoolean _); [left | right]; split; reflexivity.
Qed.

Lemma unreachable_status_reads_disabled :
  let r := PiHoleStats.fetchData Scenario.unreachable Scenario.keyed
             Scenario.one_decimal Scenario.no_chart_error
             (fresh (VObj [("status", VStr "enabled")])) in
  result r = inl TypeError /\
  PiHoleStatsView.statusText (final r) = inr "Disabled" /\
  PiHoleStatsView.statusClasses (final r) = inr [].
Proof.
  intros r.
  assert (Hr : result r = inl TypeError) by reflexivity.
  split; [exact Hr |].
  destruct (status_row_after_a_cycle Scenario.unreachable Scenario.keyed
              Scenario.one_decimal Scenario.no_chart_error
              (fresh (VObj [("status", VStr "enabled")]))) as [H _].
  exact (H TypeError Hr).
Defined.

(** *** What the top-domains cycle leaves *)

Lemma fetch_outcome_cases message o :
  (exists e, fetch_error message o = Some e) \/
  (exists v, o = Response true (Some v)).
Proof. destruct o as [| [|] [v |]]; cbn; eauto. Qed.

Lemma bind_raises {D A B} (m : M D A) (k : A -> M D B) w w' e :
  m w = (w', inl e) -> bind m k w = (w', inl e).
Proof. intros H. unfold bind. rewrite H. reflexivity. Qed.

Lemma top_cycle_shape server opts (w : world PiHoleTopQueries.state) :
  let r := PiHoleTopQueries.fetchData server opts w in
  (exists e, result r = inl e /\ final r = PiHoleTopQueries.empty) \/
  (exists b a,
      passes_guard b = true /\ a <> VNull /\
      result r = inr tt /\
      final r = PiHoleTopQueries.mkState (PiHoleTopQueries.as_mapping b)
                  (PiHoleTopQueries.as_mapping a)).
Proof.
  cbv zeta.
  assert (Hfail : forall e,
             result (PiHoleTopQueries.attempt server opts w) = inl e ->
             exists e', result (PiHoleTopQueries.fetchData server opts w) = inl e' /\
                        final (PiHoleTopQueries.fetchData server opts w)
                        = PiHoleTopQueries.empty).
  { intros e H. exists e.
    apply (top_queries_failure server opts w e) in H as Hr.
    split; [exact Hr |]. apply (top_queries_failure server opts w e). exact Hr. }
  destruct (authenticate server PiHoleTopQueries.auth_failed_message (baseUrl opts)
              (password_of opts) w) as [w1 [e | sid]] eqn:Hauth.
  { left. apply (Hfail e). unfold PiHoleTopQueries.attempt.
    rewrite (bind_raises _ _ _ _ _ Hauth). reflexivity. }
  destruct (fetch_outcome_cases "Failed to fetch top blocked domains"
              (server (statRequest (PiHoleTopQueries.blockedUrl opts) sid)))
    as [[e He] | [b Hb]].
  { left. apply (Hfail e). unfold PiHoleTopQueries.attempt.
    rewrite (bind_ok _ _ _ _ _ Hauth), (failing_fetch _ _ _ _ _ _ He). reflexivity. }
  destruct (fetch_outcome_cases "Failed to fetch top allowed domains"
              (server (statRequest (PiHoleTopQueries.allowedUrl opts) sid)))
    as [[e He] | [a Ha]].
  { left. apply (Hfail e). unfold PiHoleTopQueries.attempt.
    rewrite (bind_ok _ _ _ _ _ Hauth), (fetch_json_ok _ _ _ _ _ _ Hb),
      (failing_fetch _ _ _ _ _ _ He). reflexivity. }
  destruct (passes_guard b) eqn:Hg.
  - assert (Hu : b <> VUndefined) by (intros ->; discriminate).
    destruct (is_null a) eqn:Hn.
    + left. exists PiHoleTopQueries.unexpected.
      apply (null_allowed_rejects _ _ _ _ _ _ _ Hauth Hb Ha); [| exact Hu].
      destruct a; try discriminate. reflexivity.
    + right. exists b, a.
      assert (Hna : a <> VNull) by (intros ->; discriminate).
      destruct (guard_accepts _ _ _ _ _ _ _ Hauth Hb Ha Hg Hna) as [H1 H2].
      repeat split; assumption.
  - left. destruct b; cbn in Hg; try discriminate.
    + apply (Hfail TypeError).
      destruct (top_after_fetches _ _ _ _ _ _ _ Hauth Hb Ha) as [w2 E].
      rewrite E. reflexivity.
    + exists PiHoleTopQueries.unexpected.
      apply (guard_rejects _ _ _ _ _ _ _ Hauth Hb Ha); [reflexivity | discriminate].
    + exists PiHoleTopQueries.unexpected.
      apply (guard_rejects _ _ _ _ _ _ _ Hauth Hb Ha); [exact Hg | discriminate].
Qed.

Lemma as_mapping_is_object x :
  x <> VNull -> plain_object (PiHoleTopQueries.as_mapping x) = true.
Proof. destruct x; intros H; try reflexivity. congruence. Qed.

(** X17: After a top-domains cycle, however it ended and whatever the
    appliance sent, both [top_ads] and [top_queries] are non-null, non-array
    objects: what the template iterates over and hands to [Object.keys] is
    never [null], an array or a primitive. *)
Theorem top_domains_data_are_objects
        server opts (w : world PiHoleTopQueries.state) :
  let r := PiHoleTopQueries.fetchData server opts w in
  plain_object (PiHoleTopQueries.top_ads (final r)) = true /\
  plain_object (PiHoleTopQueries.top_queries (final r)) = true.
Proof.
  cbv zeta.
  destruct (top_cycle_shape server opts w)
    as [[e [_ Hf]] | [b [a [Hg [Hna [_ Hf]]]]]]; cbv zeta in Hf; rewrite Hf.
  - split; reflexivity.
  - cbn [PiHoleTopQueries.top_ads PiHoleTopQueries.top_queries].
    split; apply as_mapping_is_object; [| exact Hna].
    intros ->. discriminate.
Qed.

(** X18: Two object payloads replace the data wholesale: when the blocked
    payload is an object without a truthy [top_sources] and the allowed
    payload is any object (its [top_sources] is not looked at), the cycle
    returns and the data are exactly the two payloads, whatever the widget
    held before. *)
Theorem top_domains_objects_are_emitted_as_they_are
        server opts (w w1 : world PiHoleTopQueries.state) sid ob oa :
  authenticate server PiHoleTopQueries.auth_failed_message (baseUrl opts)
    (password_of opts) w = (w1, inr sid) ->
  server (statRequest (PiHoleTopQueries.blockedUrl opts) sid)
  = Response true (Some (VObj ob)) ->
  server (statRequest (PiHoleTopQueries.allowedUrl opts) sid)
  = Response true (Some (VObj oa)) ->
  ToBoolean (lookup "top_sources" ob) = false ->
  let r := PiHoleTopQueries.fetchData server opts w in
  result r = inr tt /\
  final r = PiHoleTopQueries.mkState (VObj ob) (VObj oa).
Proof.
  intros Hauth Hb Ha Hts r. subst r.
  apply (guard_accepts _ _ _ _ _ _ _ Hauth Hb Ha); [| discriminate].
  cbn. rewrite Hts. reflexivity.
Qed.

Lemma sources_as_allowed_payload_is_emitted :
  let server := Scenario.answer
                  [(Scenario.blocked10, Scenario.json_ok Scenario.ranking);
                   (Scenario.allowed10, Scenario.json_ok (VObj Scenario.sources))] in
  let r := PiHoleTopQueries.fetchData server Scenario.anonymous
             (fresh (PiHoleTopQueries.mkState (VObj Scenario.sources)
                       (VObj Scenario.sources))) in
  result r = inr tt /\
  final r = PiHoleTopQueries.mkState Scenario.ranking (VObj Scenario.sources).
Proof.
  intros server r.
  apply (top_domains_objects_are_emitted_as_they_are server Scenario.anonymous
           (fresh (PiHoleTopQueries.mkState (VObj Scenario.sources)
                     (VObj Scenario.sources)))
           (fresh (PiHoleTopQueries.mkState (VObj Scenario.sources)
                     (VObj Scenario.sources)))
           VNull
           [("ads.example.com", Scenario.num 42);
            ("tracker.example.net", Scenario.num 7)]
           Scenario.sources eq_refl eq_refl eq_refl eq_refl).
Defined.

(** *** Authentication that fails, and mounting *)

(** X19: With a secret configured, the authentication block raises a
    [TypeError] when the appliance cannot be reached or answers [null], and
    a [SyntaxError] when the answer is not JSON; it never looks at the HTTP
    status of the answer.  In each case its one request has gone out. *)
Theorem authentication_failure_modes
        (D : Type) server message base password (w : world D) :
  password <> "" ->
  let r := authRequest base password in
  let run := authenticate server message base password w in
  (server r = NetworkError -> run = (sent r w, inl TypeError)) /\
  (forall o, server r = Response o None -> run = (sent r w, inl SyntaxError)) /\
  (forall o, server r = Response o (Some VNull) -> run = (sent r w, inl TypeError)) /\
  (forall o j server',
      server r = Response o (Some j) ->
      server' r = Response (negb o) (Some j) ->
      authenticate server' message base password w = run).
Proof.
  intros Hp r run. subst r run.
  apply String.eqb_neq in Hp.
  unfold authenticate. rewrite Hp. cbn [negb].
  split; [| split; [| split]].
  - intros H. unfold bind, fetch. rewrite H. reflexivity.
  - intros o H. unfold bind, fetch. rewrite H. reflexivity.
  - intros o H. unfold bind, fetch. rewrite H. reflexivity.
  - intros o j server' H H'.
    rewrite (bind_ok _ _ _ _ _ (fetch_ok _ _ _ _ _ H)).
    rewrite (bind_ok _ _ _ _ _ (fetch_ok _ _ _ _ _ H')).
    reflexivity.
Qed.

Lemma unreachable_authentication_is_a_type_error :
  "s3cr3t" <> "" /\
  authenticate (D:=unit) Scenario.unreachable "no session" "http://pihole.local"
    "s3cr3t" (fresh tt)
  = (sent (authRequest "http://pihole.local" "s3cr3t") (fresh tt), inl TypeError).
Proof.
  assert (Hp : "s3cr3t" <> "") by discriminate.
  split; [exact Hp |].
  destruct (authentication_failure_modes unit Scenario.unreachable "no session"
              "http://pihole.local" "s3cr3t" (fresh tt) Hp) as [H _].
  apply H. reflexivity.
Defined.

(** X20: When the authentication block raises, the cycle of each widget
    raises the same error, sends no statistics request at all and leaves
    the empty default as data. *)
Theorem failed_authentication_stops_the_cycle :
  (forall server opts (w w1 : world PiHoleTopQueries.state) e,
      authenticate server PiHoleTopQueries.auth_failed_message (baseUrl opts)
        (password_of opts) w = (w1, inl e) ->
      let r := PiHoleTopQueries.fetchData server opts w in
      result r = inl e /\ final r = PiHoleTopQueries.empty /\
      issued r = (requests w ++ auth_plan opts)%list) /\
  (forall server opts toFixed1 updateChart (w w1 : world PiHoleStats.state) e,
      authenticate server PiHoleStats.auth_failed_message (baseUrl opts)
        (password_of opts) w = (w1, inl e) ->
      let r := PiHoleStats.fetchData server opts toFixed1 updateChart w in
      result r = inl e /\ final r = PiHoleStats.empty /\
      issued r = (requests w ++ auth_plan opts)%list) /\
  (forall server clock LocalTZA opts updateChart asNumber
          (w w1 : world PiHoleTraffic.state) e,
      authenticate server PiHoleTraffic.auth_failed_message (baseUrl opts)
        (password_of opts) w = (w1, inl e) ->
      let r := PiHoleTraffic.fetchData server clock LocalTZA opts updateChart asNumber w in
      result r = inl e /\ final r = PiHoleTraffic.empty /\
      issued r = (requests w ++ auth_plan opts)%list).
Proof.
  split; [| split].
  - intros server opts w w1 e Hauth r. subst r.
    pose proof (authenticate_requests server PiHoleTopQueries.auth_failed_message
                  opts w) as Hw1.
    rewrite Hauth in Hw1. cbn [fst] in Hw1.
    unfold PiHoleTopQueries.fetchData, try_catch, PiHoleTopQueries.attempt.
    rewrite (bind_raises _ _ _ _ _ Hauth).
    unfold result, final, issued, PiHoleTopQueries.recover, bind, modify, throw.
    cbn. split; [reflexivity |]. split; [reflexivity | exact Hw1].
  - intros server opts toFixed1 updateChart w w1 e Hauth r. subst r.
    pose proof (authenticate_requests server PiHoleStats.auth_failed_message
                  opts w) as Hw1.
    rewrite Hauth in Hw1. cbn [fst] in Hw1.
    unfold PiHoleStats.fetchData, try_catch, PiHoleStats.attempt.
    rewrite (bind_raises _ _ _ _ _ Hauth).
    unfold result, final, issued, PiHoleStats.recover, bind, modify, throw.
    cbn. split; [reflexivity |]. split; [reflexivity | exact Hw1].
  - intros server clock LocalTZA opts updateChart asNumber w w1 e Hauth r. subst r.
    pose proof (authenticate_requests server PiHoleTraffic.auth_failed_message
                  opts w) as Hw1.
    rewrite Hauth in Hw1. cbn [fst] in Hw1.
    unfold PiHoleTraffic.fetchData, try_catch, PiHoleTraffic.attempt.
    rewrite (bind_raises _ _ _ _ _ Hauth).
    unfold result, final, issued, PiHoleTraffic.recover, bind, modify, throw.
    cbn. split; [reflexivity |]. split; [reflexivity | exact Hw1].
Qed.

Lemma unreachable_appliance_gets_one_request :
  let r := PiHoleStats.fetchData Scenario.unreachable Scenario.keyed
             Scenario.one_decimal Scenario.no_chart_error
             (fresh (VObj Scenario.summary)) in
  result r = inl TypeError /\ final r = PiHoleStats.empty /\
  issued r = [authRequest "http://pihole.local" "s3cr3t"].
Proof.
  destruct failed_authentication_stops_the_cycle as [_ [H _]].
  apply (H Scenario.unreachable Scenario.keyed Scenario.one_decimal
           Scenario.no_chart_error (fresh (VObj Scenario.summary))
           (sent (authRequest "http://pihole.local" "s3cr3t")
              (fresh (VObj Scenario.summary)))
           TypeError).
  reflexivity.
Defined.

(** X21: [mounted()] of each component never lets an error out: it runs
    the cycle, leaves the world exactly as the cycle left it, and returns;
    so after it the data are those of a cycle that returned or, when the
    cycle raised, the empty default. *)
Theorem mounting_swallows_the_error :
  (forall server opts w,
      let c := PiHoleTopQueries.fetchData server opts w in
      let r := PiHoleTopQueriesView.mounted server opts w in
      result r = inr tt /\ fst r = fst c /\
      (forall e, result c = inl e -> final r = PiHoleTopQueries.empty)) /\
  (forall server opts toFixed1 updateChart w,
      let c := PiHoleStats.fetchData server opts toFixed1 updateChart w in
      let r := PiHoleStatsView.mounted server opts toFixed1 updateChart w in
      result r = inr tt /\ fst r = fst c /\
      (forall e, result c = inl e -> final r = PiHoleStats.empty)) /\
  (forall server clock LocalTZA opts updateChart asNumber w,
      let c := PiHoleTraffic.fetchData server clock LocalTZA opts updateChart asNumber w in
      let r := PiHoleTrafficView.mounted server clock LocalTZA opts updateChart asNumber w in
      result r = inr tt /\ fst r = fst c /\
      (forall e, result c = inl e -> final r = PiHoleTraffic.empty)).
Proof.
  assert (Hswallow : forall D (m : M D unit) w,
             result (swallowed m w) = inr tt /\ fst (swallowed m w) = fst (m w)).
  { intros D m w. unfold swallowed, try_catch, result.
    destruct (m w) as [w' [e | []]]; split; reflexivity. }
  split; [| split].
  - intros server opts w c r. subst c r. unfold PiHoleTopQueriesView.mounted.
    destruct (Hswallow _ (PiHoleTopQueries.fetchData server opts) w) as [H1 H2].
    split; [exact H1 |]. split; [exact H2 |].
    intros e He. unfold final. rewrite H2.
    apply (top_queries_failure server opts w e). exact He.
  - intros server opts toFixed1 updateChart w c r. subst c r.
    unfold PiHoleStatsView.mounted.
    destruct (Hswallow _ (PiHoleStats.fetchData server opts toFixed1 updateChart) w)
      as [H1 H2].
    split; [exact H1 |]. split; [exact H2 |].
    intros e He. unfold final. rewrite H2.
    apply (stats_failure server opts toFixed1 updateChart w e). exact He.
  - intros server clock LocalTZA opts updateChart asNumber w c r. subst c r.
    unfold PiHoleTrafficView.mounted.
    destruct (Hswallow _ (PiHoleTraffic.fetchData server clock LocalTZA opts
                            updateChart asNumber) w) as [H1 H2].
    split; [exact H1 |]. split; [exact H2 |].
    intros e He. unfold final. rewrite H2.
    apply (traffic_failure server clock LocalTZA opts updateChart asNumber w e). exact He.
Qed.

Lemma mounting_on_unreachable_appliance :
  let c := PiHoleTopQueries.fetchData Scenario.unreachable Scenario.keyed
             (fresh (PiHoleTopQueries.mkState Scenario.ranking Scenario.ranking)) in
  let r := PiHoleTopQueriesView.mounted Scenario.unreachable Scenario.keyed
             (fresh (PiHoleTopQueries.mkState Scenario.ranking Scenario.ranking)) in
  result c = inl TypeError /\ result r = inr tt /\
  final r = PiHoleTopQueries.empty.
Proof.
  intros c r.
  assert (Hc : result c = inl TypeError) by reflexivity.
  split; [exact Hc |].
  destruct mounting_swallows_the_error as [H _].
  destruct (H Scenario.unreachable Scenario.keyed
              (fresh (PiHoleTopQueries.mkState Scenario.ranking Scenario.ranking)))
    as [H1 [_ H3]].
  split; [exact H1 | exact (H3 TypeError Hc)].
Defined.


(** *** The further properties at work *)

Lemma granted_cycle_sends_three_requests :
  let r := PiHoleStats.fetchData Scenario.blocking_off Scenario.keyed
             Scenario.one_decimal Scenario.no_chart_error
             (fresh PiHoleStats.empty) in
  result r = inr tt /\
  exists sid,
    issued r = (auth_plan Scenario.keyed
                ++ [statRequest (PiHoleStats.summaryUrl Scenario.keyed) sid;
                    statRequest (PiHoleStats.statusUrl Scenario.keyed) sid])%list.
Proof.
  intros r.
  assert (Hr : result r = inr tt) by reflexivity.
  split; [exact Hr |].
  destruct requests_follow_the_plan as [_ [H _]].
  destruct (H Scenario.blocking_off Scenario.keyed Scenario.one_decimal
              Scenario.no_chart_error (fresh PiHoleStats.empty))
    as [sid [new [E [_ Hs]]]].
  exists sid. cbv zeta in E, Hs. rewrite <- (Hs Hr). exact E.
Defined.

Lemma blocked_http_error_stops_the_cycle :
  let r := PiHoleTopQueries.fetchData Cases.blocked_down Scenario.anonymous
             (fresh (PiHoleTopQueries.mkState Scenario.ranking Scenario.ranking)) in
  result r = inl (Error "Failed to fetch top blocked domains") /\
  final r = PiHoleTopQueries.empty /\
  issued r = [statRequest Scenario.blocked10 VNull].
Proof.
  destruct (top_domains_fetch_failure Cases.blocked_down Scenario.anonymous
              (fresh (PiHoleTopQueries.mkState Scenario.ranking Scenario.ranking))
              (fresh (PiHoleTopQueries.mkState Scenario.ranking Scenario.ranking))
              VNull eq_refl) as [H _].
  apply (H (Error "Failed to fetch top blocked domains")). reflexivity.
Defined.

Lemma summary_http_error_stops_the_cycle :
  let r := PiHoleStats.fetchData Cases.summary_down Scenario.keyed
             Scenario.one_decimal Scenario.no_chart_error
             (fresh (VObj Scenario.summary)) in
  result r = inl (Error "Failed to fetch summary data") /\
  final r = PiHoleStats.empty /\
  issued r = [authRequest "http://pihole.local" "s3cr3t";
              statRequest Cases.summaryUrl (VStr "abc")].
Proof.
  destruct (summary_fetch_failure Cases.summary_down Scenario.keyed
              Scenario.one_decimal Scenario.no_chart_error
              (fresh (VObj Scenario.summary))
              (sent (authRequest "http://pihole.local" "s3cr3t")
                 (fresh (VObj Scenario.summary)))
              (VStr "abc") eq_refl) as [H _].
  apply (H (Error "Failed to fetch summary data")). reflexivity.
Defined.

Lemma garbled_history_is_a_syntax_error :
  let r := PiHoleTraffic.fetchData Cases.history_garbled Scenario.clock
             (DateTime.fixed_zone 0) Scenario.anonymous Scenario.no_chart_error Scenario.not_a_number
             (fresh (PiHoleTraffic.mkState ["9:00 AM"] (VArr [Scenario.num 1])
                       (VArr [Scenario.num 0]))) in
  result r = inl SyntaxError /\ final r = PiHoleTraffic.empty.
Proof.
  intros r.
  destruct (history_fetch_failure Cases.history_garbled Scenario.clock
              (DateTime.fixed_zone 0) Scenario.anonymous Scenario.no_chart_error Scenario.not_a_number
              (fresh (PiHoleTraffic.mkState ["9:00 AM"] (VArr [Scenario.num 1])
                        (VArr [Scenario.num 0])))
              (fresh (PiHoleTraffic.mkState ["9:00 AM"] (VArr [Scenario.num 1])
                        (VArr [Scenario.num 0])))
              VNull SyntaxError eq_refl eq_refl) as [H1 [H2 _]].
  split; [exact H1 | exact H2].
Defined.

Lemma history_without_ads_fails :
  let r := PiHoleTraffic.fetchData Cases.history_halved Scenario.clock
             (DateTime.fixed_zone 0) Scenario.anonymous Scenario.no_chart_error Scenario.not_a_number
             (fresh PiHoleTraffic.empty) in
  result r = inl PiHoleTraffic.unexpected /\ final r = PiHoleTraffic.empty.
Proof.
  destruct (history_payload_without_series_fails Cases.history_halved Scenario.clock
              (DateTime.fixed_zone 0) Scenario.anonymous Scenario.no_chart_error Scenario.not_a_number
              (fresh PiHoleTraffic.empty) (fresh PiHoleTraffic.empty)
              VNull Cases.half_history eq_refl eq_refl) as [_ H].
  apply (H (VArr [Scenario.num 1; Scenario.num 2])); [reflexivity |].
  right. exists VUndefined. split; reflexivity.
Defined.

Lemma history_with_a_number_fails :
  let r := PiHoleTraffic.fetchData Cases.history_odd Scenario.clock
             (DateTime.fixed_zone 0) Scenario.anonymous Scenario.no_chart_error
             Scenario.not_a_number (fresh PiHoleTraffic.empty) in
  get Cases.odd_history "ads_over_time" = inr (Scenario.num 5) /\
  PiHoleTraffic.series_length (Scenario.num 5) = None /\
  result r = inl TypeError /\ final r = PiHoleTraffic.empty /\
  clock_reads (fst r) = 2%nat.
Proof.
  split; [reflexivity |]. split; [reflexivity |].
  destruct (history_series_not_sliceable_fails Cases.history_odd Scenario.clock
              (DateTime.fixed_zone 0) Scenario.anonymous Scenario.no_chart_error
              Scenario.not_a_number
              (fresh PiHoleTraffic.empty) (fresh PiHoleTraffic.empty)
              VNull Cases.odd_history
              (VArr [Scenario.num 1; Scenario.num 2]) (Scenario.num 5)
              eq_refl eq_refl eq_refl eq_refl eq_refl eq_refl
              (or_intror eq_refl))
    as [Hr [Hf Hc]].
  split; [exact Hr |]. split; [exact Hf |].
  exact (Hc eq_refl eq_refl).
Defined.

Lemma short_history_is_truncated :
  let r := PiHoleTraffic.fetchData Cases.history_short Scenario.clock
             (DateTime.fixed_zone 0) Scenario.anonymous Scenario.no_chart_error Scenario.not_a_number
             (fresh PiHoleTraffic.empty) in
  result r = inr tt /\
  final r = PiHoleTraffic.mkState ["12:00 AM"; "12:10 AM"]
              (VArr [Scenario.num 10; Scenario.num 20])
              (VArr [Scenario.num 1; Scenario.num 2]).
Proof.
  destruct (traffic_cycle_of_arrays Cases.history_short Scenario.clock
              (DateTime.fixed_zone 0) Scenario.anonymous Scenario.no_chart_error Scenario.not_a_number
              (fresh PiHoleTraffic.empty) (fresh PiHoleTraffic.empty)
              VNull Cases.short_history
              [Scenario.num 10; Scenario.num 20; Scenario.num 30]
              [Scenario.num 1; Scenario.num 2]
              eq_refl eq_refl eq_refl eq_refl) as [H _].
  apply H. reflexivity.
Defined.

Lemma null_summary_is_a_type_error :
  let r := PiHoleStats.fetchData Cases.summary_null Scenario.keyed
             Scenario.one_decimal Scenario.no_chart_error
             (fresh (VObj Scenario.summary)) in
  result r = inl TypeError /\ final r = PiHoleStats.empty.
Proof.
  destruct (null_summary_or_status_is_a_type_error Cases.summary_null Scenario.keyed
              Scenario.one_decimal Scenario.no_chart_error
              (fresh (VObj Scenario.summary))
              (sent (authRequest "http://pihole.local" "s3cr3t")
                 (fresh (VObj Scenario.summary)))
              (VStr "abc") VNull
              eq_refl eq_refl) as [H _].
  destruct (H eq_refl) as [_ [Hf [Hd _]]].
  split; [| exact Hf].
  apply (Hd (VObj [("blocking", VBool true)])). reflexivity.
Defined.
